(** * GL bonus reconciler: checkpoint store, accumulator, conversion,
      calculation engine and orchestration, embedded from the Python sources

    The development follows the modules of [src/app/engine]:
    - [Py]         : Python exceptions and results shared by every module;
    - [Recovery]   : [biaRecovery.py], the durable per-country checkpoint store;
    - [Processor]  : [biaProcessor.py], the accumulator, the FBL3N conversion
                     and the calculation engine;
    - [Controller] : [biaController.py], the export stages, the exchange-rate
                     ladder of [reconcile] and [send_notification];
    - [Dates]      : [biaDates2.py], the dates of a reconciliation.

    Python dictionaries are [gmap]s, amounts are IEEE binary64 numbers
    ([PrimFloat]), a missing value ([pd.NA], [None]) is [None] or the [NA]
    cell, and a Python exception is the [Raise] result; the dates are those
    of [datetime.date], from 0001-01-01 to 9999-12-31, and a date outside
    them is the [OverflowError] outcome. *)

From Stdlib Require Import Floats.PrimFloat Floats.SpecFloat Floats.FloatOps.
From Stdlib Require Import ZArith String Ascii List Bool Lia Sorted.
From Stdlib Require Import FunctionalExtensionality.
From stdpp Require Import base option list gmap strings pretty.

Set Warnings "-inexact-float".

Local Open Scope string_scope.
Local Open Scope Z_scope.

(* ===================================================================== *)
(** * Python results *)
(* ===================================================================== *)

Module Py.

(** The exception classes the modelled code raises or catches. *)
Inductive exn : Type :=
| KeyError
| ValueError
| RuntimeError
| TypeError
| AttributeError
| AssertionError
| TimeoutError
| ResponseError
| SapRuntimeError
| NoDataFoundWarning
| Exception.

Inductive result (A : Type) : Type :=
| Ok (a : A)
| Raise (e : exn).

Arguments Ok {A} a.
Arguments Raise {A} e.

Definition bind {A B : Type} (r : result A) (k : A -> result B) : result B :=
  match r with
  | Ok a => k a
  | Raise e => Raise e
  end.

Definition is_ok {A : Type} (r : result A) : bool :=
  match r with Ok _ => true | Raise _ => false end.

Definition raises {A : Type} (r : result A) : Prop :=
  exists e, r = Raise e.

(** [d[k]] on a dictionary: [KeyError] when the key is missing. *)
Definition getitem `{Countable K} {V : Type} (d : gmap K V) (k : K) : result V :=
  match d !! k with
  | Some v => Ok v
  | None => Raise KeyError
  end.

End Py.

#[global] Instance result_ret : MRet Py.result := @Py.Ok.
#[global] Instance result_bind : MBind Py.result := fun A B k r => Py.bind r k.
#[global] Instance result_fmap : FMap Py.result := fun A B f r =>
  Py.bind r (fun a => Py.Ok (f a)).

(* ===================================================================== *)
(** * biaRecovery.py: the checkpoint store *)
(* ===================================================================== *)

Module Recovery.
Import Py.

(** A checkpoint value is a boolean or a string (the deferred user message,
    or the marker ["data_nonexist"]). *)
Inductive flag : Type :=
| FBool (b : bool)
| FStr (s : string).

(** A stage entry is a single value or a map from account to value. *)
Inductive entry : Type :=
| Flag (f : flag)
| PerAccount (m : gmap string flag).

#[global] Instance flag_eq_dec : EqDecision flag.
Proof. solve_decision. Defined.

#[global] Instance entry_eq_dec : EqDecision entry.
Proof. solve_decision. Defined.

Abbreviation country_states := (gmap string entry).
Abbreviation states_doc := (gmap string (gmap string entry)).

(** The part of a country's reconciliation rules the modelled code reads. *)
Record rule : Type := {
  accounts : list Z;
  company_code : string;
  local_currency : string;
  sales_organization_glob : string;
  sales_organization_loc : string;
  accountants : list (string * bool)  (* mail, send_message *)
}.

(** Module globals: [_ent_states] ([None] before [initialize] and after
    [clear]) and the JSON document stored at [_rec_path] ([None] when the file
    does not exist). *)
Record rec_state : Type := {
  _ent_states : option states_doc;
  rec_file : option states_doc
}.

(** Python truthiness of a checkpoint value, as [if rec.get_state(...)] uses it. *)
Definition flag_truthy (f : flag) : bool :=
  match f with
  | FBool b => b
  | FStr s => negb (String.eqb s "")
  end.

Definition truthy (e : entry) : bool :=
  match e with
  | Flag f => flag_truthy f
  | PerAccount m => negb (bool_decide (m = ∅))
  end.

(** [str(acc)] for an account number. *)
Definition str (acc : Z) : string := pretty acc.

(** [clear_states]: empties the states and writes [{}] to the file. *)
Definition clear_states (st : rec_state) : rec_state :=
  {| _ent_states := Some ∅; rec_file := Some ∅ |}.

(** The per-account sub-flags of one country: the loop
    [for acc in rules[cntry]["accounts"]] of [reset_states]. *)
Definition account_flags (accs : list Z) : gmap string flag :=
  foldl (fun m acc => <[str acc := FBool false]> m) ∅ accs.

(** The default entries of one country, in the order [reset_states] assigns them. *)
Definition default_states (accs : list Z) : country_states :=
  let m : country_states := ∅ in
  let m := <["reconciled" := Flag (FBool false)]> m in
  let m := <["db_updated" := Flag (FBool false)]> m in
  let m := <["info" := Flag (FBool false)]> m in
  let m := <["fbl3n_data_exported" := Flag (FBool false)]> m in
  let m := <["fbl3n_data_processed" := Flag (FBool false)]> m in
  let m := <["se16_no_kona_data" := Flag (FBool false)]> m in
  let m := <["se16_kona_data_exported" := Flag (FBool false)]> m in
  let m := <["se16_kote_data_exported" := Flag (FBool false)]> m in
  let m := <["se16_kona_data_processed" := Flag (FBool false)]> m in
  let m := <["se16_kote_data_processed" := Flag (FBool false)]> m in
  let m := <["zsd25_glob_data_exported" := Flag (FBool false)]> m in
  let m := <["zsd25_glob_data_processed" := Flag (FBool false)]> m in
  let m := <["zsd25_glob_data_calculated" := Flag (FBool false)]> m in
  let m := <["zsd25_loc_data_exported" := Flag (FBool false)]> m in
  let m := <["zsd25_loc_data_processed" := Flag (FBool false)]> m in
  let m := <["zsd25_loc_data_calculated" := Flag (FBool false)]> m in
  let m := <["zsd25_no_glob_data" := Flag (FBool false)]> m in
  let m := <["yearly_summary_retrieved" := Flag (FBool false)]> m in
  let m := <["text_summary_retrieved" := PerAccount (account_flags accs)]> m in
  let m := <["fs10n_data_exported" := PerAccount (account_flags accs)]> m in
  let m := <["fs10n_data_processed" := PerAccount (account_flags accs)]> m in
  let m := <["user_warning" := Flag (FStr "")]> m in
  <["user_error" := Flag (FStr "")]> m.

(** The [for cntry in countries] loop of [reset_states]; [rules[cntry]] raises
    [KeyError] for a country without rules. *)
Fixpoint reset_loop (countries : list string) (rules : gmap string rule)
    (new_ent_states : states_doc) : result states_doc :=
  match countries with
  | [] => Ok new_ent_states
  | cntry :: rest =>
      r ← getitem rules cntry;
      reset_loop rest rules (<[cntry := default_states (accounts r)]> new_ent_states)
  end.

(** [reset_states(countries, rules)]: the defaults are written to the file
    and returned; nothing is written when the function raises. *)
Definition reset_states (countries : list string) (rules : gmap string rule)
    (st : rec_state) : result states_doc * rec_state :=
  match countries with
  | [] => (Raise ValueError, st)
  | _ =>
      match reset_loop countries rules ∅ with
      | Ok new_ent_states =>
          (Ok new_ent_states,
           {| _ent_states := _ent_states st; rec_file := Some new_ent_states |})
      | Raise e => (Raise e, st)
      end
  end.

(** [initialize(rec_path, countries, rules)]. *)
Definition initialize (countries : list string) (rules : gmap string rule)
    (st : rec_state) : result unit * rec_state :=
  match countries with
  | [] => (Raise ValueError, st)
  | _ =>
      let st := match rec_file st with
                | None => clear_states st
                | Some _ => st
                end in
      match rec_file st with
      | None => (Raise Exception, st)
      | Some ent_states =>
          if negb (bool_decide (ent_states = ∅)) then
            (Ok tt, {| _ent_states := Some ent_states; rec_file := rec_file st |})
          else
            match reset_states countries rules st with
            | (Ok new_ent_states, st') =>
                (Ok tt, {| _ent_states := Some new_ent_states; rec_file := rec_file st' |})
            | (Raise e, st') => (Raise e, st')
            end
      end
  end.

(** [clear()]. *)
Definition clear (st : rec_state) : rec_state :=
  {| _ent_states := None; rec_file := rec_file (clear_states st) |}.

(** [save_state(country, key, val, acc)]: the in-memory states are updated and
    the whole document is written again. [acc] is [str(acc)] already. *)
Definition save_state (country key : string) (val : flag) (acc : option string)
    (st : rec_state) : result unit * rec_state :=
  match _ent_states st with
  | None => (Raise TypeError, st)
  | Some states =>
      match states !! country with
      | None => (Raise KeyError, st)
      | Some cs =>
          let stored (cs' : country_states) :=
            let states' := <[country := cs']> states in
            (Ok tt, {| _ent_states := Some states'; rec_file := Some states' |}) in
          match acc with
          | None => stored (<[key := Flag val]> cs)
          | Some a =>
              match cs !! key with
              | None => (Raise KeyError, st)
              | Some (Flag _) => (Raise TypeError, st)
              | Some (PerAccount m) => stored (<[key := PerAccount (<[a := val]> m)]> cs)
              end
          end
      end
  end.

(** [get_state(country, key, acc)]. *)
Definition get_state (country key : string) (acc : option string)
    (st : rec_state) : result entry :=
  match _ent_states st with
  | None => Raise TypeError
  | Some states =>
      cs ← getitem states country;
      e ← getitem cs key;
      match acc with
      | None => Ok e
      | Some a =>
          match e with
          | Flag _ => Raise TypeError
          | PerAccount m => f ← getitem m a; Ok (Flag f)
          end
      end
  end.

End Recovery.

(* ===================================================================== *)
(** * biaProcessor.py: the accumulator *)
(* ===================================================================== *)

Module Processor.
Import Py.

(** An account as callers pass it: [Union[str, int]]. The keys ["1"] and [1]
    of a Python dictionary are different keys. *)
Inductive acc_key : Type :=
| AccStr (s : string)
| AccInt (z : Z).

#[global] Instance acc_key_eq_dec : EqDecision acc_key.
Proof. solve_decision. Defined.

#[global] Instance acc_key_countable : Countable acc_key.
Proof.
  refine (inj_countable'
    (fun a => match a with AccStr s => inl s | AccInt z => inr z end)
    (fun x => match x with inl s => AccStr s | inr z => AccInt z end) _).
  by intros [].
Defined.

(** [str(acc)]. *)
Definition acc_str (a : acc_key) : string :=
  match a with
  | AccStr s => s
  | AccInt z => pretty z
  end.

Definition is_digit (c : ascii) : bool :=
  ((48 <=? N_of_ascii c) && (N_of_ascii c <=? 57))%N.

(** [str.isnumeric] on the ASCII strings the model works with: a non-empty
    string of decimal digits. *)
Definition isnumeric (s : string) : bool :=
  negb (String.eqb s "") && forallb is_digit (list_ascii_of_string s).

(** The dataset kinds the module-level [_accum] dictionary is created with. *)
Definition accum_kinds : list string :=
  [ "fbl3n_data"; "text_summs"; "check_text_summs"; "kona_data"; "kote_data";
    "loc_bonus_data"; "glob_bonus_data"; "glob_bonus_calcs"; "loc_bonus_calcs";
    "glob_agreement_comparison"; "loc_agreement_comparison"; "loc_conditions";
    "fs10n_data"; "final_summary"; "yearly_acc_summ"; "period_overview"; "info" ].

Section Accumulator.

(** The stored objects (pandas frames) are opaque. Item access on a stored
    object belongs to pandas and is a parameter: [acc in obj],
    [obj[acc] = data] and [obj[acc]]. *)
Context {PyObj : Type}.
Variable obj_contains : PyObj -> acc_key -> result bool.
Variable obj_setitem : PyObj -> acc_key -> option PyObj -> result PyObj.
Variable obj_getitem : PyObj -> acc_key -> result PyObj.

(** What [_accum[key][country]] holds: the data itself ([None] or an object)
    when it was stored without account, a dictionary from account to data
    when it was stored with one. *)
Inductive slot : Type :=
| Data (d : option PyObj)
| ByAccount (m : gmap acc_key (option PyObj)).

(** The value of [_accum] when the module is loaded. *)
Definition _accum : gmap string (gmap string slot) :=
  list_to_map ((fun k => (k, ∅)) <$> accum_kinds).

Definition bad_account (acc : option acc_key) : bool :=
  match acc with
  | Some x => negb (isnumeric (acc_str x))
  | None => false
  end.

(** [store_to_accum(data, country, key, acc)]. Every [raise] comes before the
    dictionary is changed, so a raising call leaves [_accum] as it was. *)
Definition store_to_accum (data : option PyObj) (country key : string)
    (acc : option acc_key) (a : gmap string (gmap string slot))
    : result (gmap string (gmap string slot)) :=
  if bad_account acc then Raise ValueError else
  by_country ← getitem a key;
  let assign (s : slot) := Ok (<[key := <[country := s]> by_country]> a) in
  match by_country !! country, acc with
  | Some _, None => Raise RuntimeError
  | Some s, Some x =>
      present ← match s with
                | ByAccount m => Ok (bool_decide (is_Some (m !! x)))
                | Data None => Raise TypeError
                | Data (Some o) => obj_contains o x
                end;
      if (present : bool) then Raise RuntimeError else
      match s with
      | ByAccount m => assign (ByAccount (<[x := data]> m))
      | Data None => Raise TypeError
      | Data (Some o) => o' ← obj_setitem o x data; assign (Data (Some o'))
      end
  | None, None => assign (Data data)
  | None, Some x => assign (ByAccount (<[x := data]> ∅))
  end.

(** What a fetch returns: stored data, or the whole per-account dictionary
    when the country's entries were stored per account and no account is
    given. *)
Inductive fetched : Type :=
| Fetched (d : option PyObj)
| FetchedMap (m : gmap acc_key (option PyObj)).

(** [get_from_accum(country, key, acc)]. *)
Definition get_from_accum (country key : string) (acc : option acc_key)
    (a : gmap string (gmap string slot)) : result fetched :=
  if bad_account acc then Raise ValueError else
  by_country ← getitem a key;
  s ← getitem by_country country;
  match acc, s with
  | None, Data d => Ok (Fetched d)
  | None, ByAccount m => Ok (FetchedMap m)
  | Some x, ByAccount m => d ← getitem m x; Ok (Fetched d)
  | Some x, Data None => Raise TypeError
  | Some x, Data (Some o) => o' ← obj_getitem o x; Ok (Fetched (Some o'))
  end.

(** [clear()]: every kind's dictionary is emptied. *)
Definition clear (a : gmap string (gmap string slot)) : gmap string (gmap string slot) :=
  (fun _ => ∅) <$> a.

(** One call of [store_to_accum], and a run's sequence of calls: a call that
    raises leaves the accumulator unchanged. *)
Record store_call : Type := {
  sc_data : option PyObj;
  sc_country : string;
  sc_key : string;
  sc_acc : option acc_key
}.

Definition store_step (a : gmap string (gmap string slot)) (c : store_call)
    : gmap string (gmap string slot) :=
  match store_to_accum (sc_data c) (sc_country c) (sc_key c) (sc_acc c) a with
  | Ok a' => a'
  | Raise _ => a
  end.

Definition run_stores (calls : list store_call) (a : gmap string (gmap string slot))
    : gmap string (gmap string slot) :=
  foldl store_step a calls.

End Accumulator.

(* --------------------------------------------------------------------- *)
(** ** Strings, cells and frames *)
(* --------------------------------------------------------------------- *)

(** Python's string methods, on ASCII strings. *)
Definition is_space (c : ascii) : bool :=
  let n := N_of_ascii c in
  ((9 <=? n) && (n <=? 13) || (28 <=? n) && (n <=? 32))%N.

Definition is_char (x c : ascii) : bool := Ascii.eqb c x.

Fixpoint lstrip_with (p : ascii -> bool) (s : string) : string :=
  match s with
  | EmptyString => EmptyString
  | String c s' => if p c then lstrip_with p s' else s
  end.

Fixpoint rstrip_with (p : ascii -> bool) (s : string) : string :=
  match s with
  | EmptyString => EmptyString
  | String c s' =>
      let r := rstrip_with p s' in
      if String.eqb r "" && p c then EmptyString else String c r
  end.

Definition strip_with (p : ascii -> bool) (s : string) : string :=
  rstrip_with p (lstrip_with p s).

(** [s.strip()] and [s.strip(" ")]. *)
Definition strip (s : string) : string := strip_with is_space s.
Definition strip_spaces (s : string) : string := strip_with (is_char " ") s.

Fixpoint endswith_char (x : ascii) (s : string) : bool :=
  match s with
  | EmptyString => false
  | String c EmptyString => Ascii.eqb c x
  | String _ s' => endswith_char x s'
  end.

(** [s.replace(x, "")] and [s.replace(x, y)] for single characters. *)
Fixpoint remove_char (x : ascii) (s : string) : string :=
  match s with
  | EmptyString => EmptyString
  | String c s' => if Ascii.eqb c x then remove_char x s' else String c (remove_char x s')
  end.

Fixpoint replace_char (x y : ascii) (s : string) : string :=
  match s with
  | EmptyString => EmptyString
  | String c s' => String (if Ascii.eqb c x then y else c) (replace_char x y s')
  end.

(** [s.split(sep)] for a single character: never the empty list. *)
Fixpoint split_on (sep : ascii) (s : string) : list string :=
  match s with
  | EmptyString => [EmptyString]
  | String c s' =>
      if Ascii.eqb c sep then EmptyString :: split_on sep s'
      else match split_on sep s' with
           | t :: ts => String c t :: ts
           | [] => [String c EmptyString]
           end
  end.

(** [s[1:-1]]. *)
Fixpoint drop_last (s : string) : string :=
  match s with
  | EmptyString => EmptyString
  | String c EmptyString => EmptyString
  | String c s' => String c (drop_last s')
  end.

Definition inner (s : string) : string :=
  match s with
  | EmptyString => EmptyString
  | String _ s' => drop_last s'
  end.

(** [sep.join(l)]. *)
Fixpoint join (sep : string) (l : list string) : string :=
  match l with
  | [] => EmptyString
  | [s] => s
  | s :: rest => s ++ sep ++ join sep rest
  end.

(** A value of a frame: null ([pd.NA], [NaN], [NaT], [None]), a string, an
    integer, a float, a date (its day number) or the list of tokens of a
    split string. *)
Inductive cell : Type :=
| NA
| Str (s : string)
| Int (z : Z)
| Flt (f : float)
| Day (d : Z)
| Toks (l : list string).

(** A row gives the value of every column name; a column the frame does not
    have reads as null. *)
Definition row : Type := string -> cell.

Definition upd (name : string) (v : cell) (r : row) : row :=
  fun k => if String.eqb k name then v else r k.

(** The categories of a categorical column are strings or integers. *)
Inductive label : Type :=
| LStr (s : string)
| LInt (z : Z).

#[global] Instance label_eq_dec : EqDecision label.
Proof. solve_decision. Defined.

#[global] Instance label_countable : Countable label.
Proof.
  refine (inj_countable'
    (fun l => match l with LStr s => inl s | LInt z => inr z end)
    (fun x => match x with inl s => LStr s | inr z => LInt z end) _).
  by intros [].
Defined.

(** The dtype of a column: a name (["string"], ["UInt32"], ["object"], ...),
    or the categorical dtype with its categories. *)
Inductive dtype : Type :=
| Plain (name : string)
| Category (cats : gset label).

#[global] Instance dtype_eq_dec : EqDecision dtype.
Proof. solve_decision. Defined.

(** [str(series.dtype)]. *)
Definition dtype_name (d : dtype) : string :=
  match d with
  | Plain name => name
  | Category _ => "category"
  end.

(** A frame: its rows in order, each with its index label, and the dtype of
    every column. *)
Record DataFrame : Type := {
  body : list (Z * row);
  dtypes : gmap string dtype
}.

(** [Series.str.f()]: a value that is not a string becomes null. *)
Definition str_map (f : string -> string) (c : cell) : cell :=
  match c with
  | Str s => Str (f s)
  | _ => NA
  end.

(** [Series.str.len()], null for a value without length. *)
Definition str_len (c : cell) : option nat :=
  match c with
  | Str s => Some (String.length s)
  | Toks l => Some (length l)
  | _ => None
  end.

(** [Series.str.get(i)] on a list of tokens. *)
Definition str_get (i : nat) (c : cell) : cell :=
  match c with
  | Toks l => match l !! i with Some t => Str t | None => NA end
  | _ => NA
  end.

(** [Series.str.split(";")]. *)
Definition str_split (c : cell) : cell :=
  match c with
  | Str s => Toks (split_on ";" s)
  | _ => NA
  end.

Definition notna (c : cell) : bool :=
  match c with
  | NA => false
  | Flt f => negb (PrimFloat.is_nan f)
  | _ => true
  end.

(** [series == ""], [series.str.len() >= n], [> n], [!= n]; a length that is
    null is not above a bound, and differs from every number. *)
Definition is_empty_str (c : cell) : bool :=
  match c with
  | Str s => String.eqb s ""
  | _ => false
  end.

Definition len_ge (n : nat) (c : cell) : bool :=
  match str_len c with Some k => (n <=? k)%nat | None => false end.

Definition len_gt (n : nat) (c : cell) : bool :=
  match str_len c with Some k => (n <? k)%nat | None => false end.

Definition len_ne (n : nat) (c : cell) : bool :=
  match str_len c with Some k => negb (k =? n)%nat | None => true end.

(** The category a value stands for. *)
Definition label_of (c : cell) : option label :=
  match c with
  | Str s => Some (LStr s)
  | Int z => Some (LInt z)
  | _ => None
  end.

(** The categories [astype("category")] gives a column: the values it holds. *)
Definition categories (name : string) (rows : list (Z * row)) : gset label :=
  list_to_set (omap (fun x => label_of (x.2 name)) rows).

(** Whether a value may be written into a column of the dtype: a categorical
    column takes a null or one of its categories. *)
Definition fits (dt : option dtype) (v : cell) : bool :=
  match dt with
  | Some (Category cats) =>
      negb (notna v)
      || match label_of v with
         | Some l => bool_decide (l ∈ cats)
         | None => false
         end
  | _ => true
  end.

(** The statements on columns. A result of [None] is a raised exception. *)

(** [data[name] = f(data)], the new column of dtype [dt]. *)
Definition assign (name : string) (dt : dtype) (f : row -> option cell)
    (data : DataFrame) : option DataFrame :=
  rows ← mapM (fun x => v ← f x.2; Some (x.1, upd name v x.2)) (body data);
  Some {| body := rows; dtypes := <[name := dt]> (dtypes data) |}.

(** [data[name] = f(data)] where the new column has the dtype of the old. *)
Definition reassign (name : string) (f : row -> option cell)
    (data : DataFrame) : option DataFrame :=
  rows ← mapM (fun x => v ← f x.2; Some (x.1, upd name v x.2)) (body data);
  Some {| body := rows; dtypes := dtypes data |}.

(** [data.loc[mask, name] = f(data)]: [TypeError] when a value is not a
    category of a categorical column. The labels of a frame are distinct, so
    that the rows selected by the labels of a mask are the rows of the mask. *)
Definition loc_set (mask : row -> bool) (name : string) (f : row -> cell)
    (data : DataFrame) : option DataFrame :=
  if forallb (fun x => implb (mask x.2) (fits (dtypes data !! name) (f x.2))) (body data)
  then Some {| body := (fun x => (x.1, if mask x.2 then upd name (f x.2) x.2 else x.2))
                       <$> body data;
               dtypes := dtypes data |}
  else None.

(** [data[name] = data[name].astype("category")]: a categorical column is
    left as it is. *)
Definition astype_category (name : string) (data : DataFrame) : option DataFrame :=
  match dtypes data !! name with
  | Some (Category _) => Some data
  | _ => Some {| body := body data;
                 dtypes := <[name := Category (categories name (body data))]> (dtypes data) |}
  end.

(** [data.drop(name, axis = 1, inplace = True)]. *)
Definition drop_column (name : string) (data : DataFrame) : option DataFrame :=
  Some {| body := (fun x => (x.1, upd name NA x.2)) <$> body data;
          dtypes := delete name (dtypes data) |}.

(** [if not data[mask].index.empty: ...] *)
Definition if_any (mask : row -> bool) (then_ : DataFrame -> option DataFrame)
    (data : DataFrame) : option DataFrame :=
  if existsb (fun x => mask x.2) (body data) then then_ data else Some data.

(** [for col in cols: ...] *)
Definition for_each (cols : list string) (stmt : string -> DataFrame -> option DataFrame)
    (data : DataFrame) : option DataFrame :=
  foldl (fun d col => d ≫= stmt col) (Some data) cols.

(** [data.empty]. *)
Definition empty (data : DataFrame) : bool :=
  match body data with [] => true | _ => false end.

(** [data.reset_index(inplace = True, drop = True)]. *)
Definition reset_index (data : DataFrame) : DataFrame :=
  {| body := imap (fun i x => (Z.of_nat i, x.2)) (body data); dtypes := dtypes data |}.

(** [data.index.has_duplicates]. *)
Definition has_duplicates (data : DataFrame) : bool :=
  negb (bool_decide (NoDup (body data).*1)).

(** [np.array_split(data, n)]: [n] contiguous chunks, the first
    [len(data) % n] of them one row longer than the others. *)
Fixpoint take_chunks {A : Type} (sizes : list nat) (l : list A) : list (list A) :=
  match sizes with
  | [] => []
  | k :: ks => take k l :: take_chunks ks (drop k l)
  end.

Definition chunk_sizes (total n : nat) : list nat :=
  (replicate (total mod n)%nat (S (total / n)%nat)
   ++ replicate (n - total mod n)%nat (total / n)%nat)%list.

Definition array_split (data : DataFrame) (n : nat) : list DataFrame :=
  (fun rows => {| body := rows; dtypes := dtypes data |})
  <$> take_chunks (chunk_sizes (length (body data)) n) (body data).

(** [pd.concat(frames)]: the rows in order with their labels. A column
    keeps the dtype all the frames give it and is of dtype object otherwise,
    as for categorical columns of different categories. No frame to
    concatenate is a [ValueError]. *)
Definition concat (frames : list DataFrame) : option DataFrame :=
  match frames with
  | [] => None
  | first :: rest =>
      Some {| body := mjoin (body <$> frames);
              dtypes := map_imap (fun col d =>
                          Some (if forallb (fun f => bool_decide (dtypes f !! col = Some d)) rest
                                then d else Plain "object"))
                          (dtypes first) |}
  end.

(** File types used for storing data exported from a transaction. *)
Inductive FileTypes : Type :=
| TXT
| DAT.

(** The conversions of pandas and of the [re] module, and the readers of a
    text, are parameters of the model. A conversion of a column whose result
    depends on the dtype or the format pandas picks for the whole column
    takes the column as an argument. *)
Class Pandas : Type := {
  (** [pd.to_numeric] of one string: an [Int], a [Flt], or nothing when the
      string is not a number *)
  numeric : string -> option cell;
  (** [pd.to_numeric] of a value of a column (the first argument), where the
      numbers keep the dtype pandas gives the column: int64 if it takes every
      value for an integer, float64 otherwise, so that the other values of
      the column have a say in what a value becomes; nothing when the value
      is not a number *)
  numeric_in : list cell -> cell -> option cell;
  (** the integer a float is equal to, if any ([astype] to an integer dtype) *)
  integral : float -> option Z;
  (** the float of an integer ([astype("float64")]) *)
  float_of : Z -> float;
  (** [pd.to_datetime(column, dayfirst = True).dt.date] of a string of a
      column (the first argument), whose other values may decide the format
      the string is read in; or nothing *)
  date_in : list cell -> string -> option Z;
  (** [re.findall(patt, txt, re.M)] *)
  findall : string -> string -> list string;
  (** [pd.read_csv] of a cleaned FBL3N text with the names, the separator
      and the dtypes [convert_fbl3n_data_opt] passes, or nothing when the
      reader raises *)
  read_csv : string -> option DataFrame;
  (** the frame [_parse_fbl3n_data] reads from a text: for a .txt export
      [pd.read_csv] with the header as names, for a .dat export [pd.read_csv]
      with the header row of the file, the currency column dropped and the
      columns renamed to the header *)
  read_csv_as : FileTypes -> list string -> string -> option DataFrame
}.

Definition LF : string := String "010"%char EmptyString.

Definition MAX_ROWS_SNG : nat := 1000.

Definition _FBL3N_HEADER : list string :=
  ["Fiscal_Year"; "Period"; "GL_Account"; "Assignment"; "Document_Number";
   "Business_Area"; "Document_Type"; "Document_Date"; "Posting_Date";
   "Posting_Key"; "LC_Amount"; "Tax_Code"; "Clearing_Document"; "Text"].

(** [data.columns]. *)
Definition columns (data : DataFrame) : list string := (map_to_list (dtypes data)).*1.

(** [infer_dtype(data[name])]: a column of dtype string is of strings and a
    categorical column is categorical; otherwise the kind of the values that
    are not null decides. *)
Definition kind_of (c : cell) : string :=
  match c with
  | Str _ => "string"
  | Int _ => "integer"
  | Flt _ => "floating"
  | Day _ => "date"
  | _ => "mixed"
  end.

Definition infer_dtype (name : string) (data : DataFrame) : string :=
  match dtypes data !! name with
  | Some (Category _) => "categorical"
  | dt =>
      if bool_decide (dt = Some (Plain "string")) then "string" else
      match filter (fun c => notna c = true) ((fun x => x.2 name) <$> body data) with
      | [] => "empty"
      | c :: cs =>
          if forallb (fun c' => String.eqb (kind_of c') (kind_of c)) cs
          then kind_of c else "mixed"
      end
  end.

(** What a conversion gives: an exception, [None], or a dataset. *)
Inductive converted : Type :=
| Raised
| Nothing
| Dataset (data : DataFrame).

Definition or_raise {A : Type} (o : option A) (k : A -> converted) : converted :=
  match o with
  | Some a => k a
  | None => Raised
  end.

(** [data[name].dtype == dt], [data[name].notna().all()]. *)
Definition dtype_is (data : DataFrame) (name dt : string) : bool :=
  bool_decide (dtype_name <$> dtypes data !! name = Some dt).

Definition all_notna (data : DataFrame) (name : string) : bool :=
  forallb (fun x => notna (x.2 name)) (body data).

Section Conversion.

Context `{Pandas}.

(** [data[name]]: the values of a column. *)
Definition column (name : string) (data : DataFrame) : list cell :=
  (fun x => x.2 name) <$> body data.

(** [pd.to_numeric(values, errors = ...).astype(dtype)] on one value, for the
    dtypes UInt32 and float64: whether pandas made the column int64 or
    float64 in between makes no difference to what [astype] gives, an
    integer of 32 bits being the same in both and a float being what it is. *)
Definition to_numeric (coerce : bool) (c : cell) : option cell :=
  match c with
  | NA => Some NA
  | Int z => Some (Int z)
  | Flt f => Some (Flt f)
  | Str s =>
      match numeric s with
      | Some v => Some v
      | None => if coerce then Some NA else None
      end
  | _ => if coerce then Some NA else None
  end.

(** [astype] to an integer dtype of the given range: it raises on a value
    that is not an integer of the range. *)
Definition in_range (lo hi z : Z) : option cell :=
  if (lo <=? z) && (z <? hi) then Some (Int z) else None.

Definition astype_int (lo hi : Z) (c : cell) : option cell :=
  match c with
  | NA => Some NA
  | Int z => in_range lo hi z
  | Flt f => if PrimFloat.is_nan f then Some NA else z ← integral f; in_range lo hi z
  | _ => None
  end.

Definition astype_uint (bits : Z) : cell -> option cell := astype_int 0 (2 ^ bits).
Definition astype_Int64 : cell -> option cell := astype_int (- 2 ^ 63) (2 ^ 63).

(** [astype("float64")]. *)
Definition astype_float64 (c : cell) : option cell :=
  match c with
  | NA => Some (Flt PrimFloat.nan)
  | Int z => Some (Flt (float_of z))
  | Flt f => Some (Flt f)
  | _ => None
  end.

(** [pd.to_numeric(values, errors = ...)] on a value of the column
    [values], where the dtype of the result is kept or taken to 64 bits. *)
Definition to_numeric_in (coerce : bool) (values : list cell) (c : cell) : option cell :=
  match c with
  | NA => Some NA
  | _ =>
      match numeric_in values c with
      | Some v => Some v
      | None => if coerce then Some NA else None
      end
  end.

(** [pd.to_datetime(values, dayfirst = True, errors = ...).dt.date] on a
    value of the column [values]. *)
Definition to_date (coerce : bool) (values : list cell) (c : cell) : option cell :=
  match c with
  | NA => Some NA
  | Day d => Some (Day d)
  | Str s =>
      match date_in values s with
      | Some d => Some (Day d)
      | None => if coerce then Some NA else None
      end
  | _ => if coerce then Some NA else None
  end.

(** The amount texts of SAP: thousands dots removed, decimal comma to dot,
    a trailing minus moved to the front. *)
Definition decimal_point (s : string) : string :=
  replace_char "," "." (remove_char "." s).

Definition minus_to_front (c : cell) : cell :=
  match c with
  | Str s => if endswith_char "-" s then Str ("-" ++ rstrip_with (is_char "-") s) else Str s
  | c => c
  end.

(** [-1 * amount]. *)
Definition negated (c : cell) : cell :=
  match c with
  | Flt f => Flt (-1 * f)%float
  | Int z => Int (- z)
  | c => c
  end.

Definition is_positive (c : cell) : bool :=
  match c with
  | Flt f => PrimFloat.ltb 0 f
  | Int z => 0 <? z
  | _ => false
  end.

Definition is_number (n : Z) (c : cell) : bool :=
  match c with
  | Int z => z =? n
  | Flt f => PrimFloat.eqb f (float_of n)
  | _ => false
  end.

(** [_clean_text_opt]: the data lines of the text, without their outer
    bars and surrounding blanks. *)
Definition _clean_text_opt (txt : list string) (patt : string) : string :=
  let matches := findall patt (default "" (txt !! 0%nat)) in
  let replaced := map (fun x => strip (inner x)) matches in
  join LF replaced.

(** [_parse_data_opt]: the typed fields of the records of a frame. *)
Definition _parse_data_opt (data : DataFrame) : option DataFrame :=
  data ← loc_set (fun r => is_empty_str (r "Text")) "Text" (fun _ => NA) data;
  data ← loc_set (fun r => is_empty_str (r "Assignment")) "Assignment" (fun _ => NA) data;
  data ← loc_set (fun r => is_empty_str (r "Tax_Code")) "Tax_Code" (fun _ => NA) data;
  data ← loc_set (fun r => is_empty_str (r "Business_Area")) "Business_Area" (fun _ => NA) data;

  let values := column "Clearing_Document" data in
  data ← assign "Clearing_Document" (Plain "UInt64")
           (fun r => to_numeric_in true values (r "Clearing_Document") ≫= astype_uint 64) data;

  data ← reassign "LC_Amount" (fun r => Some (str_map decimal_point (r "LC_Amount"))) data;
  data ← reassign "LC_Amount" (fun r => Some (minus_to_front (r "LC_Amount"))) data;
  data ← assign "LC_Amount" (Plain "float64")
           (fun r => to_numeric false (r "LC_Amount") ≫= astype_float64) data;

  let values := column "Document_Date" data in
  data ← assign "Document_Date" (Plain "object")
           (fun r => to_date false values (r "Document_Date")) data;
  let values := column "Posting_Date" data in
  data ← assign "Posting_Date" (Plain "object")
           (fun r => to_date false values (r "Posting_Date")) data;
  let values := column "Posting_Key" data in
  data ← reassign "Posting_Key" (fun r => to_numeric_in false values (r "Posting_Key")) data;

  data ← assign "Tokens" (Plain "object") (fun r => Some (str_split (r "Text"))) data;

  data ← assign "Condition" (Plain "object") (fun _ => Some NA) data;
  data ← assign "Category" (Plain "object") (fun _ => Some NA) data;
  data ← assign "Customer" (Plain "object") (fun _ => Some NA) data;
  data ← assign "Agreement" (Plain "object") (fun _ => Some NA) data;
  data ← assign "Note" (Plain "object") (fun _ => Some NA) data;

  let idx := fun r : row => len_ge 4 (r "Tokens") in

  data ← loc_set idx "Condition" (fun r => str_get 0 (r "Tokens")) data;
  data ← assign "Condition" (Plain "object")
           (fun r => Some (str_map strip_spaces (r "Condition"))) data;
  data ← astype_category "Condition" data;

  data ← loc_set idx "Category" (fun r => str_get 1 (r "Tokens")) data;
  data ← assign "Category" (Plain "object")
           (fun r => Some (str_map strip_spaces (r "Category"))) data;

  let invaid_categs := fun r : row => len_gt 2 (r "Category") in
  data ← if_any (fun _ => true) (loc_set invaid_categs "Category" (fun _ => NA)) data;
  data ← astype_category "Category" data;

  data ← loc_set idx "Customer" (fun r => str_get 2 (r "Tokens")) data;
  data ← assign "Customer" (Plain "UInt32")
           (fun r => to_numeric true (r "Customer") ≫= astype_uint 32) data;

  data ← loc_set idx "Agreement" (fun r => str_get 3 (r "Tokens")) data;
  data ← assign "Agreement" (Plain "UInt32")
           (fun r => to_numeric true (r "Agreement") ≫= astype_uint 32) data;

  data ← loc_set idx "Note" (fun r => str_get 4 (r "Tokens")) data;

  data ← drop_column "Tokens" data;

  let cond_idx := fun r : row => notna (r "Condition") in
  let categ_idx := fun r : row => notna (r "Category") in
  let note_idx := fun r : row => notna (r "Note") in

  data ← if_any cond_idx
           (loc_set cond_idx "Condition" (fun r => str_map strip (r "Condition"))) data;
  data ← if_any categ_idx
           (loc_set categ_idx "Category" (fun r => str_map strip (r "Category"))) data;
  data ← if_any note_idx
           (fun data =>
              data ← loc_set note_idx "Note" (fun r => str_map strip (r "Note")) data;
              loc_set (fun r => is_empty_str (r "Note")) "Note" (fun _ => NA) data) data;

  let incorr_cond_qry := fun r : row => notna (r "Condition") && len_ne 4 (r "Condition") in
  let incorr_categ_qry := fun r : row => notna (r "Category") && len_ne 2 (r "Category") in

  data ← loc_set incorr_cond_qry "Condition" (fun _ => NA) data;
  data ← loc_set incorr_categ_qry "Category" (fun _ => NA) data;

  assign "Note" (Plain "string") (fun r => Some (r "Note")) data.

(** [convert_fbl3n_data_opt], from the check of an empty result on: the
    categorical columns, the sign of the credit amounts, the new index and
    the final assertions. *)
Definition check_fbl3n_data_opt (parsed : DataFrame) : converted :=
  if empty parsed then Nothing else
  let parsed := if has_duplicates parsed then reset_index parsed else parsed in
  let categorical := ["Document_Type"; "Condition"; "Category"; "Posting_Key";
                      "Assignment"; "Business_Area"; "Tax_Code";
                      "GL_Account"; "Document_Number"; "Fiscal_Year"] in
  or_raise (for_each categorical astype_category parsed)
  (fun parsed =>
  let mask := fun r : row => is_number 50 (r "Posting_Key") && is_positive (r "LC_Amount") in
  or_raise (loc_set mask "LC_Amount" (fun r => negated (r "LC_Amount")) parsed)
  (fun parsed =>
  let parsed := reset_index parsed in
  if dtype_is parsed "Fiscal_Year" "category"
     && dtype_is parsed "GL_Account" "category"
     && dtype_is parsed "Customer" "UInt32"
     && dtype_is parsed "Agreement" "UInt32"
     && dtype_is parsed "Period" "UInt8"
     && dtype_is parsed "Document_Number" "category"
     && dtype_is parsed "Clearing_Document" "UInt64"
     && dtype_is parsed "LC_Amount" "float64"
     && dtype_is parsed "Document_Type" "category"
     && dtype_is parsed "Condition" "category"
     && dtype_is parsed "Category" "category"
     && dtype_is parsed "Posting_Key" "category"
     && (dtype_is parsed "Document_Date" "object"
         || dtype_is parsed "Document_Date" "datetime64[ns]")
     && (dtype_is parsed "Posting_Date" "object"
         || dtype_is parsed "Posting_Date" "datetime64[ns]")
     && dtype_is parsed "Text" "string"
     && dtype_is parsed "Assignment" "category"
     && dtype_is parsed "Tax_Code" "category"
     && dtype_is parsed "Business_Area" "category"
     && all_notna parsed "Document_Type"
     && all_notna parsed "Posting_Key"
  then Dataset parsed
  else Raised)).

(** [convert_fbl3n_data_opt] on the text of the exported file. *)
Definition convert_fbl3n_data_opt (text : string) (multiproc : bool) (n_workers : Z)
    : converted :=
  let text := _clean_text_opt [text] "^\|\s+\d{4}\|.*$" in
  or_raise (read_csv text)
  (fun data =>
  let str_columns := ["Assignment"; "Business_Area"; "Tax_Code";
                      "Text"; "LC_Amount"; "Clearing_Document"] in
  or_raise (for_each str_columns
              (fun col => reassign col (fun r => Some (str_map strip (r col)))) data)
  (fun data =>
  let multiproc := if (length (body data) <=? MAX_ROWS_SNG)%nat then false else multiproc in
  or_raise (if negb multiproc then _parse_data_opt data
            else if n_workers <? 2 then None
            else
              let data_chunks := array_split data (Z.to_nat n_workers) in
              parsed ← mapM _parse_data_opt data_chunks;
              concat parsed)
  check_fbl3n_data_opt)).

(** [_parse_amounts], on one value, and [_parse_dates], on a value of the
    series [vals]. *)
Definition _parse_amounts (val : cell) : option cell :=
  let replaced := str_map decimal_point val in
  let replaced := minus_to_front replaced in
  to_numeric false replaced ≫= astype_float64.

Definition _parse_dates (vals : list cell) (val : cell) : option cell :=
  to_date true vals val.

(** [_parse_data], the parser before the memory-optimized one. *)
Definition _parse_data (data : DataFrame) : option DataFrame :=
  data ← for_each (columns data)
           (fun col data =>
              if String.eqb (infer_dtype col data) "string"
              then reassign col (fun r => Some (str_map strip (r col))) data
              else Some data) data;

  data ← loc_set (fun r => is_empty_str (r "Text")) "Text" (fun _ => NA) data;
  data ← loc_set (fun r => is_empty_str (r "Assignment")) "Assignment" (fun _ => NA) data;
  data ← loc_set (fun r => is_empty_str (r "Tax_Code")) "Tax_Code" (fun _ => NA) data;
  data ← loc_set (fun r => is_empty_str (r "Business_Area")) "Business_Area" (fun _ => NA) data;

  let values := column "Clearing_Document" data in
  data ← assign "Clearing_Document" (Plain "Int64")
           (fun r => to_numeric_in true values (r "Clearing_Document") ≫= astype_Int64) data;

  data ← assign "Fiscal_Year" (Plain "UInt16") (fun r => astype_uint 16 (r "Fiscal_Year")) data;
  data ← assign "GL_Account" (Plain "UInt32") (fun r => astype_uint 32 (r "GL_Account")) data;
  data ← assign "Period" (Plain "UInt8") (fun r => astype_uint 8 (r "Period")) data;
  data ← assign "Document_Number" (Plain "Int64")
           (fun r => astype_Int64 (r "Document_Number")) data;
  data ← assign "LC_Amount" (Plain "float64") (fun r => _parse_amounts (r "LC_Amount")) data;
  let values := column "Document_Date" data in
  data ← assign "Document_Date" (Plain "object")
           (fun r => _parse_dates values (r "Document_Date")) data;
  let values := column "Posting_Date" data in
  data ← assign "Posting_Date" (Plain "object")
           (fun r => _parse_dates values (r "Posting_Date")) data;
  let values := column "Posting_Key" data in
  data ← reassign "Posting_Key" (fun r => to_numeric_in false values (r "Posting_Key")) data;

  data ← assign "Tokens" (Plain "object") (fun r => Some (str_split (r "Text"))) data;

  data ← assign "Condition" (Plain "object") (fun _ => Some NA) data;
  data ← assign "Category" (Plain "object") (fun _ => Some NA) data;
  data ← assign "Customer" (Plain "object") (fun _ => Some NA) data;
  data ← assign "Agreement" (Plain "object") (fun _ => Some NA) data;
  data ← assign "Note" (Plain "object") (fun _ => Some NA) data;

  let idx := fun r : row => len_ge 4 (r "Tokens") in

  data ← loc_set idx "Condition" (fun r => str_get 0 (r "Tokens")) data;
  data ← loc_set idx "Category" (fun r => str_get 1 (r "Tokens")) data;
  data ← loc_set idx "Customer" (fun r => str_get 2 (r "Tokens")) data;
  data ← loc_set idx "Agreement" (fun r => str_get 3 (r "Tokens")) data;
  data ← loc_set idx "Note" (fun r => str_get 4 (r "Tokens")) data;

  data ← drop_column "Tokens" data;

  let cond_idx := fun r : row => notna (r "Condition") in
  let categ_idx := fun r : row => notna (r "Category") in
  let note_idx := fun r : row => notna (r "Note") in

  data ← if_any cond_idx
           (loc_set cond_idx "Condition" (fun r => str_map strip (r "Condition"))) data;
  data ← if_any categ_idx
           (loc_set categ_idx "Category" (fun r => str_map strip (r "Category"))) data;
  data ← if_any note_idx
           (loc_set note_idx "Note" (fun r => str_map strip (r "Note"))) data;

  let incorr_cond_qry := fun r : row => notna (r "Condition") && len_ne 4 (r "Condition") in
  let incorr_categ_qry := fun r : row => notna (r "Category") && len_ne 2 (r "Category") in

  data ← loc_set incorr_cond_qry "Condition" (fun _ => NA) data;
  data ← loc_set incorr_categ_qry "Category" (fun _ => NA) data;

  data ← astype_category "Condition" data;
  data ← astype_category "Category" data;
  data ← assign "Note" (Plain "string") (fun r => Some (r "Note")) data;

  data ← assign "Customer" (Plain "UInt32")
           (fun r => to_numeric true (r "Customer") ≫= astype_uint 32) data;
  assign "Agreement" (Plain "UInt32")
    (fun r => to_numeric true (r "Agreement") ≫= astype_uint 32) data.

(** [_clean_text]. *)
Definition _clean_text (txt patt : string) : string :=
  let matches := findall patt txt in
  let replaced := map (fun x => strip (inner x)) matches in
  join LF replaced.

(** [_parse_fbl3n_data]: an exception of the parser is caught where the
    frame is parsed in one piece, and not where its chunks are. *)
Definition _parse_fbl3n_data (text : string) (file_type : FileTypes) (header : list string)
    (multiproc : bool) : converted :=
  let WORKER_COUNT := 5%nat in
  or_raise (read_csv_as file_type header text)
  (fun data =>
  if (length (body data) <=? MAX_ROWS_SNG)%nat || negb multiproc then
    match _parse_data data with
    | Some parsed => Dataset parsed
    | None => Nothing
    end
  else
    let data_chunks := array_split data WORKER_COUNT in
    or_raise (parsed ← mapM _parse_data data_chunks; concat parsed) Dataset).

(** [convert_fbl3n_data], from the check of an empty result on. *)
Definition check_fbl3n_data (parsed : DataFrame) : converted :=
  if empty parsed then Nothing else
  if negb (String.eqb (infer_dtype "Text" parsed) "string"
           && String.eqb (infer_dtype "Assignment" parsed) "string"
           && String.eqb (infer_dtype "Tax_Code" parsed) "string"
           && String.eqb (infer_dtype "Business_Area" parsed) "string")
  then Raised else
  let parsed := if has_duplicates parsed then reset_index parsed else parsed in
  let categorical := ["Document_Type"; "Condition"; "Category"; "Posting_Key";
                      "Assignment"; "Business_Area"; "Tax_Code"] in
  or_raise (for_each categorical astype_category parsed)
  (fun parsed =>
  let mask := fun r : row => is_number 50 (r "Posting_Key") && is_positive (r "LC_Amount") in
  or_raise (loc_set mask "LC_Amount" (fun r => negated (r "LC_Amount")) parsed)
  (fun parsed =>
  let parsed := reset_index parsed in
  if dtype_is parsed "Fiscal_Year" "UInt16"
     && dtype_is parsed "GL_Account" "UInt32"
     && dtype_is parsed "Customer" "UInt32"
     && dtype_is parsed "Agreement" "UInt32"
     && dtype_is parsed "Period" "UInt8"
     && dtype_is parsed "Document_Number" "Int64"
     && dtype_is parsed "Clearing_Document" "Int64"
     && dtype_is parsed "LC_Amount" "float64"
     && dtype_is parsed "Text" "string"
     && dtype_is parsed "Assignment" "category"
     && dtype_is parsed "Business_Area" "category"
     && dtype_is parsed "Document_Type" "category"
     && dtype_is parsed "Tax_Code" "category"
     && dtype_is parsed "Condition" "category"
     && dtype_is parsed "Category" "category"
     && dtype_is parsed "Posting_Key" "category"
     && (dtype_is parsed "Document_Date" "object"
         || dtype_is parsed "Document_Date" "datetime64[ns]")
     && (dtype_is parsed "Posting_Date" "object"
         || dtype_is parsed "Posting_Date" "datetime64[ns]")
     && all_notna parsed "Document_Type"
     && all_notna parsed "Posting_Key"
  then Dataset parsed
  else Raised)).

(** [convert_fbl3n_data] on the content of a .txt or .dat file. An exception
    of [_parse_fbl3n_data] is caught; the [None] it returns for an exception
    it has caught itself has no attribute [empty]. *)
Definition convert_fbl3n_data (content : string) (file_type : FileTypes) (multiproc : bool)
    : converted :=
  let text := match file_type with
              | TXT => _clean_text content "^\|\s+\d{4}\|.*$"
              | DAT => content
              end in
  match _parse_fbl3n_data text file_type _FBL3N_HEADER multiproc with
  | Raised => Nothing
  | Nothing => Raised
  | Dataset parsed => check_fbl3n_data parsed
  end.

End Conversion.

(* --------------------------------------------------------------------- *)
(** ** The calculation engine *)
(* --------------------------------------------------------------------- *)

(** float64 helpers: [pd.isna] on a float, [fillna(0)], numpy's [rint]
    (round half to even, computed by the usual shift by 2^52) and
    [round(2)], which numpy computes as [rint(x * 100) / 100]. *)
Definition is_nan (x : float) : bool := PrimFloat.is_nan x.

Definition fillna0 (x : float) : float := if is_nan x then 0%float else x.

Definition dropna (l : list float) : list float := filter (fun x => is_nan x = false) l.

Definition two52 : float := 4503599627370496%float.

Definition rint (x : float) : float :=
  let a := PrimFloat.abs x in
  let r := if PrimFloat.ltb a two52 then ((a + two52) - two52)%float else a in
  if PrimFloat.ltb x 0%float then PrimFloat.opp r else r.

Definition round2 (x : float) : float := (rint (x * 100) / 100)%float.

(** [x != y] on floats (true when either is NaN). *)
Definition fne (x y : float) : bool := negb (PrimFloat.eqb x y).

(** The sum numpy takes over an object array: the elements are added from
    left to right, and the empty sum is 0. *)
Definition object_sum (l : list float) : float :=
  match l with
  | [] => 0%float
  | x :: xs => foldl PrimFloat.add x xs
  end.

(** The columns of the ZSD25 extract the bonus calculations keep. *)
Module Zsd25.
Record row : Type := {
  Rebate_Recipient : string;
  Name : option string;
  Country : string;
  Agreement_Type_Code : string;
  Agreement : Z;
  Status : string;
  Description_Of_Agreement : string;
  Condition_Value : float;
  Payments : float;
  Open_Accruals : float;
  Currency : string;
  Arrangement_Calendar : string;
  Valid_From : option Z;
  Valid_To : option Z
}.
End Zsd25.

(** A line of a GL text summary ([db.get_text_summary]): the amounts of one
    account summed by item text. *)
Module TextSumm.
Record row : Type := {
  Text : string;
  Agreement : option Z;
  Category : option string;
  Condition : option string;
  Customer : option Z;
  Note : option string;
  LC_Amount_Sum : float
}.
End TextSumm.

(** A row of the local-entity bonus calculation: the extract's columns, the
    correction, the corrected accrual, the difference and one column per
    reconciled account. *)
Module LeCalc.
Record row : Type := {
  base : Zsd25.row;
  Corr_to_LC : float;
  LC_Open_Accr : float;
  Difference : float;
  by_account : list (string * float)
}.
Record frame : Type := {
  account_columns : list string;
  rows : list row
}.
End LeCalc.

(** What [summarize] reads of the head-quarter calculation: the difference
    and the account columns, both null on the rows of a repeated agreement. *)
Module HqCalc.
Record row : Type := {
  Agreement : Z;
  Difference : option float;
  by_account : list (string * option float)
}.
Record frame : Type := {
  account_columns : list string;
  rows : list row
}.
End HqCalc.

(** A text-summary line with the flag of [check_agreement_states] and the
    position it had before the lines were sorted. *)
Module Checked.
Record row : Type := {
  index : nat;
  line : TextSumm.row;
  Status : string
}.
End Checked.

(** A period of the FS10N balances of one account. *)
Module Fs10n.
Record row : Type := {
  Debit : option float;
  Credit : option float;
  Balance : option float;
  Cummulative_Balance : option float
}.
End Fs10n.

(** The reconciliation summary: one column per reconciled account and the
    [Difference] column, each with the seven rows of the table. *)
Module Summary.
Record column : Type := {
  Local_Entity_Bonuses : option float;
  HQ_Bonuses : option float;
  Sum : option float;
  GL_Balance : option float;
  Difference : option float;
  Status_x : option float;
  Status_CHECK : option float
}.
Record table : Type := {
  accounts : list (string * column);
  difference : column
}.
End Summary.

(** [Marks.INVALD_TEXT_FMT.value] and [Marks.AGREEMENT_CLOSED.value]. *)
Definition INVALD_TEXT_FMT : string := "x".
Definition AGREEMENT_CLOSED : string := "CHECK".

(** [Series.unique()]: the values in the order of their first appearance. *)
Fixpoint unique (seen l : list Z) : list Z :=
  match l with
  | [] => []
  | x :: xs =>
      if bool_decide (x ∈ seen) then unique seen xs else x :: unique (x :: seen) xs
  end.

(** [drop_duplicates(subset = "Agreement")]: the first row of every agreement. *)
Fixpoint drop_duplicates (seen : list Z) (rows : list Zsd25.row) : list Zsd25.row :=
  match rows with
  | [] => []
  | r :: rs =>
      if bool_decide (Zsd25.Agreement r ∈ seen) then drop_duplicates seen rs
      else r :: drop_duplicates (Zsd25.Agreement r :: seen) rs
  end.

(** The stable sort of the checked lines by [Status], descending. pandas'
    default sort does not promise the order of lines with equal flags. *)
Fixpoint insert_by_status (r : Checked.row) (l : list Checked.row) : list Checked.row :=
  match l with
  | [] => [r]
  | y :: ys =>
      if String.ltb (Checked.Status r) (Checked.Status y)
      then y :: insert_by_status r ys
      else r :: y :: ys
  end.

Definition sort_by_status (l : list Checked.row) : list Checked.row :=
  foldr insert_by_status [] l.

Section Calculations.

(** [Series.sum()] of a float column after the missing values are dropped;
    the order in which pandas adds is its own. *)
Variable series_sum : list float -> float.

(** [txt_summ.groupby("Agreement").sum()] merged on the agreement with
    [how = "left"], then [fillna(0)]: the summed amount of the agreement's
    lines, 0 when the account has no line for it. *)
Definition account_amount (txt_summ : list TextSumm.row) (agreement : Z) : float :=
  match filter (fun r => TextSumm.Agreement r = Some agreement) txt_summ with
  | [] => 0%float
  | group => fillna0 (series_sum (dropna (TextSumm.LC_Amount_Sum <$> group)))
  end.

(** The currency correction of one row (lines 1160-1170). *)
Definition correct_currency (loc_curr : string) (ex_rate : float) (r : Zsd25.row)
    : LeCalc.row :=
  let Corr_to_LC :=
    if fne ex_rate 1%float && negb (String.eqb (Zsd25.Currency r) loc_curr)
    then (Zsd25.Open_Accruals r * ex_rate - Zsd25.Open_Accruals r)%float
    else 0%float in
  {| LeCalc.base := r;
     LeCalc.Corr_to_LC := Corr_to_LC;
     LeCalc.LC_Open_Accr := (Zsd25.Open_Accruals r + Corr_to_LC)%float;
     LeCalc.Difference := 0%float;
     LeCalc.by_account := [] |}.

(** One round of the loop [for acc in txt_summs.keys()]. *)
Definition add_account (acc : string) (txt_summ : list TextSumm.row) (r : LeCalc.row)
    : LeCalc.row :=
  let amount := account_amount txt_summ (Zsd25.Agreement (LeCalc.base r)) in
  {| LeCalc.base := LeCalc.base r;
     LeCalc.Corr_to_LC := LeCalc.Corr_to_LC r;
     LeCalc.LC_Open_Accr := LeCalc.LC_Open_Accr r;
     LeCalc.Difference := (LeCalc.Difference r + amount)%float;
     LeCalc.by_account := (LeCalc.by_account r ++ [(acc, amount)])%list |}.

Definition close_difference (r : LeCalc.row) : LeCalc.row :=
  {| LeCalc.base := LeCalc.base r;
     LeCalc.Corr_to_LC := LeCalc.Corr_to_LC r;
     LeCalc.LC_Open_Accr := LeCalc.LC_Open_Accr r;
     LeCalc.Difference := round2 (LeCalc.Difference r - LeCalc.LC_Open_Accr r)%float;
     LeCalc.by_account := LeCalc.by_account r |}.

(** [calculate_le_bonus_data(txt_summs, le_data, loc_curr, ex_rate)];
    [txt_summs] is the dictionary in the order of its keys. *)
Definition calculate_le_bonus_data (txt_summs : list (string * list TextSumm.row))
    (le_data : list Zsd25.row) (loc_curr : string) (ex_rate : float) : LeCalc.frame :=
  let deduped := drop_duplicates [] le_data in
  let subset := correct_currency loc_curr ex_rate <$> deduped in
  let subset :=
    foldl (fun subset '(acc, txt_summ) => add_account acc txt_summ <$> subset)
      subset txt_summs in
  {| LeCalc.account_columns := txt_summs.*1;
     LeCalc.rows := close_difference <$> subset |}.

(** The flag of one text-summary line (lines 1329-1344): the first query
    marks a line with a missing field and a non-zero amount, the second a
    line with a non-zero amount and an agreement that is not open, unless the
    first has marked it. *)
Definition incomplete (l : TextSumm.row) : bool :=
  bool_decide (TextSumm.Condition l = None) || bool_decide (TextSumm.Category l = None)
  || bool_decide (TextSumm.Customer l = None) || bool_decide (TextSumm.Agreement l = None).

Definition not_open (open_agreements : list Z) (l : TextSumm.row) : bool :=
  match TextSumm.Agreement l with
  | Some a => negb (bool_decide (a ∈ open_agreements))
  | None => true
  end.

Definition line_status (open_agreements : list Z) (l : TextSumm.row) : string :=
  let Status := "" in
  let Status :=
    if incomplete l && fne (TextSumm.LC_Amount_Sum l) 0%float
    then INVALD_TEXT_FMT else Status in
  if fne (TextSumm.LC_Amount_Sum l) 0%float && not_open open_agreements l
     && negb (String.eqb Status INVALD_TEXT_FMT)
  then AGREEMENT_CLOSED else Status.

(** The agreements open in the subledger: those of the local-entity extract,
    and those of the head-quarter extract when there is one ([hq_bon] is
    [None] when there is none). *)
Definition open_agreements (le_bon : list Zsd25.row) (hq_bon : option (list Zsd25.row))
    : list Z :=
  (unique [] (Zsd25.Agreement <$> le_bon)
   ++ match hq_bon with
      | Some hq => unique [] (Zsd25.Agreement <$> hq)
      | None => []
      end)%list.

(** [data.assign(Status = "")] and the two queries, for the lines of one
    account; the index is the position of the line. *)
Definition flag_lines (open : list Z) (txt_summ : list TextSumm.row) : list Checked.row :=
  imap (fun i l => {| Checked.index := i; Checked.line := l;
                      Checked.Status := line_status open l |}) txt_summ.

(** [check_agreement_states(txt_summs, le_bon, hq_bon)]. *)
Definition check_agreement_states (txt_summs : list (string * list TextSumm.row))
    (le_bon : list Zsd25.row) (hq_bon : option (list Zsd25.row))
    : list (string * list Checked.row) :=
  (fun '(acc, txt_summ) =>
     (acc, sort_by_status (flag_lines (open_agreements le_bon hq_bon) txt_summ)))
  <$> txt_summs.

(** A column of a calculation frame: [KeyError] when the frame has no such
    column. *)
Definition le_column (le_calcs : LeCalc.frame) (acc : string) : result (list float) :=
  if bool_decide (acc ∈ LeCalc.account_columns le_calcs)
  then Ok ((fun r => default PrimFloat.nan (list_to_map (M := gmap string float)
                                              (LeCalc.by_account r) !! acc))
           <$> LeCalc.rows le_calcs)
  else Raise KeyError.

Definition hq_column (hq_calcs : HqCalc.frame) (acc : string) : result (list (option float)) :=
  if bool_decide (acc ∈ HqCalc.account_columns hq_calcs)
  then Ok ((fun r => default None (list_to_map (M := gmap string (option float))
                                     (HqCalc.by_account r) !! acc))
           <$> HqCalc.rows hq_calcs)
  else Raise KeyError.

(** [Series.sum()] of a column with nulls. *)
Definition nullable_sum (l : list (option float)) : float :=
  series_sum (dropna (omap id l)).

(** The total amount of the lines of an account that carry a flag. *)
Definition flagged_sum (lines : list Checked.row) (mark : string) : float :=
  series_sum (dropna (
    (fun r => TextSumm.LC_Amount_Sum (Checked.line r))
    <$> filter (fun r => Checked.Status r = mark) lines)).

(** [fs10n[acc].loc[period, "Cummulative_Balance"]], 0 when it is null;
    the periods of the frame are numbered from 1. *)
Definition cumulative_balance (periods : list Fs10n.row) (period : Z) : result float :=
  if period <=? 0 then Raise KeyError else
  match periods !! Z.to_nat (period - 1) with
  | None => Raise KeyError
  | Some p =>
      match Fs10n.Cummulative_Balance p with
      | Some b => Ok (if is_nan b then 0%float else b)
      | None => Ok 0%float
      end
  end.

(** The column of one account before the values are rounded (the body of
    the loop over [gl_accs] and the rows computed after it). *)
Definition account_column (txt_summs : list (string * list Checked.row))
    (le_calcs : LeCalc.frame) (hq_calcs : option HqCalc.frame)
    (gl_data : gmap string (option (list Fs10n.row))) (period : Z) (acc : string)
    : result Summary.column :=
  match gl_data !! acc with
  | None =>
      Ok {| Summary.Local_Entity_Bonuses := Some 0%float;
            Summary.HQ_Bonuses := Some 0%float;
            Summary.Sum := Some (0 + 0)%float;
            Summary.GL_Balance := Some 0%float;
            Summary.Difference := Some (0 - (0 + 0))%float;
            Summary.Status_x := Some 0%float;
            Summary.Status_CHECK := Some 0%float |}
  | Some fs10n =>
      cumm_balance ← match fs10n with
                     | None => Ok 0%float
                     | Some periods => cumulative_balance periods period
                     end;
      le ← le_column le_calcs acc;
      hq ← match hq_calcs with
           | Some hq_calcs => col ← hq_column hq_calcs acc; Ok (nullable_sum col)
           | None => Ok 0%float
           end;
      lines ← getitem (list_to_map (M := gmap string (list Checked.row)) txt_summs) acc;
      let le := series_sum (dropna le) in
      let total := (le + hq)%float in
      Ok {| Summary.Local_Entity_Bonuses := Some le;
            Summary.HQ_Bonuses := Some hq;
            Summary.Sum := Some total;
            Summary.GL_Balance := Some cumm_balance;
            Summary.Difference := Some (cumm_balance - total)%float;
            Summary.Status_x := Some (flagged_sum lines INVALD_TEXT_FMT);
            Summary.Status_CHECK := Some (flagged_sum lines AGREEMENT_CLOSED) |}
  end.

(** The [Difference] column before the values are rounded. *)
Definition difference_column (le_calcs : LeCalc.frame) (hq_calcs : option HqCalc.frame)
    (columns : list Summary.column) : Summary.column :=
  let le := series_sum (dropna (LeCalc.Difference <$> LeCalc.rows le_calcs)) in
  let hq := (fun hq_calcs => nullable_sum (HqCalc.Difference <$> HqCalc.rows hq_calcs))
            <$> hq_calcs in
  {| Summary.Local_Entity_Bonuses := Some le;
     Summary.HQ_Bonuses := hq;
     Summary.Sum := Some (object_sum (le :: default [] ((fun x => [x]) <$> hq)));
     Summary.GL_Balance := None;
     Summary.Difference := None;
     Summary.Status_x := Some (object_sum (omap Summary.Status_x columns));
     Summary.Status_CHECK := Some (object_sum (omap Summary.Status_CHECK columns)) |}.

(** The rounding after summarization: every value that is not null. *)
Definition round_column (c : Summary.column) : Summary.column :=
  {| Summary.Local_Entity_Bonuses := round2 <$> Summary.Local_Entity_Bonuses c;
     Summary.HQ_Bonuses := round2 <$> Summary.HQ_Bonuses c;
     Summary.Sum := round2 <$> Summary.Sum c;
     Summary.GL_Balance := round2 <$> Summary.GL_Balance c;
     Summary.Difference := round2 <$> Summary.Difference c;
     Summary.Status_x := round2 <$> Summary.Status_x c;
     Summary.Status_CHECK := round2 <$> Summary.Status_CHECK c |}.

(** The loop [for acc in gl_accs]. *)
Fixpoint account_columns (txt_summs : list (string * list Checked.row))
    (le_calcs : LeCalc.frame) (hq_calcs : option HqCalc.frame)
    (gl_data : gmap string (option (list Fs10n.row))) (period : Z) (gl_accs : list string)
    : result (list (string * Summary.column)) :=
  match gl_accs with
  | [] => Ok []
  | acc :: rest =>
      c ← account_column txt_summs le_calcs hq_calcs gl_data period acc;
      cs ← account_columns txt_summs le_calcs hq_calcs gl_data period rest;
      Ok ((acc, c) :: cs)
  end.

(** [summarize(txt_summs, le_calcs, hq_calcs, gl_data, accs, period)]; the
    accounts of [accs] are distinct. *)
Definition summarize (txt_summs : list (string * list Checked.row))
    (le_calcs : LeCalc.frame) (hq_calcs : option HqCalc.frame)
    (gl_data : gmap string (option (list Fs10n.row))) (accs : list Z) (period : Z)
    : result Summary.table :=
  if negb ((1 <=? period) && (period <=? 15)) then Raise AssertionError else
  let gl_accs := pretty <$> accs in
  columns ← account_columns txt_summs le_calcs hq_calcs gl_data period gl_accs;
  Ok {| Summary.accounts := prod_map id round_column <$> columns;
        Summary.difference :=
          round_column (difference_column le_calcs hq_calcs columns.*2) |}.

End Calculations.

End Processor.

(* ===================================================================== *)
(** * biaController.py: export stages, exchange-rate ladder, notification *)
(* ===================================================================== *)

Module Controller.
Import Py Recovery Processor.

(** The ERP transactions the export collaborators drive. *)
Inductive transaction : Type :=
| FBL3N
| SE16
| ZSD25
| FS10N.

(** A call into an export collaborator ([biaFBL3N], [biaSE16], [biaZSD25],
    [biaFS10N]): [start(sess)], [export(...)] with what it exports, [close()]. *)
Inductive sap_call : Type :=
| Start (t : transaction)
| Export (t : transaction) (target : string)
| Close (t : transaction).

(** The recorded user messages of [reconcile]; [day] is the formatted
    reconciliation date, [time] the formatted time. *)
Definition no_rate_msg (day time : string) : string :=
  "The exchange rate was not available on the portal for the given day "
  ++ day ++ " at " ++ time ++ ".".

Definition retry_hint : string :=
  " Please, send a trigger mail with a manually entered FX rate to retry the reconciliation.".

Definition prior_rate_msg (day time prev_day : string) : string :=
  no_rate_msg day time ++ " An exchange rate as per " ++ prev_day
  ++ " was used instead. If you wish to use a different rate, please,"
  ++ " send a trigger mail with a manually entered FX rate to retry the reconciliation.".

(** The parameters of a user-triggered run ([user_params]); [up_fx_rate] is
    [None] when the dictionary has no ["fx_rate"] key and [Some None] when the
    key is there with the value [None]. *)
Record user_params : Type := {
  up_company_code : option string;
  up_email : string;
  up_fx_rate : option (option float)
}.

(** What [send_notification] hands to the mail collaborator: the template
    it chose and the message it put in. *)
Inductive notification : Type :=
| WarningMail (msg : entry)
| ErrorMail (msg : entry)
| GeneralMail.

(** How the exchange-rate ladder of [reconcile] ends: with a rate, or with
    [return False]. *)
Inductive fx_outcome : Type :=
| FxRate (rate : float)
| FxFailed.

Section Orchestration.

Context {PyObj : Type}.
Variable obj_contains : PyObj -> acc_key -> result bool.
Variable obj_setitem : PyObj -> acc_key -> option PyObj -> result PyObj.
Variable obj_getitem : PyObj -> acc_key -> result PyObj.

(** [data["Agreement"].unique()] on a stored frame (pandas). *)
Variable agreements_of : PyObj -> result (list Z).

(** The export collaborator: the outcome of a call, given the calls made
    before it. *)
Variable sap : list sap_call -> sap_call -> result unit.

(** The exchange-rate service: [ptl.get_exchange_rate(valid_on, loc_curr,
    resp_timeout)] for a day number and a timeout. [Ok None] is the [None] it
    returns when no item of the response matches the currency. *)
Variable portal : Z -> Z -> result (option float).

(** [strftime("%d-%b-%Y")] of a day number. *)
Variable date_fmt : Z -> string.

Variable rules : gmap string rule.

(** The mutable state the orchestration works on: the checkpoint store, the
    accumulator and the calls made to the export collaborators. *)
Record world : Type := {
  rec : rec_state;
  accum : gmap string (gmap string (@slot PyObj));
  sap_log : list sap_call
}.

(** Stateful code that may raise: the state is kept when it raises. *)
Definition M (A : Type) : Type := world -> result A * world.

#[local] Instance M_ret : MRet M := fun A a w => (Ok a, w).
#[local] Instance M_bind : MBind M := fun A B k m w =>
  match m w with
  | (Ok a, w') => k a w'
  | (Raise e, w') => (Raise e, w')
  end.

Definition raise {A : Type} (e : exn) : M A := fun w => (Raise e, w).

Definition lift {A : Type} (r : result A) : M A := fun w => (r, w).

(** [try: m] with the outcome as a value, for the [except] clauses to inspect. *)
Definition try {A : Type} (m : M A) : M (result A) := fun w =>
  match m w with
  | (r, w') => (Ok r, w')
  end.

(** [try: m finally: f]. *)
Definition finally {A : Type} (m : M A) (f : M unit) : M A := fun w =>
  match m w with
  | (r, w1) =>
      match f w1 with
      | (Ok _, w2) => (r, w2)
      | (Raise e, w2) => (Raise e, w2)
      end
  end.

Definition sap_do (c : sap_call) : M unit := fun w =>
  (sap (sap_log w) c,
   {| rec := rec w; accum := accum w; sap_log := sap_log w ++ [c] |}).

Definition get_state (country key : string) (acc : option string) : M entry := fun w =>
  (Recovery.get_state country key acc (rec w), w).

Definition save_state (country key : string) (val : flag) (acc : option string) : M unit :=
  fun w =>
  match Recovery.save_state country key val acc (rec w) with
  | (r, st) => (r, {| rec := st; accum := accum w; sap_log := sap_log w |})
  end.

Definition get_from_accum (country key : string) (acc : option acc_key) : M fetched :=
  fun w => (Processor.get_from_accum obj_getitem country key acc (accum w), w).

(** [proc.get_se16_agreements(data)]: [data["Agreement"].unique()]. *)
Definition get_se16_agreements (data : @fetched PyObj) : result (list Z) :=
  match data with
  | Fetched None => Raise TypeError
  | Fetched (Some o) => agreements_of o
  | FetchedMap m =>
      match m !! AccStr "Agreement" with
      | Some _ => Raise AttributeError
      | None => Raise KeyError
      end
  end.

(** The retry loop of [export_fbl3n_data]: [while nth < n_attempts] with the
    export repeated on [SapRuntimeError]; any other exception leaves the
    handler. The loop runs at most [n_attempts] times, which is the fuel. *)
Fixpoint fbl3n_retry (fuel nth : nat) (cocd : string) : M nat :=
  match fuel with
  | O => mret nth
  | S fuel' =>
      r ← try (sap_do (Export FBL3N cocd));
      match r with
      | Ok _ => mret nth
      | Raise SapRuntimeError => fbl3n_retry fuel' (S nth) cocd
      | Raise e => raise e
      end
  end.

(** [export_fbl3n_data]. *)
Definition export_fbl3n_data (cntry : string) : M bool :=
  exported ← get_state cntry "fbl3n_data_exported" None;
  if truthy exported then mret true else
  r ← lift (getitem rules cntry);
  let cocd := company_code r in
  let n_attempts := 3%nat in
  _ ← sap_do (Start FBL3N);
  nth ← finally
    (r1 ← try (sap_do (Export FBL3N cocd));
     match r1 with
     | Ok _ => mret 0%nat
     | Raise SapRuntimeError => fbl3n_retry n_attempts 0 cocd
     | Raise _ => mret 0%nat
     end)
    (sap_do (Close FBL3N));
  if (nth <? n_attempts)%nat then
    _ ← save_state cntry "fbl3n_data_exported" (FBool true) None;
    mret true
  else mret false.

(** [export_se16_kote_data]. *)
Definition export_se16_kote_data (cntry : string) : M bool :=
  r ← lift (getitem rules cntry);
  exported ← get_state cntry "se16_kote_data_exported" None;
  if truthy exported then mret true else
  _ ← sap_do (Start SE16);
  finally
    (r1 ← try (sap_do (Export SE16 "KOTE"));
     match r1 with
     | Raise _ => mret false
     | Ok _ =>
         _ ← save_state cntry "se16_kote_data_exported" (FBool true) None;
         mret true
     end)
    (sap_do (Close SE16)).

(** [export_se16_kona_data]: the agreement numbers are read from the
    accumulator before the checkpoint is consulted. *)
Definition export_se16_kona_data (cntry : string) : M bool :=
  r ← lift (getitem rules cntry);
  kote ← get_from_accum cntry "kote_data" None;
  agr_nums ← lift (get_se16_agreements kote);
  exported ← get_state cntry "se16_kona_data_exported" None;
  if truthy exported then mret true else
  _ ← sap_do (Start SE16);
  finally
    (r1 ← try (sap_do (Export SE16 "KONA"));
     match r1 with
     | Raise NoDataFoundWarning =>
         _ ← save_state cntry "se16_no_kona_data" (FBool true) None;
         mret true
     | Raise _ => mret false
     | Ok _ =>
         _ ← save_state cntry "se16_kona_data_exported" (FBool true) None;
         mret true
     end)
    (sap_do (Close SE16)).

(** [export_zsd25_local_data]: [exported] is [True] whatever the export did. *)
Definition export_zsd25_local_data (cntry : string) : M bool :=
  r ← lift (getitem rules cntry);
  exported ← get_state cntry "zsd25_loc_data_exported" None;
  if truthy exported then mret true else
  _ ← sap_do (Start ZSD25);
  finally
    (r1 ← try (sap_do (Export ZSD25 (sales_organization_loc r)));
     match r1 with
     | Raise _ => mret true
     | Ok _ =>
         _ ← save_state cntry "zsd25_loc_data_exported" (FBool true) None;
         mret true
     end)
    (sap_do (Close ZSD25)).

(** [export_zsd25_global_data]. *)
Definition export_zsd25_global_data (cntry : string) : M bool :=
  r ← lift (getitem rules cntry);
  no_kona ← get_state cntry "se16_no_kona_data" None;
  if truthy no_kona then mret true else
  exported ← get_state cntry "zsd25_glob_data_exported" None;
  if truthy exported then mret true else
  no_glob ← get_state cntry "zsd25_no_glob_data" None;
  if truthy no_glob then mret true else
  _ ← sap_do (Start ZSD25);
  kona ← get_from_accum cntry "kona_data" None;
  agr_nums ← lift (get_se16_agreements kona);
  finally
    (r1 ← try (sap_do (Export ZSD25 (sales_organization_glob r)));
     match r1 with
     | Raise NoDataFoundWarning =>
         _ ← save_state cntry "zsd25_no_glob_data" (FBool true) None;
         mret true
     | Raise _ => mret true
     | Ok _ =>
         _ ← save_state cntry "zsd25_glob_data_exported" (FBool true) None;
         mret true
     end)
    (sap_do (Close ZSD25)).

(** The [for acc in list(map(str, accs))] loop of [export_fs10n_data]; the
    result is [false] when the function has returned [False] from inside the
    loop (after closing the transaction). *)
Fixpoint fs10n_loop (cntry : string) (accs : list string) : M bool :=
  match accs with
  | [] => mret true
  | acc :: rest =>
      st ← get_state cntry "fs10n_data_exported" (Some acc);
      if bool_decide (st = Flag (FStr "data_nonexist")) then fs10n_loop cntry rest else
      if truthy st then fs10n_loop cntry rest else
      r1 ← try (sap_do (Export FS10N acc));
      match r1 with
      | Raise NoDataFoundWarning =>
          _ ← save_state cntry "fs10n_data_exported" (FStr "data_nonexist") (Some acc);
          fs10n_loop cntry rest
      | Raise _ =>
          _ ← sap_do (Close FS10N);
          mret false
      | Ok _ =>
          _ ← save_state cntry "fs10n_data_exported" (FBool true) (Some acc);
          fs10n_loop cntry rest
      end
  end.

(** [export_fs10n_data]: the transaction is started before the per-account
    checkpoints are consulted. *)
Definition export_fs10n_data (cntry : string) : M bool :=
  r ← lift (getitem rules cntry);
  _ ← sap_do (Start FS10N);
  completed ← fs10n_loop cntry (str <$> accounts r);
  if (completed : bool) then
    _ ← sap_do (Close FS10N);
    mret true
  else mret false.

(** [is_reconciled] and [set_completed]. *)
Definition is_reconciled (cntry : string) : M entry :=
  get_state cntry "reconciled" None.

Definition set_completed (cntry : string) : M unit :=
  save_state cntry "reconciled" (FBool true) None.

(** ** The exchange-rate ladder of [reconcile] *)

(** How the loop [while fx_rate is None and past_days <= MAX_PAST_DAYS] ends:
    with the rate it found (or [None]) and the last [prev_day], or with the
    [return False] of its last handler. *)
Inductive walk_back : Type :=
| Walked (fx_rate : option float) (prev_day : Z)
| Aborted.

Definition MAX_PAST_DAYS : Z := 5.

(** [past_days] grows by at least one with every round, from 1, so that
    [MAX_PAST_DAYS] rounds are enough: that is the fuel. *)
Fixpoint fx_walk_back (fuel : nat) (fx_rate_date past_days prev_day : Z)
    : result walk_back :=
  match fuel with
  | O => Ok (Walked None prev_day)
  | S fuel' =>
      if negb (past_days <=? MAX_PAST_DAYS) then Ok (Walked None prev_day) else
      let prev_day := fx_rate_date - past_days in
      let past_days := past_days + 1 in
      match portal prev_day 15 with
      | Ok (Some rate) => Ok (Walked (Some rate) prev_day)
      | Ok None => fx_walk_back fuel' fx_rate_date past_days prev_day
      | Raise TimeoutError =>
          fx_rate ← portal fx_rate_date 60;
          match fx_rate with
          | Some rate => Ok (Walked (Some rate) prev_day)
          | None => fx_walk_back fuel' fx_rate_date past_days prev_day
          end
      | Raise ResponseError =>
          fx_walk_back fuel' fx_rate_date (past_days + 1) prev_day
      | Raise _ => Ok Aborted
      end
  end.

(** The first request of [reconcile]: the user's rate when the trigger mail
    carried one, else the portal's rate for the conversion date.
    [Ok (Some fx_rate)] is the value of [fx_rate] after it ([Some None] when
    it is still [None]); [Ok None] stands for the [return False] of the last
    handler. *)
Definition fx_first (params : option user_params) (fx_rate_date : Z)
    : result (option (option float)) :=
  match params ≫= up_fx_rate with
  | Some fx_rate => Ok (Some fx_rate)
  | None =>
      match portal fx_rate_date 15 with
      | Ok fx_rate => Ok (Some fx_rate)
      | Raise TimeoutError => fx_rate ← portal fx_rate_date 60; Ok (Some fx_rate)
      | Raise ResponseError => Ok (Some None)
      | Raise _ => Ok None
      end
  end.

(** Lines 1229-1299 of [reconcile]: the rate to reconcile with, or the
    [return False], together with the user message recorded on the way. *)
Definition reconcile_fx (cntry : string) (params : option user_params)
    (fx_rate_date recon_date : Z) (recon_time : string) (is_uplusone : bool)
    : M fx_outcome :=
  first ← lift (fx_first params fx_rate_date);
  match first with
  | None => mret FxFailed
  | Some (Some rate) => mret (FxRate rate)
  | Some None =>
      let day := date_fmt recon_date in
      if negb is_uplusone then
        walked ← lift (fx_walk_back (Z.to_nat MAX_PAST_DAYS) fx_rate_date 1 fx_rate_date);
        match walked with
        | Aborted => mret FxFailed
        | Walked None _ =>
            _ ← save_state cntry "user_error" (FStr (no_rate_msg day recon_time)) None;
            mret FxFailed
        | Walked (Some rate) prev_day =>
            _ ← save_state cntry "user_warning"
                  (FStr (prior_rate_msg day recon_time (date_fmt prev_day))) None;
            mret (FxRate rate)
        end
      else
        _ ← save_state cntry "user_error"
              (FStr (no_rate_msg day recon_time ++ retry_hint)) None;
        mret FxFailed
  end.

(** ** [send_notification] *)

(** [msg != ""] on what [rec.get_state] returned. *)
Definition not_empty (e : entry) : bool :=
  negb (bool_decide (e = Flag (FStr ""))).

(** [send_notification(msg_cfg, rep_cfg, rules, cntry, user_params)] up to
    the choice of the template; [notif_send] is [notif_cfg["send"]]. The
    result is [None] where the function returns before it produces a mail. *)
Definition send_notification (notif_send : bool) (cntry : string)
    (params : option user_params) : M (option notification) :=
  if negb notif_send then mret None else
  msgs ← match params with
         | None =>
             r ← lift (getitem rules cntry);
             let recipients := (filter (fun usr => snd usr = true) (accountants r)).*1 in
             match recipients with
             | [] => mret None
             | _ =>
                 warn_msg ← get_state cntry "user_warning" None;
                 err_msg ← get_state cntry "user_error" None;
                 mret (Some (warn_msg, err_msg))
             end
         | Some p =>
             match up_company_code p, up_fx_rate p with
             | None, _ =>
                 mret (Some (Flag (FStr ""),
                             Flag (FStr "The company code you've provided is incorrect!")))
             | Some _, Some None =>
                 mret (Some (Flag (FStr ""),
                             Flag (FStr "The FX rate you've provided is incorrect!")))
             | Some _, _ => mret (Some (Flag (FStr ""), Flag (FStr "")))
             end
         end;
  match msgs with
  | None => mret None
  | Some (warn_msg, err_msg) =>
      if not_empty warn_msg && not_empty err_msg then raise AssertionError else
      if not_empty warn_msg then mret (Some (WarningMail warn_msg))
      else if not_empty err_msg then mret (Some (ErrorMail err_msg))
      else mret (Some GeneralMail)
  end.

(** ** One country of a run *)

(** The stages whose data work the model leaves to collaborators: the
    [process_*] stages, the calculations of [reconcile] after the rate is
    known (given the rate), and [generate_report]. *)
Variable process_se16_kote_data : string -> M unit.
Variable process_se16_kona_data : string -> M unit.
Variable process_zsd25_global_data : string -> M unit.
Variable process_zsd25_local_data : string -> M unit.
Variable process_fs10n_data : string -> M unit.
Variable process_fbl3n_data : string -> M bool.
Variable reconcile_calculations : string -> float -> M bool.
Variable generate_report : string -> M bool.

(** [reconcile]: the exchange-rate ladder, then the calculations. *)
Definition reconcile (cntry : string) (params : option user_params)
    (fx_rate_date recon_date : Z) (recon_time : string) (is_uplusone : bool) : M bool :=
  fx ← reconcile_fx cntry params fx_rate_date recon_date recon_time is_uplusone;
  match fx with
  | FxFailed => mret false
  | FxRate rate => reconcile_calculations cntry rate
  end.

(** The body of the loop [for cntry in countries] of [main] ([app_test.py]);
    the result tells whether the country was processed to the end. *)
Definition run_country (notif_send : bool) (cntry : string) (params : option user_params)
    (fx_rate_date recon_date : Z) (recon_time : string) (is_uplusone : bool) : M bool :=
  reconciled ← is_reconciled cntry;
  if truthy reconciled then mret false else
  ok ← export_se16_kote_data cntry;
  if negb ok then mret false else
  _ ← process_se16_kote_data cntry;
  ok ← export_se16_kona_data cntry;
  if negb ok then mret false else
  _ ← process_se16_kona_data cntry;
  ok ← export_zsd25_global_data cntry;
  if negb ok then mret false else
  _ ← process_zsd25_global_data cntry;
  ok ← export_zsd25_local_data cntry;
  if negb ok then mret false else
  _ ← process_zsd25_local_data cntry;
  ok ← export_fs10n_data cntry;
  if negb ok then mret false else
  _ ← process_fs10n_data cntry;
  ok ← export_fbl3n_data cntry;
  if negb ok then mret false else
  ok ← process_fbl3n_data cntry;
  if negb ok then mret false else
  ok ← reconcile cntry params fx_rate_date recon_date recon_time is_uplusone;
  if negb ok then
    _ ← send_notification notif_send cntry None;
    mret false
  else
  ok ← generate_report cntry;
  if negb ok then mret false else
  _ ← send_notification notif_send cntry params;
  _ ← set_completed cntry;
  mret true.

End Orchestration.

End Controller.


(* ===================================================================== *)
(** * biaDates2.py: the dates of a reconciliation *)
(* ===================================================================== *)

Module Dates.

(** A [datetime.date] is the number of its day counted from 1970-01-01, a
    number from [date_min] to [date_max] (the days [is_date] accepts, below),
    and a [timedelta] of days is their number. Every statement that makes a
    date from another one checks that range, see [plus_days], and raises
    [OverflowError] outside it as [datetime] does. *)
Definition date : Type := Z.

(** The year, the month and the day of the month of a date (the proleptic
    Gregorian calendar of [datetime]). *)
Definition civil (z : date) : Z * Z * Z :=
  let z := z + 719468 in
  let era := z / 146097 in
  let doe := z - era * 146097 in
  let yoe := (doe - doe / 1460 + doe / 36524 - doe / 146096) / 365 in
  let doy := doe - (365 * yoe + yoe / 4 - yoe / 100) in
  let mp := (5 * doy + 2) / 153 in
  let d := doy - (153 * mp + 2) / 5 + 1 in
  let m := if mp <? 10 then mp + 3 else mp - 9 in
  let y := yoe + era * 400 in
  (if m <=? 2 then y + 1 else y, m, d).

Definition year (day : date) : Z := (civil day).1.1.
Definition month (day : date) : Z := (civil day).1.2.
Definition day_of_month (day : date) : Z := (civil day).2.

(** [date(y, m, d)] for a day of the calendar. *)
Definition ymd (y m d : Z) : date :=
  let y := if m <=? 2 then y - 1 else y in
  let era := y / 400 in
  let yoe := y - era * 400 in
  let doy := (153 * (if 2 <? m then m - 3 else m + 9) + 2) / 5 + d - 1 in
  let doe := yoe * 365 + yoe / 4 - yoe / 100 + doy in
  era * 146097 + doe - 719468.

(** [date.min] and [date.max]: the dates of [datetime] go from 0001-01-01
    to 9999-12-31. *)
Definition date_min : date := ymd 1 1 1.
Definition date_max : date := ymd 9999 12 31.

Definition is_date (z : Z) : bool := (date_min <=? z) && (z <=? date_max).

(** What a statement on dates does: it returns, or it raises
    [OverflowError] because a date would leave the range of
    [datetime.date]. *)
Inductive outcome (A : Type) : Type :=
| Returns (a : A)
| OverflowError.

Arguments Returns {A} a.
Arguments OverflowError {A}.

(** A run of a function of the module; [None] is a loop that was given too
    few rounds to end. *)
Definition and_then {A B : Type} (m : option (outcome A)) (k : A -> option (outcome B))
    : option (outcome B) :=
  match m with
  | Some (Returns a) => k a
  | Some OverflowError => Some OverflowError
  | None => None
  end.

Notation "'let!' x ':=' m 'in' k" := (and_then m (fun x => k))
  (at level 10, x name, m at level 100, k at level 200).

(** [day + timedelta(n)]. *)
Definition plus_days (day : date) (n : Z) : option (outcome date) :=
  if is_date (day + n) then Some (Returns (day + n)) else Some OverflowError.

(** [np.is_busday(day, holidays = off_days)] with the default week mask:
    Monday to Friday, the holidays excepted. 1970-01-01 was a Thursday. *)
Definition weekday (day : date) : Z := (day + 3) mod 7.

Definition is_busday (day : date) (off_days : list date) : bool :=
  (weekday day <? 5) && negb (bool_decide (day ∈ off_days)).

(** [while not np.is_busday(day, holidays = off_days): day += timedelta(step)],
    for as many rounds as the fuel. *)
Fixpoint seek (fuel : nat) (step : Z) (day : date) (off_days : list date)
    : option (outcome date) :=
  match fuel with
  | O => None
  | S fuel' =>
      if is_busday day off_days then Some (Returns day)
      else
        let! day := plus_days day step in
        seek fuel' step day off_days
  end.

(** Among seven days for every holiday and seven more there is a business
    day, so that this many rounds are enough for the loops. *)
Definition rounds (off_days : list date) : nat := 7 * S (length off_days).

(** [get_start_of_month(day)]: [day.replace(day = 1)]. *)
Definition get_start_of_month (day : date) : date := ymd (year day) (month day) 1.

(** [get_ultimo(uplusone, off_days)]. *)
Definition get_ultimo (uplusone : date) (off_days : list date) : option (outcome date) :=
  let! ultimo := plus_days uplusone (-1) in
  seek (rounds off_days) (-1) ultimo off_days.

(** [get_ultimo_plus_one(day, off_days)]. *)
Definition get_ultimo_plus_one (day : date) (off_days : list date) : option (outcome date) :=
  let first_day_month := get_start_of_month day in
  let first_workday := first_day_month in
  seek (rounds off_days) 1 first_workday off_days.

(** The dictionary [calculate_reconciliation_times] returns. *)
Record recon_times : Type := {
  fiscal_year : Z;
  fiscal_period : Z;
  reconciliation_date : date;
  conversion_date : date
}.

(** [calculate_reconciliation_times(day, off_days)]. *)
Definition calculate_reconciliation_times (day : date) (off_days : list date)
    : option (outcome recon_times) :=
  let! ultimo_plus_one := get_ultimo_plus_one day off_days in
  let! times :=
    (if ultimo_plus_one <? day then
       let fisc_year := year day + 1 in
       let fisc_period := month day in
       let recon_date := day in
       Some (Returns (fisc_year, fisc_period, recon_date))
     else
       let fisc_period := month day - 1 in
       let fisc_year := year day in
       let fisc_period := if fisc_period =? 0 then 12 else fisc_period in
       let fisc_year := if negb (fisc_period =? 12) then fisc_year + 1 else fisc_year in
       let! last_day_prev_mon := plus_days (get_start_of_month day) (-1) in
       let! last_day_prev_mon := seek (rounds off_days) (-1) last_day_prev_mon off_days in
       let recon_date := last_day_prev_mon in
       Some (Returns (fisc_year, fisc_period, recon_date))) in
  let fisc_year := times.1.1 in
  let fisc_period := times.1.2 in
  let recon_date := times.2 in
  let! exch_rate_date :=
    (if recon_date =? day then Some (Returns recon_date) else get_ultimo day off_days) in
  Some (Returns {| fiscal_year := fisc_year;
                   fiscal_period := fisc_period;
                   reconciliation_date := recon_date;
                   conversion_date := exch_rate_date |}).

(** [calculate_export_dates(day, off_days)]. *)
Definition calculate_export_dates (day : date) (off_days : list date)
    : option (outcome (date * date)) :=
  let! last_day_prev_mon := plus_days (get_start_of_month day) (-1) in
  let first_day_prev_mon := get_start_of_month last_day_prev_mon in
  let! uplus_one := get_ultimo_plus_one day off_days in
  if uplus_one <? day then
    let lower := first_day_prev_mon in
    let upper := day in
    Some (Returns (lower, upper))
  else
    let! before := plus_days first_day_prev_mon (-1) in
    let lower := get_start_of_month before in
    let upper := last_day_prev_mon in
    Some (Returns (lower, upper)).

End Dates.

(* ===================================================================== *)
(** * Properties of the checkpoint store *)
(* ===================================================================== *)

Module RecoveryFacts.
Import Py Recovery.

Lemma account_flags_foldl (accs : list Z) (m0 : gmap string flag) (a : string) :
  foldl (fun m acc => <[str acc := FBool false]> m) m0 accs !! a =
  if bool_decide (a ∈ str <$> accs) then Some (FBool false) else m0 !! a.
Proof.
  revert m0. induction accs as [|x accs IH]; intros m0; [done|].
  cbn [foldl]. rewrite IH, fmap_cons.
  case_bool_decide as H1; case_bool_decide as H2; try done.
  - exfalso. apply H2. by right.
  - apply elem_of_cons in H2 as [->|?]; [|done]. by rewrite lookup_insert_eq.
  - rewrite lookup_insert_ne; [done|]. intros <-. apply H2. by left.
Qed.

(** The per-account sub-flags are exactly the configured accounts, all false. *)
Lemma account_flags_lookup (accs : list Z) (a : string) :
  account_flags accs !! a =
  if bool_decide (a ∈ str <$> accs) then Some (FBool false) else None.
Proof. unfold account_flags. by rewrite account_flags_foldl, lookup_empty. Qed.

(** Every default entry is a false flag, an empty message, or the all-false
    per-account map. *)
Lemma default_states_all_false (accs : list Z) (key : string) (e : entry) :
  default_states accs !! key = Some e ->
  e = Flag (FBool false) \/ e = Flag (FStr "") \/ e = PerAccount (account_flags accs).
Proof.
  unfold default_states. intros H.
  repeat (apply lookup_insert_Some in H as [[_ <-]|[_ H]]; [by auto|]).
  by rewrite lookup_empty in H.
Qed.

Lemma reset_loop_spec (countries : list string) (rules : gmap string rule)
    (acc doc : states_doc) :
  reset_loop countries rules acc = Ok doc ->
  forall c, doc !! c =
    if bool_decide (c ∈ countries)
    then default_states <$> (accounts <$> rules !! c)
    else acc !! c.
Proof.
  revert acc. induction countries as [|x cs IH]; intros acc H c.
  - by injection H as <-.
  - cbn [reset_loop] in H. unfold getitem in H.
    destruct (rules !! x) as [r|] eqn:Hr; [|done].
    rewrite (IH _ H c).
    case_bool_decide as H1; case_bool_decide as H2; try done.
    + exfalso. apply H2. by right.
    + apply elem_of_cons in H2 as [->|?]; [|done]. by rewrite lookup_insert_eq, Hr.
    + rewrite lookup_insert_ne; [done|]. intros <-. apply H2. by left.
Qed.

Lemma reset_loop_members (countries : list string) (rules : gmap string rule)
    (acc doc : states_doc) :
  reset_loop countries rules acc = Ok doc ->
  forall c, c ∈ countries -> is_Some (rules !! c).
Proof.
  revert acc. induction countries as [|x cs IH]; intros acc H c Hc.
  - by apply elem_of_nil in Hc.
  - cbn [reset_loop] in H. unfold getitem in H.
    destruct (rules !! x) as [r|] eqn:Hr; [|done].
    apply elem_of_cons in Hc as [->|Hc]; [by eexists|]. by eapply IH.
Qed.


End RecoveryFacts.

(* ===================================================================== *)
(** * Properties of the accumulator *)
(* ===================================================================== *)

Module AccumulatorFacts.
Import Py Processor.

(** A toy stored object for closed examples: the list of its column labels. *)
Definition labels_contains (o : list acc_key) (x : acc_key) : result bool :=
  Ok (bool_decide (x ∈ o)).

Definition labels_setitem (o : list acc_key) (x : acc_key) (d : option (list acc_key))
    : result (list acc_key) :=
  Ok (x :: o).

Definition labels_getitem (o : list acc_key) (x : acc_key) : result (list acc_key) :=
  if bool_decide (x ∈ o) then Ok [x] else Raise KeyError.

Section Facts.

Context {PyObj : Type}.
Variable obj_contains : PyObj -> acc_key -> result bool.
Variable obj_setitem : PyObj -> acc_key -> option PyObj -> result PyObj.
Variable obj_getitem : PyObj -> acc_key -> result PyObj.

(** pandas: once [obj[acc] = data] has succeeded, [acc in obj] holds. *)
Hypothesis setitem_contains :
  forall o x d o', obj_setitem o x d = Ok o' -> obj_contains o' x = Ok true.

Local Abbreviation store := (store_to_accum obj_contains obj_setitem).
Local Abbreviation fetch := (get_from_accum obj_getitem).
Local Abbreviation accum := (gmap string (gmap string (@slot PyObj))).

(** What the accumulator holds for a country under a kind. *)
Definition held (a : accum) (country key : string) : option (@slot PyObj) :=
  a !! key ≫= fun by_country => by_country !! country.

Lemma held_assign (a : accum) (by_country : gmap string slot) (c k : string) (s : slot) :
  held (<[k := <[c := s]> by_country]> a) c k = Some s.
Proof. unfold held. rewrite lookup_insert_eq. simpl. by rewrite lookup_insert_eq. Qed.

Lemma held_assign_ne (a : accum) (by_country : gmap string slot)
    (c k c' k' : string) (s : slot) :
  a !! k = Some by_country -> (c, k) <> (c', k') ->
  held (<[k := <[c := s]> by_country]> a) c' k' = held a c' k'.
Proof.
  intros Hk Hne. unfold held. destruct (decide (k = k')) as [<-|Hkk].
  - rewrite lookup_insert_eq, Hk. simpl. rewrite lookup_insert_ne; [done|]. congruence.
  - by rewrite lookup_insert_ne.
Qed.

(** A successful store leaves the stored slot behind. *)
Lemma store_ok_held (d : option PyObj) (c k : string) (acc : option acc_key) (a a' : accum) :
  store d c k acc a = Ok a' ->
  bad_account acc = false
  /\ exists by_country s', a !! k = Some by_country
     /\ a' = <[k := <[c := s']> by_country]> a
     /\ match acc, by_country !! c with
        | None, None => s' = Data d
        | None, Some _ => False
        | Some x, None => s' = ByAccount (<[x := d]> ∅)
        | Some x, Some (ByAccount m) => m !! x = None /\ s' = ByAccount (<[x := d]> m)
        | Some x, Some (Data None) => False
        | Some x, Some (Data (Some o)) =>
            exists o', obj_setitem o x d = Ok o' /\ s' = Data (Some o')
        end.
Proof.
  unfold store_to_accum, getitem. intros H.
  destruct (bad_account acc); [done|]. split; [done|].
  destruct (a !! k) as [bc|] eqn:Hk; [|done]. simpl in H.
  exists bc.
  destruct (bc !! c) as [s|] eqn:Hc, acc as [x|]; simpl in H; try done.
  - destruct s as [[o|]|m]; simpl in H; try done.
    + destruct (obj_contains o x) as [[]|]; simpl in H; try done.
      destruct (obj_setitem o x d) as [o'|] eqn:Hs; simpl in H; [|done].
      injection H as <-. eexists. repeat split; eauto.
    + case_bool_decide as Hm; simpl in H; [done|].
      injection H as <-. eexists. split; [done|]. split; [done|]. split; [|done].
      by apply eq_None_not_Some.
  - injection H as <-. by eexists.
  - injection H as <-. by eexists.
Qed.

Lemma store_write_once (d1 d2 : option PyObj) (c k : string) (acc : option acc_key)
    (a a' : accum) :
  store d1 c k acc a = Ok a' -> raises (store d2 c k acc a').
Proof.
  intros H. apply store_ok_held in H as (Hb & bc & s' & Hk & -> & Hs).
  unfold raises, store_to_accum, getitem. rewrite Hb, lookup_insert_eq. simpl.
  rewrite lookup_insert_eq.
  destruct acc as [x|]; [|by eexists].
  destruct (bc !! c) as [[[o|]|m]|]; try done.
  - destruct Hs as (o' & Hset & ->). simpl.
    rewrite (setitem_contains _ _ _ _ Hset). simpl. by eexists.
  - destruct Hs as [_ ->]. simpl. rewrite lookup_insert_eq.
    rewrite bool_decide_eq_true_2 by done. by eexists.
  - subst s'. simpl. rewrite lookup_insert_eq.
    rewrite bool_decide_eq_true_2 by done. by eexists.
Qed.

Lemma store_then_fetch (d : option PyObj) (c k : string) (acc : option acc_key)
    (a a' : accum) :
  store d c k acc a = Ok a' ->
  (forall o, held a c k <> Some (Data (Some o))) ->
  fetch c k acc a' = Ok (Fetched d).
Proof.
  intros H Hfree. apply store_ok_held in H as (Hb & bc & s' & Hk & -> & Hs).
  unfold get_from_accum, getitem. rewrite Hb, lookup_insert_eq. simpl.
  rewrite lookup_insert_eq. simpl.
  unfold held in Hfree. rewrite Hk in Hfree. simpl in Hfree.
  destruct acc as [x|], (bc !! c) as [[[o|]|m]|]; try done.
  - by destruct (Hfree o).
  - destruct Hs as [_ ->]. by rewrite lookup_insert_eq.
  - subst s'. by rewrite lookup_insert_eq.
  - by subst s'.
Qed.

(** A call concerns the key [(c, k, acc)] when it stores for the same country
    and kind, and either side has no account or both have the same one. *)
Definition concerns (call : @store_call PyObj) (c k : string) (acc : option acc_key) : Prop :=
  sc_country call = c /\ sc_key call = k
  /\ (acc = None \/ sc_acc call = None \/ sc_acc call = acc).

(** Nothing can be fetched for the key: the country has no entry under the
    kind, or a per-account dictionary without the account. *)
Definition unset (a : accum) (c k : string) (acc : option acc_key) : Prop :=
  match held a c k with
  | None => True
  | Some (ByAccount m) => exists x, acc = Some x /\ m !! x = None
  | Some (Data _) => False
  end.

Lemma unset_fetch_raises (a : accum) (c k : string) (acc : option acc_key) :
  unset a c k acc -> raises (fetch c k acc a).
Proof.
  unfold unset, held, raises, get_from_accum, getitem. intros H.
  destruct (bad_account acc); [by eexists|].
  destruct (a !! k) as [bc|]; simpl in *; [|by eexists].
  destruct (bc !! c) as [[d|m]|]; simpl in *; try done; [|by eexists].
  destruct H as (x & -> & Hx). rewrite Hx. by eexists.
Qed.

Lemma unset_store_step (a : accum) (call : store_call) (c k : string) (acc : option acc_key) :
  unset a c k acc -> ~ concerns call c k acc ->
  unset (store_step obj_contains obj_setitem a call) c k acc.
Proof.
  intros Hu Hn. unfold store_step.
  destruct (store_to_accum _ _ _ _ _ _ a) as [a'|] eqn:Hst; [|done].
  apply store_ok_held in Hst as (Hb & bc & s' & Hk & -> & Hs).
  unfold unset in *.
  destruct (decide ((sc_country call, sc_key call) = (c, k))) as [[= Hc Hkk]|Hne].
  - subst c k. rewrite held_assign.
    unfold held in Hu. rewrite Hk in Hu. simpl in Hu.
    unfold concerns in Hn.
    destruct (sc_acc call) as [y|] eqn:Hy.
    + destruct acc as [x|]; [|exfalso; apply Hn; auto].
      assert (x <> y) by (intros ->; apply Hn; auto).
      destruct (bc !! sc_country call) as [[[o|]|m]|]; try done.
      * destruct Hs as [_ ->]. destruct Hu as (x' & [= <-] & Hx).
        exists x. by rewrite lookup_insert_ne.
      * subst s'. exists x. by rewrite lookup_insert_ne, lookup_empty.
    + exfalso. apply Hn. auto.
  - by rewrite held_assign_ne.
Qed.

Lemma unset_run_stores (calls : list store_call) (a : accum)
    (c k : string) (acc : option acc_key) :
  unset a c k acc -> Forall (fun call => ~ concerns call c k acc) calls ->
  unset (run_stores obj_contains obj_setitem calls a) c k acc.
Proof.
  intros Hu Hall. revert a Hu. induction Hall as [|call calls Hn _ IH]; intros a Hu; [done|].
  apply IH. by apply unset_store_step.
Qed.

Lemma unset_initial (c k : string) (acc : option acc_key) : unset _accum c k acc.
Proof.
  unfold unset, held.
  destruct (_accum !! k) as [bc|] eqn:Hk; [|done]. simpl.
  assert (bc = ∅) as ->; [|by rewrite lookup_empty].
  unfold _accum in Hk. apply elem_of_list_to_map_2 in Hk.
  apply list_elem_of_fmap in Hk as (k' & [= _ ->] & _). done.
Qed.

(** C2 (amended). After a successful first store, a second store with the
    same key raises whatever value it is given, and the first value stays in
    place. A fetch raises when no call of the run stored anything for the
    country under the kind, and, for a fetch with an account, when the
    country's entries were stored per account and never for that account.
    A fetch without account on entries stored per account does not raise: it
    returns the whole per-account dictionary. *)
Theorem accumulator_write_once
    (d1 d2 : option PyObj) (c k : string) (acc : option acc_key) (a a' : accum) :
  store d1 c k acc a = Ok a' ->
  raises (store d2 c k acc a')
  /\ ((forall o, held a c k <> Some (Data (Some o))) ->
      fetch c k acc a' = Ok (Fetched d1))
  /\ (forall (calls : list store_call) c0 k0 acc0,
       Forall (fun call => ~ concerns call c0 k0 acc0) calls ->
       raises (fetch c0 k0 acc0 (run_stores obj_contains obj_setitem calls _accum)))
  /\ (forall x m, acc = Some x -> held a c k = Some (ByAccount m) ->
       fetch c k None a' = Ok (FetchedMap (<[x := d1]> m))).
Proof.
  intros H. split; [by eapply store_write_once|].
  split; [by apply store_then_fetch|]. split.
  - intros calls c0 k0 acc0 Hall.
    apply unset_fetch_raises, unset_run_stores; [apply unset_initial | done].
  - intros x m -> Hheld.
    apply store_ok_held in H as (Hb & bc & s' & Hk & -> & Hs).
    unfold held in Hheld. rewrite Hk in Hheld. simpl in Hheld. rewrite Hheld in Hs.
    destruct Hs as [_ ->].
    unfold get_from_accum, getitem. simpl. rewrite lookup_insert_eq. simpl.
    by rewrite lookup_insert_eq.
Qed.

End Facts.

(** The account and dataset of the closed examples. *)
Definition acc_66010010 : acc_key := AccStr "66010010".

Definition stored_per_account : gmap string (gmap string (@slot (list acc_key))) :=
  run_stores labels_contains labels_setitem
    [ {| sc_data := Some []; sc_country := "Germany";
         sc_key := "text_summs"; sc_acc := Some acc_66010010 |} ]
    _accum.

(** C2, as stated, fails: nothing was ever stored under the key
    (Germany, text_summs, no account), and yet the fetch does not raise. It
    returns the per-account dictionary, which is how [reconcile] reads
    ["text_summs"] and ["fs10n_data"]. *)
Lemma fetch_unset_key_returns_map :
  get_from_accum labels_getitem "Germany" "text_summs" None stored_per_account
  = Ok (FetchedMap (<[acc_66010010 := Some []]> ∅))
  /\ ~ raises (get_from_accum labels_getitem "Germany" "text_summs" None stored_per_account).
Proof.
  assert (E : get_from_accum labels_getitem "Germany" "text_summs" None stored_per_account
              = Ok (FetchedMap (<[acc_66010010 := Some []]> ∅))) by reflexivity.
  split; [exact E|]. rewrite E. by intros [e He].
Qed.

Lemma accumulator_write_once_witness :
  raises (store_to_accum labels_contains labels_setitem (Some [acc_66010010])
            "Germany" "fs10n_data" (Some acc_66010010)
            (<["fs10n_data" := <["Germany" := ByAccount (<[acc_66010010 := None]> ∅)]> ∅]> _accum))
  /\ get_from_accum labels_getitem "Germany" "fs10n_data" (Some acc_66010010)
       (<["fs10n_data" := <["Germany" := ByAccount (<[acc_66010010 := None]> ∅)]> ∅]> _accum)
     = Ok (Fetched None).
Proof.
  pose proof (accumulator_write_once labels_contains labels_setitem labels_getitem
    (fun o x d o' (H : labels_setitem o x d = Ok o') =>
       match H in (_ = r) return
         (match r with Ok o'' => labels_contains o'' x = Ok true | Raise _ => True end)
       with eq_refl =>
         f_equal Ok (bool_decide_eq_true_2 (x ∈ x :: o) (list_elem_of_here x o))
       end)
    None (Some [acc_66010010]) "Germany" "fs10n_data" (Some acc_66010010)
    _accum _ eq_refl) as (H1 & H2 & _).
  split; [exact H1|]. apply H2. intros o. vm_compute. discriminate.
Defined.

End AccumulatorFacts.

(* ===================================================================== *)
(** * Properties of the export stages *)
(* ===================================================================== *)

Module ExportFacts.
Import Py Recovery Processor Controller.

(** Closed conjunctions of equations settled by evaluation. *)
Ltac vm_conj :=
  repeat match goal with |- _ /\ _ => split end; vm_compute; reflexivity.

Ltac m_unfold :=
  unfold is_reconciled, set_completed;
  unfold mbind, M_bind, mret, M_ret, lift, raise, Controller.get_state,
    Controller.save_state, Controller.get_from_accum, try, finally, sap_do.

(** The stage flag of a country is recorded as complete. *)
Definition complete (st : rec_state) (cntry key : string) : Prop :=
  Recovery.get_state cntry key None st = Ok (Flag (FBool true)).

(** The per-account flag holds [True] or the marker of a search without
    results. *)
Definition account_done (st : rec_state) (cntry key acc : string) : Prop :=
  Recovery.get_state cntry key (Some acc) st = Ok (Flag (FBool true))
  \/ Recovery.get_state cntry key (Some acc) st = Ok (Flag (FStr "data_nonexist")).

Section Facts.

Context {PyObj : Type}.
Variable obj_getitem : PyObj -> acc_key -> result PyObj.
Variable agreements_of : PyObj -> result (list Z).
Variable sap : list sap_call -> sap_call -> result unit.
Variable portal : Z -> Z -> result (option float).
Variable date_fmt : Z -> string.
Variable rules : gmap string rule.
Variable process_se16_kote_data : string -> M (PyObj := PyObj) unit.
Variable process_se16_kona_data : string -> M (PyObj := PyObj) unit.
Variable process_zsd25_global_data : string -> M (PyObj := PyObj) unit.
Variable process_zsd25_local_data : string -> M (PyObj := PyObj) unit.
Variable process_fs10n_data : string -> M (PyObj := PyObj) unit.
Variable process_fbl3n_data : string -> M (PyObj := PyObj) bool.
Variable reconcile_calculations : string -> float -> M (PyObj := PyObj) bool.
Variable generate_report : string -> M (PyObj := PyObj) bool.

Local Abbreviation world := (@world PyObj).

Lemma export_fbl3n_skip (cntry : string) (w : world) :
  complete (rec w) cntry "fbl3n_data_exported" ->
  export_fbl3n_data sap rules cntry w = (Ok true, w).
Proof. unfold complete, export_fbl3n_data. m_unfold. by intros ->. Qed.

Lemma export_se16_kote_skip (cntry : string) (w : world) :
  is_Some (rules !! cntry) ->
  complete (rec w) cntry "se16_kote_data_exported" ->
  export_se16_kote_data sap rules cntry w = (Ok true, w).
Proof.
  unfold complete, export_se16_kote_data, getitem. m_unfold.
  by intros [r ->] ->.
Qed.

Lemma export_se16_kona_skip (cntry : string) (w : world) (kote : PyObj) (nums : list Z) :
  is_Some (rules !! cntry) ->
  Processor.get_from_accum obj_getitem cntry "kote_data" None (accum w)
    = Ok (Fetched (Some kote)) ->
  agreements_of kote = Ok nums ->
  complete (rec w) cntry "se16_kona_data_exported" ->
  export_se16_kona_data obj_getitem agreements_of sap rules cntry w = (Ok true, w).
Proof.
  unfold complete, export_se16_kona_data, getitem. m_unfold.
  intros [r ->] -> Hn ->. simpl. by rewrite Hn.
Qed.

Lemma export_zsd25_local_skip (cntry : string) (w : world) :
  is_Some (rules !! cntry) ->
  complete (rec w) cntry "zsd25_loc_data_exported" ->
  export_zsd25_local_data sap rules cntry w = (Ok true, w).
Proof.
  unfold complete, export_zsd25_local_data, getitem. m_unfold.
  by intros [r ->] ->.
Qed.

Lemma export_zsd25_global_skip (cntry : string) (w : world) (no_kona : entry) :
  is_Some (rules !! cntry) ->
  Recovery.get_state cntry "se16_no_kona_data" None (rec w) = Ok no_kona ->
  complete (rec w) cntry "zsd25_glob_data_exported" ->
  export_zsd25_global_data obj_getitem agreements_of sap rules cntry w = (Ok true, w).
Proof.
  unfold complete, export_zsd25_global_data, getitem. m_unfold.
  intros [r ->] H1 H2. simpl. rewrite H1. simpl.
  destruct (truthy no_kona); [done|]. by rewrite H2.
Qed.

Lemma fs10n_loop_skip (cntry : string) (accs : list string) (w : world) :
  Forall (account_done (rec w) cntry "fs10n_data_exported") accs ->
  fs10n_loop sap cntry accs w = (Ok true, w).
Proof.
  induction 1 as [|acc accs Hacc _ IH]; [done|].
  cbn [fs10n_loop]. m_unfold. destruct Hacc as [-> | ->]; simpl; exact IH.
Qed.

Lemma export_fs10n_skip (cntry : string) (r : rule) (w : world) :
  rules !! cntry = Some r ->
  Forall (account_done (rec w) cntry "fs10n_data_exported") (str <$> accounts r) ->
  let started := {| rec := rec w; accum := accum w;
                    sap_log := sap_log w ++ [Start FS10N] |} in
  let closed := {| rec := rec w; accum := accum w;
                   sap_log := (sap_log w ++ [Start FS10N]) ++ [Close FS10N] |} in
  export_fs10n_data sap rules cntry w =
    match sap (sap_log w) (Start FS10N) with
    | Raise e => (Raise e, started)
    | Ok _ =>
        match sap (sap_log w ++ [Start FS10N]) (Close FS10N) with
        | Raise e => (Raise e, closed)
        | Ok _ => (Ok true, closed)
        end
    end.
Proof.
  intros Hr Hacc started closed.
  unfold export_fs10n_data, getitem. rewrite Hr.
  unfold mbind at 1, M_bind, lift. unfold mbind at 1, M_bind, sap_do at 1.
  destruct (sap (sap_log w) (Start FS10N)) as [[]|e]; [|done].
  unfold mbind at 1, M_bind. fold started.
  rewrite (fs10n_loop_skip cntry _ started Hacc).
  unfold mbind, M_bind, sap_do, mret, M_ret. simpl.
  by destruct (sap _ (Close FS10N)) as [[]|e].
Qed.

Lemma run_country_skip (notif_send : bool) (cntry : string) (params : option user_params)
    (fx_rate_date recon_date : Z) (recon_time : string) (is_uplusone : bool) (w : world) :
  complete (rec w) cntry "reconciled" ->
  run_country obj_getitem agreements_of sap portal date_fmt rules
    process_se16_kote_data process_se16_kona_data process_zsd25_global_data
    process_zsd25_local_data process_fs10n_data process_fbl3n_data
    reconcile_calculations generate_report
    notif_send cntry params fx_rate_date recon_date recon_time is_uplusone w
  = (Ok false, w).
Proof. unfold complete, run_country. m_unfold. by intros ->. Qed.

(** C1 (amended). For a configured country, an export stage whose single
    checkpoint flag is recorded as complete returns success at once: FBL3N,
    SE16 KOTE, SE16 KONA (which first reads the KOTE agreement numbers from the
    accumulator), ZSD25 local and ZSD25 head quarter make no call to the export
    collaborator, write no checkpoint flag and leave the whole state as it
    was. FS10N, whose flags are per account, exports nothing and writes no flag
    when every account is flagged, but it starts and closes the FS10N
    transaction. A country whose checkpoint marks it reconciled is skipped by
    the run with the state, checkpoint store included, unchanged. *)
Theorem completed_export_stage_is_skipped (cntry : string) (r : rule) (w : world) :
  rules !! cntry = Some r ->
  (complete (rec w) cntry "fbl3n_data_exported" ->
     export_fbl3n_data sap rules cntry w = (Ok true, w))
  /\ (complete (rec w) cntry "se16_kote_data_exported" ->
     export_se16_kote_data sap rules cntry w = (Ok true, w))
  /\ (forall kote nums,
     Processor.get_from_accum obj_getitem cntry "kote_data" None (accum w)
       = Ok (Fetched (Some kote)) ->
     agreements_of kote = Ok nums ->
     complete (rec w) cntry "se16_kona_data_exported" ->
     export_se16_kona_data obj_getitem agreements_of sap rules cntry w = (Ok true, w))
  /\ (complete (rec w) cntry "zsd25_loc_data_exported" ->
     export_zsd25_local_data sap rules cntry w = (Ok true, w))
  /\ (forall no_kona,
     Recovery.get_state cntry "se16_no_kona_data" None (rec w) = Ok no_kona ->
     complete (rec w) cntry "zsd25_glob_data_exported" ->
     export_zsd25_global_data obj_getitem agreements_of sap rules cntry w = (Ok true, w))
  /\ (Forall (account_done (rec w) cntry "fs10n_data_exported") (str <$> accounts r) ->
     sap (sap_log w) (Start FS10N) = Ok tt ->
     sap (sap_log w ++ [Start FS10N]) (Close FS10N) = Ok tt ->
     export_fs10n_data sap rules cntry w =
       (Ok true, {| rec := rec w; accum := accum w;
                    sap_log := (sap_log w ++ [Start FS10N]) ++ [Close FS10N] |}))
  /\ (forall notif_send params fx_rate_date recon_date recon_time is_uplusone,
     complete (rec w) cntry "reconciled" ->
     run_country obj_getitem agreements_of sap portal date_fmt rules
       process_se16_kote_data process_se16_kona_data process_zsd25_global_data
       process_zsd25_local_data process_fs10n_data process_fbl3n_data
       reconcile_calculations generate_report
       notif_send cntry params fx_rate_date recon_date recon_time is_uplusone w
     = (Ok false, w)).
Proof.
  intros Hr. assert (Hs : is_Some (rules !! cntry)) by by eexists.
  split; [apply export_fbl3n_skip|].
  split; [by apply export_se16_kote_skip|].
  split; [intros; by eapply export_se16_kona_skip|].
  split; [by apply export_zsd25_local_skip|].
  split; [intros; by eapply export_zsd25_global_skip|].
  split; [|intros; by apply run_country_skip].
  intros Hacc Hstart Hclose.
  rewrite (export_fs10n_skip cntry r w Hr Hacc). simpl. by rewrite Hstart, Hclose.
Qed.

End Facts.

(** ** A closed run: Germany, one reconciled account *)

Definition germany : rule := {|
  accounts := [66010010];
  company_code := "1001";
  local_currency := "EUR";
  sales_organization_glob := "0001";
  sales_organization_loc := "0010";
  accountants := [("accountant@example.com", true)]
|}.

Definition rules_de : gmap string rule := <["Germany" := germany]> ∅.

(** An export collaborator that never fails. *)
Definition sap_ok (log : list sap_call) (c : sap_call) : result unit := Ok tt.

Definition no_agreements (o : list acc_key) : result (list Z) := Ok [].

(** The checkpoint store of Germany with every flag recorded as complete. *)
Definition all_done : rec_state :=
  let cs := (fun e => match e with
                      | Flag (FBool _) => Flag (FBool true)
                      | PerAccount m => PerAccount ((fun _ => FBool true) <$> m)
                      | e => e
                      end) <$> default_states [66010010] in
  {| _ent_states := Some (<["Germany" := cs]> ∅);
     rec_file := Some (<["Germany" := cs]> ∅) |}.

Definition resumed : @world (list acc_key) :=
  {| rec := all_done; accum := _accum; sap_log := [] |}.

(** C1, as stated, fails for the FS10N export stage: with the flag of the
    only account recorded as complete, running the stage again returns
    success and writes nothing, but it calls the export collaborator twice
    (the transaction is started and closed), so the state is not the one it
    started from. *)
Lemma fs10n_stage_calls_collaborator :
  account_done (rec resumed) "Germany" "fs10n_data_exported" "66010010"
  /\ export_fs10n_data sap_ok rules_de "Germany" resumed
     = (Ok true, {| rec := all_done; accum := _accum;
                    sap_log := [Start FS10N; Close FS10N] |})
  /\ export_fs10n_data sap_ok rules_de "Germany" resumed <> (Ok true, resumed).
Proof.
  split; [by left|].
  assert (E : export_fs10n_data sap_ok rules_de "Germany" resumed
              = (Ok true, {| rec := all_done; accum := _accum;
                             sap_log := [Start FS10N; Close FS10N] |}))
    by (vm_compute; reflexivity).
  split; [exact E|]. rewrite E. intros H.
  apply (f_equal (fun p => length (sap_log p.2))) in H. discriminate H.
Qed.

Lemma completed_export_stage_is_skipped_witness :
  export_fbl3n_data sap_ok rules_de "Germany" resumed = (Ok true, resumed)
  /\ export_se16_kote_data sap_ok rules_de "Germany" resumed = (Ok true, resumed)
  /\ export_zsd25_local_data sap_ok rules_de "Germany" resumed = (Ok true, resumed).
Proof.
  pose proof (completed_export_stage_is_skipped AccumulatorFacts.labels_getitem no_agreements sap_ok
    (fun _ _ => Raise ResponseError) pretty rules_de
    (fun _ w => (Ok tt, w)) (fun _ w => (Ok tt, w)) (fun _ w => (Ok tt, w))
    (fun _ w => (Ok tt, w)) (fun _ w => (Ok tt, w)) (fun _ w => (Ok true, w))
    (fun _ _ w => (Ok true, w)) (fun _ w => (Ok true, w))
    "Germany" germany resumed eq_refl) as (H1 & H2 & _ & H4 & _).
  split; [apply H1; vm_compute; reflexivity|].
  split; [apply H2; vm_compute; reflexivity|].
  apply H4. vm_compute. reflexivity.
Defined.

End ExportFacts.

(* ===================================================================== *)
(** * Properties of the exchange-rate ladder and of the notification *)
(* ===================================================================== *)

Module ReconcileFacts.
Import Py Recovery Processor Controller ExportFacts.

(** The walk back asks the portal for the days 1, 3 and 5 before the
    conversion date when the portal answers each of them with
    [ResponseError] (no rate published): the handler adds one to [past_days]
    a second time, so the days 2 and 4 are never requested. *)
Lemma fx_walk_back_response_errors (portal : Z -> Z -> result (option float)) (d : Z) :
  portal (d - 1) 15 = Raise ResponseError ->
  portal (d - 3) 15 = Raise ResponseError ->
  portal (d - 5) 15 = Raise ResponseError ->
  fx_walk_back portal (Z.to_nat MAX_PAST_DAYS) d 1 d = Ok (Walked None (d - 5)).
Proof.
  intros H1 H3 H5. unfold MAX_PAST_DAYS. simpl.
  replace (d - 3) with (d - (1 + 1 + 1)) in H3 by lia.
  replace (d - 5) with (d - (1 + 1 + 1 + 1 + 1)) in H5 by lia.
  rewrite H1. simpl. rewrite H3. simpl. rewrite H5. simpl.
  by replace (d - (1 + 1 + 1 + 1 + 1)) with (d - 5) by lia.
Qed.

(** The world of a fresh run for Germany: default checkpoints, written to the
    file, an empty accumulator and no call made yet. *)
Definition fresh : @world (list acc_key) :=
  {| rec := (initialize ["Germany"] rules_de
               {| _ent_states := None; rec_file := None |}).2;
     accum := _accum;
     sap_log := [] |}.

(** A later run of the same process setup: the checkpoint file the earlier
    run left behind is loaded by [initialize]. *)
Definition resume (earlier : @world (list acc_key)) : @world (list acc_key) :=
  {| rec := (initialize ["Germany"] rules_de
               {| _ent_states := None; rec_file := rec_file (rec earlier) |}).2;
     accum := _accum;
     sap_log := [] |}.

Definition fx_day : Z := 19662.

(** A portal on which the only published rate is the one of the second day
    before the conversion date. *)
Definition portal_two_days_ago (valid_on resp_timeout : Z) : result (option float) :=
  if valid_on =? fx_day - 2 then Ok (Some 1.05%float) else Raise ResponseError.

(** A portal with no rate published at all. *)
Definition portal_nothing (valid_on resp_timeout : Z) : result (option float) :=
  Raise ResponseError.

(** A portal with no rate for the conversion date and the rate of the day
    before. *)
Definition portal_day_before (valid_on resp_timeout : Z) : result (option float) :=
  if valid_on =? fx_day - 1 then Ok (Some 1.05%float) else Raise ResponseError.

Definition recorded (w : @world (list acc_key)) (key : string) : result entry :=
  Recovery.get_state "Germany" key None (rec w).

(** C4 at its failing input. The day is not the day after period end, the
    portal has no rate for the conversion date, and the most recent published
    rate, two days back, lies within the five-day window. The ladder asks for
    the days 1, 3 and 5 before the date only: it records a user error and
    [reconcile] returns failure, where the claim has it use the rate of two
    days back and record the warning. *)
Theorem walk_back_misses_published_rate :
  portal_two_days_ago (fx_day - 2) 15 = Ok (Some 1.05%float)
  /\ (reconcile_fx portal_two_days_ago pretty "Germany" None fx_day fx_day
        "09:00:00 AM" false fresh).1 = Ok FxFailed
  /\ recorded (reconcile_fx portal_two_days_ago pretty "Germany" None fx_day fx_day
                 "09:00:00 AM" false fresh).2 "user_error"
     = Ok (Flag (FStr (no_rate_msg (pretty fx_day) "09:00:00 AM")))
  /\ recorded (reconcile_fx portal_two_days_ago pretty "Germany" None fx_day fx_day
                 "09:00:00 AM" false fresh).2 "user_warning"
     = Ok (Flag (FStr "")).
Proof. vm_conj. Qed.

(** ** Warning and error across a resumed run *)

(** The first run finds no rate at all and records the user error. *)
Definition first_run : result fx_outcome * @world (list acc_key) :=
  reconcile_fx portal_nothing pretty "Germany" None fx_day fx_day "09:00:00 AM" false fresh.

(** The resumed run finds the rate of the day before and records the user
    warning. *)
Definition second_run : result fx_outcome * @world (list acc_key) :=
  reconcile_fx portal_day_before pretty "Germany" None fx_day fx_day "11:00:00 AM" false
    (resume first_run.2).

(** C9 at its failing input. A run that found no rate within the window
    recorded the user error and left the country unreconciled; the run resumed
    from its checkpoint file finds the rate of the day before and records the
    user warning next to the error, which nothing has cleared. When the
    notification is then to be produced both messages are non-empty, and the
    assertion of [send_notification] fails instead of a mail being produced. *)
Theorem warning_and_error_both_recorded :
  first_run.1 = Ok FxFailed
  /\ second_run.1 = Ok (FxRate 1.05%float)
  /\ (not_empty <$> recorded second_run.2 "user_warning") = Ok true
  /\ (not_empty <$> recorded second_run.2 "user_error") = Ok true
  /\ send_notification rules_de true "Germany" None second_run.2
     = (Raise AssertionError, second_run.2).
Proof. vm_conj. Qed.

End ReconcileFacts.

(* ===================================================================== *)
(** * Properties of the calculation engine *)
(* ===================================================================== *)

Module CalculationFacts.
Import Py Processor.

(** A summation for the closed examples: the values added from left to
    right, starting from 0. *)
Definition left_sum (l : list float) : float := foldl PrimFloat.add 0%float l.

(** An extract row of the examples, with its agreement, currency and accrual. *)
Definition agreement_row (agreement : Z) (currency : string) (accrual : float) : Zsd25.row :=
  {| Zsd25.Rebate_Recipient := "10001"; Zsd25.Name := None; Zsd25.Country := "DE";
     Zsd25.Agreement_Type_Code := "Z001"; Zsd25.Agreement := agreement;
     Zsd25.Status := "A"; Zsd25.Description_Of_Agreement := "";
     Zsd25.Condition_Value := 0%float; Zsd25.Payments := 0%float;
     Zsd25.Open_Accruals := accrual; Zsd25.Currency := currency;
     Zsd25.Arrangement_Calendar := ""; Zsd25.Valid_From := None; Zsd25.Valid_To := None |}.

(** A text-summary line of the examples. *)
Definition summary_line (agreement : option Z) (amount : float) : TextSumm.row :=
  {| TextSumm.Text := "ZB01;B1;10001;"; TextSumm.Agreement := agreement;
     TextSumm.Category := Some "B1"; TextSumm.Condition := Some "ZB01";
     TextSumm.Customer := Some 10001; TextSumm.Note := None;
     TextSumm.LC_Amount_Sum := amount |}.

(** ** Currency correction *)

Section Correction.

Variable series_sum : list float -> float.

(** The loop over the accounts works on every row by itself. *)
Definition add_accounts (txt_summs : list (string * list TextSumm.row)) (r : LeCalc.row)
    : LeCalc.row :=
  foldl (fun r '(acc, txt_summ) => add_account series_sum acc txt_summ r) r txt_summs.

Lemma foldl_add_account (txt_summs : list (string * list TextSumm.row))
    (subset : list LeCalc.row) :
  foldl (fun subset '(acc, txt_summ) => add_account series_sum acc txt_summ <$> subset)
    subset txt_summs
  = add_accounts txt_summs <$> subset.
Proof.
  revert subset. induction txt_summs as [|[acc t] rest IH]; intros subset.
  - simpl. by rewrite list_fmap_id.
  - cbn [foldl]. rewrite IH, <- list_fmap_compose. done.
Qed.

Lemma add_accounts_keeps (txt_summs : list (string * list TextSumm.row)) (r : LeCalc.row) :
  LeCalc.base (add_accounts txt_summs r) = LeCalc.base r
  /\ LeCalc.Corr_to_LC (add_accounts txt_summs r) = LeCalc.Corr_to_LC r
  /\ LeCalc.LC_Open_Accr (add_accounts txt_summs r) = LeCalc.LC_Open_Accr r.
Proof.
  revert r. induction txt_summs as [|[acc t] rest IH]; intros r; [done|].
  change (add_accounts ((acc, t) :: rest) r)
    with (add_accounts rest (add_account series_sum acc t r)).
  destruct (IH (add_account series_sum acc t r)) as (-> & -> & ->). done.
Qed.

Lemma calculate_le_rows (txt_summs : list (string * list TextSumm.row))
    (le_data : list Zsd25.row) (loc_curr : string) (ex_rate : float) :
  LeCalc.rows (calculate_le_bonus_data series_sum txt_summs le_data loc_curr ex_rate)
  = (fun r => close_difference (add_accounts txt_summs (correct_currency loc_curr ex_rate r)))
    <$> drop_duplicates [] le_data.
Proof.
  unfold calculate_le_bonus_data. simpl.
  rewrite foldl_add_account, <- !list_fmap_compose. done.
Qed.

(** What the claim says of one row of the result. *)
Definition corrected (loc_curr : string) (ex_rate : float) (r : LeCalc.row) : Prop :=
  let accrual := Zsd25.Open_Accruals (LeCalc.base r) in
  (fne ex_rate 1%float = true -> Zsd25.Currency (LeCalc.base r) <> loc_curr ->
     LeCalc.Corr_to_LC r = (accrual * ex_rate - accrual)%float)
  /\ (fne ex_rate 1%float = false -> LeCalc.Corr_to_LC r = 0%float)
  /\ (Zsd25.Currency (LeCalc.base r) = loc_curr -> LeCalc.Corr_to_LC r = 0%float)
  /\ LeCalc.LC_Open_Accr r = (accrual + LeCalc.Corr_to_LC r)%float.

Lemma correct_currency_corrected (txt_summs : list (string * list TextSumm.row))
    (loc_curr : string) (ex_rate : float) (r : Zsd25.row) :
  corrected loc_curr ex_rate
    (close_difference (add_accounts txt_summs (correct_currency loc_curr ex_rate r))).
Proof.
  unfold corrected. cbn [close_difference LeCalc.base LeCalc.Corr_to_LC LeCalc.LC_Open_Accr].
  destruct (add_accounts_keeps txt_summs (correct_currency loc_curr ex_rate r))
    as (-> & -> & ->).
  cbn [correct_currency LeCalc.base LeCalc.Corr_to_LC LeCalc.LC_Open_Accr].
  repeat split.
  - intros -> Hc. apply String.eqb_neq in Hc. by rewrite Hc.
  - by intros ->.
  - intros ->. by rewrite String.eqb_refl, andb_false_r.
Qed.

(** C3. The rows of the local-entity bonus calculation are the agreements of
    the extract (the first row of each). On every row: when the exchange rate
    differs from 1.0 and the row's currency differs from the local currency,
    the correction is accrual * rate - accrual; when the rate is 1.0 the
    correction is 0.0 whatever the currency; the local-currency accrual is
    accrual + correction. With accrual 1000.00, rate 1.05 and differing
    currencies the correction is 50.00 and the corrected accrual 1050.00; with
    rate 1.0 the correction is 0.00. *)
Theorem currency_correction (txt_summs : list (string * list TextSumm.row))
    (le_data : list Zsd25.row) (loc_curr : string) (ex_rate : float) :
  let result := calculate_le_bonus_data series_sum txt_summs le_data loc_curr ex_rate in
  LeCalc.base <$> LeCalc.rows result = drop_duplicates [] le_data
  /\ Forall (corrected loc_curr ex_rate) (LeCalc.rows result)
  /\ (let r := close_difference (add_accounts txt_summs
                 (correct_currency "EUR" 1.05%float (agreement_row 40001 "GBP" 1000%float))) in
      LeCalc.Corr_to_LC r = 50%float /\ LeCalc.LC_Open_Accr r = 1050%float)
  /\ (let r := close_difference (add_accounts txt_summs
                 (correct_currency "EUR" 1%float (agreement_row 40001 "GBP" 1000%float))) in
      LeCalc.Corr_to_LC r = 0%float /\ LeCalc.LC_Open_Accr r = 1000%float).
Proof.
  intros result. subst result. rewrite calculate_le_rows.
  split; [|split; [|split]].
  - rewrite <- list_fmap_compose. rewrite <- (list_fmap_id (drop_duplicates [] le_data)) at 2.
    apply list_fmap_ext. intros i r _. simpl.
    by destruct (add_accounts_keeps txt_summs (correct_currency loc_curr ex_rate r)) as (-> & _).
  - apply Forall_fmap, Forall_forall. intros r _. apply correct_currency_corrected.
  - cbn [close_difference LeCalc.Corr_to_LC LeCalc.LC_Open_Accr].
    destruct (add_accounts_keeps txt_summs
      (correct_currency "EUR" 1.05%float (agreement_row 40001 "GBP" 1000%float))) as (_ & -> & ->).
    by vm_compute.
  - cbn [close_difference LeCalc.Corr_to_LC LeCalc.LC_Open_Accr].
    destruct (add_accounts_keeps txt_summs
      (correct_currency "EUR" 1%float (agreement_row 40001 "GBP" 1000%float))) as (_ & -> & ->).
    by vm_compute.
Qed.

End Correction.

(** The worked example as a whole run of the calculation: one agreement in
    GBP with accrual 1000.00, local currency EUR, no GL postings. *)
Lemma currency_correction_example :
  LeCalc.rows (calculate_le_bonus_data left_sum [("66010010", [])]
                 [agreement_row 40001 "GBP" 1000%float] "EUR" 1.05%float)
  = [ {| LeCalc.base := agreement_row 40001 "GBP" 1000%float;
         LeCalc.Corr_to_LC := 50%float;
         LeCalc.LC_Open_Accr := 1050%float;
         LeCalc.Difference := (-1050)%float;
         LeCalc.by_account := [("66010010", 0%float)] |} ].
Proof. by vm_compute. Qed.

(** ** Agreement-state validation *)

Lemma unique_elem (seen l : list Z) (x : Z) :
  x ∈ unique seen l <-> x ∈ l /\ x ∉ seen.
Proof.
  revert seen. induction l as [|y l IH]; intros seen; simpl.
  - split; [by intros ?%elem_of_nil | by intros [?%elem_of_nil _]].
  - case_bool_decide as Hy.
    + rewrite IH, elem_of_cons. split.
      * intros [? ?]. split; [by right | done].
      * intros [[->|?] ?]; [done | by split].
    + rewrite !elem_of_cons, IH, elem_of_cons. split.
      * intros [->|[? Hn]]; [by split; [left|] |].
        split; [by right|]. intros ?. apply Hn. by right.
      * intros [[->|?] Hn]; [by left|].
        destruct (decide (x = y)) as [->|Hxy]; [by left | right].
        split; [done|]. by intros [?|?].
Qed.

Lemma open_agreements_elem (le_bon : list Zsd25.row) (hq_bon : option (list Zsd25.row))
    (a : Z) :
  a ∈ open_agreements le_bon hq_bon
  <-> a ∈ Zsd25.Agreement <$> le_bon
      \/ exists hq, hq_bon = Some hq /\ a ∈ Zsd25.Agreement <$> hq.
Proof.
  unfold open_agreements. rewrite elem_of_app, !unique_elem.
  destruct hq_bon as [hq|].
  - rewrite unique_elem. split.
    + intros [[? _]|[? _]]; [by left | right; by exists hq].
    + intros [?|(hq' & [= <-] & ?)]; [left | right]; (split; [done | by intros ?%elem_of_nil]).
  - split.
    + intros [[? _]|?%elem_of_nil]; [by left | done].
    + intros [?|(hq' & [=] & _)]. left. split; [done | by intros ?%elem_of_nil].
Qed.

Lemma insert_by_status_perm (r : Checked.row) (l : list Checked.row) :
  insert_by_status r l ≡ₚ r :: l.
Proof.
  induction l as [|y l IH]; [done|]. simpl.
  destruct (String.ltb _ _); [|done]. rewrite IH. apply Permutation_swap.
Qed.

Lemma sort_by_status_perm (l : list Checked.row) : sort_by_status l ≡ₚ l.
Proof.
  induction l as [|r l IH]; [done|].
  unfold sort_by_status in *. simpl. by rewrite insert_by_status_perm, IH.
Qed.

Lemma flag_lines_spec (open : list Z) (txt_summ : list TextSumm.row) :
  Checked.line <$> flag_lines open txt_summ = txt_summ
  /\ Forall (fun r => Checked.Status r = line_status open (Checked.line r))
       (flag_lines open txt_summ).
Proof.
  unfold flag_lines. split.
  - rewrite fmap_imap. unfold compose. simpl.
    generalize 0%nat. intros n. revert n.
    induction txt_summ as [|l ls IH]; intros n; [done|].
    cbn [imap]. f_equal. unfold compose. apply (IH (S n)) || apply IH.
  - apply Forall_forall. intros r Hr.
    apply elem_of_lookup_imap in Hr as (i & l & -> & _). done.
Qed.

(** The flag a line gets, in the words of the claim. *)
Definition flag_rule (open : list Z) (l : TextSumm.row) (status : string) : Prop :=
  let nonzero := fne (TextSumm.LC_Amount_Sum l) 0%float in
  (nonzero = true -> incomplete l = true -> status = "x")
  /\ (forall a, nonzero = true -> incomplete l = false ->
       TextSumm.Agreement l = Some a -> a ∉ open -> status = "CHECK")
  /\ (forall a, nonzero = true -> incomplete l = false ->
       TextSumm.Agreement l = Some a -> a ∈ open -> status = "")
  /\ (nonzero = false -> status = "")
  /\ (status = "" \/ status = "x" \/ status = "CHECK").

Lemma line_status_rule (open : list Z) (l : TextSumm.row) :
  flag_rule open l (line_status open l).
Proof.
  unfold flag_rule, line_status, not_open, INVALD_TEXT_FMT, AGREEMENT_CLOSED.
  destruct (fne (TextSumm.LC_Amount_Sum l) 0) eqn:Hnz, (incomplete l) eqn:Hinc; simpl;
    rewrite ?andb_false_r, ?andb_true_r.
  - repeat split; try done; auto.
  - repeat split; try done.
    + intros a _ _ -> Ha. by rewrite bool_decide_eq_false_2.
    + intros a _ _ -> Ha. by rewrite bool_decide_eq_true_2.
    + destruct (TextSumm.Agreement l) as [a|]; [case_bool_decide|]; simpl; auto.
  - repeat split; try done; auto.
  - repeat split; try done; auto.
Qed.

(** C5. For every reconciled account the checked lines are the lines of the
    text summary (sorted by flag), each with the flag of the rule: 'x' for a
    non-zero line with a missing Condition, Category, Customer or Agreement;
    'CHECK' for a non-zero line with all four fields whose Agreement is not
    an open agreement of the local-entity extract nor, when there is one, of
    the head-quarter extract; no flag for a line with amount 0 and for a
    non-zero line of an open agreement. A line has one flag at most, and 'x'
    goes first. Amount 250.00 without Agreement gives 'x'; amount 250.00 with
    Agreement 99999999 that is not open gives 'CHECK'; amount 0 without
    Agreement gives no flag. *)
Theorem agreement_state_flags (txt_summs : list (string * list TextSumm.row))
    (le_bon : list Zsd25.row) (hq_bon : option (list Zsd25.row)) :
  let open := open_agreements le_bon hq_bon in
  let checked := check_agreement_states txt_summs le_bon hq_bon in
  checked.*1 = txt_summs.*1
  /\ Forall2 (fun input output =>
        Checked.line <$> output.2 ≡ₚ input.2
        /\ Forall (fun r => flag_rule open (Checked.line r) (Checked.Status r)) output.2)
      txt_summs checked
  /\ (forall a, a ∈ open
        <-> a ∈ Zsd25.Agreement <$> le_bon
            \/ exists hq, hq_bon = Some hq /\ a ∈ Zsd25.Agreement <$> hq)
  /\ line_status (open_agreements [agreement_row 40001 "EUR" 0%float] None)
        (summary_line None 250%float) = "x"
  /\ line_status (open_agreements [agreement_row 40001 "EUR" 0%float] None)
        (summary_line (Some 99999999) 250%float) = "CHECK"
  /\ line_status (open_agreements [agreement_row 40001 "EUR" 0%float] None)
        (summary_line None 0%float) = "".
Proof.
  intros open checked. subst checked. unfold check_agreement_states. fold open.
  split; [|split; [|split; [apply open_agreements_elem | by vm_compute]]].
  - rewrite <- list_fmap_compose. apply list_fmap_ext. by intros i [acc rows] _.
  - apply Forall2_fmap_r, Forall_Forall2_diag, Forall_forall.
    intros [acc rows] _. simpl.
    destruct (flag_lines_spec open rows) as [Hl Hs]. split.
    + by rewrite sort_by_status_perm, Hl.
    + rewrite sort_by_status_perm. eapply Forall_impl; [exact Hs|].
      intros r ->. apply line_status_rule.
Qed.

(** ** Reconciliation summary *)

(** One-row inputs of the summary examples, for the account 66010010. *)
Definition le_one (amount : float) : LeCalc.frame :=
  {| LeCalc.account_columns := ["66010010"];
     LeCalc.rows :=
       [ {| LeCalc.base := agreement_row 40001 "EUR" 0%float;
            LeCalc.Corr_to_LC := 0%float; LeCalc.LC_Open_Accr := 0%float;
            LeCalc.Difference := 0%float;
            LeCalc.by_account := [("66010010", amount)] |} ] |}.

Definition hq_one (amount : float) : HqCalc.frame :=
  {| HqCalc.account_columns := ["66010010"];
     HqCalc.rows :=
       [ {| HqCalc.Agreement := 50001; HqCalc.Difference := Some 0%float;
            HqCalc.by_account := [("66010010", Some amount)] |} ] |}.

Definition gl_one (balance : float) : gmap string (option (list Fs10n.row)) :=
  <["66010010" := Some [ {| Fs10n.Debit := None; Fs10n.Credit := None;
                            Fs10n.Balance := None;
                            Fs10n.Cummulative_Balance := Some balance |} ]]> ∅.

(** The account column of the summary for the given local-entity total,
    head-quarter total and GL cumulative balance. *)
Definition example_summary (le hq gl : float) : result (list (string * Summary.column)) :=
  Summary.accounts <$>
    summarize left_sum [("66010010", [])] (le_one le) (Some (hq_one hq)) (gl_one gl)
      [66010010] 1.

Definition example_column (le hq total gl diff : float) : Summary.column :=
  {| Summary.Local_Entity_Bonuses := Some le;
     Summary.HQ_Bonuses := Some hq;
     Summary.Sum := Some total;
     Summary.GL_Balance := Some gl;
     Summary.Difference := Some diff;
     Summary.Status_x := Some 0%float;
     Summary.Status_CHECK := Some 0%float |}.

Section Summarize.

Variable series_sum : list float -> float.

(** The totals the summary is computed from. *)
Definition le_total (le_calcs : LeCalc.frame) (acc : string) : result float :=
  col ← le_column le_calcs acc; Ok (series_sum (dropna col)).

Definition hq_total (hq_calcs : option HqCalc.frame) (acc : string) : result float :=
  match hq_calcs with
  | Some hq_calcs => col ← hq_column hq_calcs acc; Ok (nullable_sum series_sum col)
  | None => Ok 0%float
  end.

Definition gl_balance (fs10n : option (list Fs10n.row)) (period : Z) : result float :=
  match fs10n with
  | None => Ok 0%float
  | Some periods => cumulative_balance periods period
  end.

Definition flagged_total (txt_summs : list (string * list Checked.row)) (acc mark : string)
    : result float :=
  lines ← getitem (list_to_map (M := gmap string (list Checked.row)) txt_summs) acc;
  Ok (flagged_sum series_sum lines mark).

(** The column of an account with GL data, in terms of the totals: every
    row is rounded after the table has been filled. *)
Definition rounded_column (le hq gl x check : float) : Summary.column :=
  {| Summary.Local_Entity_Bonuses := Some (round2 le);
     Summary.HQ_Bonuses := Some (round2 hq);
     Summary.Sum := Some (round2 (le + hq));
     Summary.GL_Balance := Some (round2 gl);
     Summary.Difference := Some (round2 (gl - (le + hq)));
     Summary.Status_x := Some (round2 x);
     Summary.Status_CHECK := Some (round2 check) |}.

Lemma account_column_present (txt_summs : list (string * list Checked.row))
    (le_calcs : LeCalc.frame) (hq_calcs : option HqCalc.frame)
    (gl_data : gmap string (option (list Fs10n.row))) (period : Z) (acc : string)
    (fs10n : option (list Fs10n.row)) (c : Summary.column) :
  gl_data !! acc = Some fs10n ->
  account_column series_sum txt_summs le_calcs hq_calcs gl_data period acc = Ok c ->
  exists le hq gl x check,
    le_total le_calcs acc = Ok le /\ hq_total hq_calcs acc = Ok hq
    /\ gl_balance fs10n period = Ok gl
    /\ flagged_total txt_summs acc INVALD_TEXT_FMT = Ok x
    /\ flagged_total txt_summs acc AGREEMENT_CLOSED = Ok check
    /\ round_column c = rounded_column le hq gl x check.
Proof.
  intros Hgl. unfold account_column, le_total, hq_total, gl_balance, flagged_total.
  rewrite Hgl.
  destruct (match fs10n with None => _ | Some periods => _ end) as [gl|]; [|done].
  cbn [mbind result_bind bind].
  destruct (le_column le_calcs acc) as [col|]; [|done]. cbn [mbind result_bind bind].
  destruct (match hq_calcs with Some h => _ | None => _ end) as [hq|]; [|done].
  cbn [mbind result_bind bind].
  destruct (getitem _ acc) as [lines|]; [|done]. cbn [mbind result_bind bind].
  intros [= <-]. by eexists _, _, _, _, _.
Qed.

Lemma account_column_returns (txt_summs : list (string * list Checked.row))
    (le_calcs : LeCalc.frame) (hq_calcs : option HqCalc.frame)
    (gl_data : gmap string (option (list Fs10n.row))) (period : Z) (acc : string) :
  (forall fs10n, gl_data !! acc = Some fs10n ->
     is_ok (le_total le_calcs acc) /\ is_ok (hq_total hq_calcs acc)
     /\ is_ok (gl_balance fs10n period)
     /\ is_ok (flagged_total txt_summs acc INVALD_TEXT_FMT)) ->
  is_ok (account_column series_sum txt_summs le_calcs hq_calcs gl_data period acc).
Proof.
  unfold account_column, le_total, hq_total, gl_balance, flagged_total. intros H.
  destruct (gl_data !! acc) as [fs10n|]; [|done].
  destruct (H fs10n eq_refl) as (H1 & H2 & H3 & H4). clear H.
  destruct (match fs10n with None => _ | Some periods => _ end) as [gl|]; [|done].
  cbn [mbind result_bind bind].
  destruct (le_column le_calcs acc) as [col|]; [|done]. cbn [mbind result_bind bind].
  destruct (match hq_calcs with Some h => _ | None => _ end) as [hq|]; [|done].
  cbn [mbind result_bind bind].
  by destruct (getitem _ acc) as [lines|].
Qed.

Lemma account_columns_spec (txt_summs : list (string * list Checked.row))
    (le_calcs : LeCalc.frame) (hq_calcs : option HqCalc.frame)
    (gl_data : gmap string (option (list Fs10n.row))) (period : Z)
    (gl_accs : list string) (columns : list (string * Summary.column)) :
  account_columns series_sum txt_summs le_calcs hq_calcs gl_data period gl_accs = Ok columns ->
  columns.*1 = gl_accs
  /\ Forall (fun '(acc, c) =>
        account_column series_sum txt_summs le_calcs hq_calcs gl_data period acc = Ok c)
      columns.
Proof.
  revert columns. induction gl_accs as [|acc rest IH]; intros columns H.
  - by injection H as <-.
  - cbn [account_columns] in H.
    destruct (account_column _ _ _ _ _ _ acc) as [c|] eqn:Hc; [|done].
    cbn [mbind result_bind bind] in H.
    destruct (account_columns _ _ _ _ _ _ rest) as [cs|]; [|done].
    injection H as <-. destruct (IH cs eq_refl) as [Hn Hf].
    split; [simpl; by f_equal | by constructor].
Qed.

Lemma account_columns_return (txt_summs : list (string * list Checked.row))
    (le_calcs : LeCalc.frame) (hq_calcs : option HqCalc.frame)
    (gl_data : gmap string (option (list Fs10n.row))) (period : Z) (gl_accs : list string) :
  Forall (fun acc =>
    is_ok (account_column series_sum txt_summs le_calcs hq_calcs gl_data period acc)) gl_accs ->
  is_ok (account_columns series_sum txt_summs le_calcs hq_calcs gl_data period gl_accs).
Proof.
  induction 1 as [|acc rest Hacc _ IH]; [done|]. cbn [account_columns].
  destruct (account_column _ _ _ _ _ _ acc); [|done]. cbn [mbind result_bind bind].
  by destruct (account_columns _ _ _ _ _ _ rest).
Qed.


End Summarize.



End CalculationFacts.

(* ===================================================================== *)
(** * Properties of the FBL3N conversion *)
(* ===================================================================== *)

Module ConversionFacts.

Import Processor.

(** ** Lists of optional results *)

Lemma mapM_mjoin {A B : Type} (f : A -> option B) (ls : list (list A)) (ks : list (list B)) :
  Forall2 (fun l k => mapM f l = Some k) ls ks ->
  mapM f (mjoin ls) = Some (mjoin ks).
Proof.
  intros Hall. apply mapM_Some. apply Forall2_join.
  induction Hall as [|l k ls ks Hlk _ IH]; constructor; [|done].
  by apply mapM_Some.
Qed.

Lemma mapM_bind_inv {A B C : Type} (F : A -> option B) (G : B -> option C) l k :
  mapM (fun x => F x ≫= G) l = Some k ->
  exists m, mapM F l = Some m /\ mapM G m = Some k.
Proof.
  rewrite mapM_Some. induction 1 as [|x z l k Hxz _ (m & Hm1 & Hm2)].
  - by exists [].
  - destruct (F x) as [y|] eqn:HF; [|done]. simpl in Hxz.
    exists (y :: m). split.
    + apply mapM_Some. constructor; [done|]. by apply mapM_Some.
    + apply mapM_Some. constructor; [done|]. by apply mapM_Some.
Qed.

Lemma forallb_elem_of {A : Type} (p : A -> bool) l :
  (forall x, x ∈ l -> p x = true) -> forallb p l = true.
Proof.
  induction l as [|a l IH]; simpl; intros Hall; [done|].
  rewrite Hall by apply list_elem_of_here.
  apply IH. intros x Hx. apply Hall. by apply list_elem_of_further.
Qed.

Lemma forallb_elem_of_1 {A : Type} (p : A -> bool) l x :
  forallb p l = true -> x ∈ l -> p x = true.
Proof.
  induction l as [|a l IH]; simpl; intros Hall Hx.
  - by apply elem_of_nil in Hx.
  - apply andb_true_iff in Hall as [Ha Hl].
    apply elem_of_cons in Hx as [->|Hx]; [done|by apply IH].
Qed.

Lemma mjoin_cons {A : Type} (l : list A) (ls : list (list A)) :
  mjoin (l :: ls) = (l ++ mjoin ls)%list.
Proof. done. Qed.

Lemma frame_eta (d : DataFrame) : {| body := body d; dtypes := dtypes d |} = d.
Proof. by destruct d. Qed.

(** ** Statements that select no row *)

Lemma loc_set_none_selected mask name f d :
  (forall x, x ∈ body d -> mask x.2 = false) ->
  loc_set mask name f d = Some d.
Proof.
  intros Hno. unfold loc_set.
  rewrite forallb_elem_of.
  - f_equal. destruct d as [rows types]. simpl in *. f_equal.
    rewrite <- (list_fmap_id rows) at 2.
    apply list_fmap_ext. intros i x Hx.
    rewrite Hno by (by eapply list_elem_of_lookup_2). by destruct x.
  - intros x Hx. by rewrite Hno.
Qed.

Lemma existsb_false_all {A : Type} (p : A -> bool) l :
  existsb p l = false -> forall x, x ∈ l -> p x = false.
Proof.
  induction l as [|a l IH]; simpl; intros Hex x Hx.
  - by apply elem_of_nil in Hx.
  - apply orb_false_iff in Hex as [Ha Hl].
    apply elem_of_cons in Hx as [->|Hx]; [done|by apply IH].
Qed.

Lemma if_any_guarded mask F d :
  ((forall x, x ∈ body d -> mask x.2 = false) -> F d = Some d) ->
  if_any mask F d = F d.
Proof.
  intros HF. unfold if_any.
  destruct (existsb _ _) eqn:Hex; [done|].
  symmetry. apply HF. intros x Hx.
  by apply (existsb_false_all (fun x => mask x.2) (body d)).
Qed.

Lemma if_any_loc_set mask name f d :
  if_any mask (loc_set mask name f) d = loc_set mask name f d.
Proof. apply if_any_guarded. apply loc_set_none_selected. Qed.

Lemma if_any_nonempty F d :
  (body d = [] -> F d = Some d) ->
  if_any (fun _ => true) F d = F d.
Proof.
  intros HF. apply if_any_guarded. intros Hno.
  apply HF. destruct (body d) as [|x l]; [done|].
  by specialize (Hno x (list_elem_of_here _ _)).
Qed.

(** ** A frame and its chunks

    The chunks of a frame go through the same statements as the frame. The
    rows of the frame stay the rows of the chunks, in order; the dtypes stay
    those of the chunks, except that the categories of a chunk are only some
    of the categories of the frame, for the columns made categorical on the
    way. *)

Definition free : list string := ["Condition"; "Category"].

Definition covers (tw tc : gmap string dtype) : Prop :=
  forall col,
    tw !! col = tc !! col
    \/ (col ∈ free
        /\ exists cw cc, tw !! col = Some (Category cw)
                      /\ tc !! col = Some (Category cc) /\ cc ⊆ cw).

Definition joins (W : DataFrame) (Cs : list DataFrame) : Prop :=
  body W = mjoin (body <$> Cs) /\ Forall (fun C => covers (dtypes W) (dtypes C)) Cs.

(** A statement that succeeds on every chunk succeeds on the frame, and the
    results are again a frame and its chunks. *)
Definition chunkwise (F : DataFrame -> option DataFrame) : Prop :=
  forall W Cs Cs', joins W Cs -> mapM F Cs = Some Cs' ->
    exists W', F W = Some W' /\ joins W' Cs'.

Lemma covers_refl t : covers t t.
Proof. intros col. by left. Qed.

Lemma covers_insert tw tc name dt :
  covers tw tc -> covers (<[name := dt]> tw) (<[name := dt]> tc).
Proof.
  intros Hc col. destruct (decide (col = name)) as [->|Hne].
  - left. by rewrite !lookup_insert_eq.
  - rewrite !lookup_insert_ne by done. apply Hc.
Qed.

Lemma covers_delete tw tc name :
  covers tw tc -> covers (delete name tw) (delete name tc).
Proof.
  intros Hc col. destruct (decide (col = name)) as [->|Hne].
  - left. by rewrite !lookup_delete_eq.
  - rewrite !lookup_delete_ne by done. apply Hc.
Qed.

Lemma covers_fits tw tc name v :
  covers tw tc -> fits (tc !! name) v = true -> fits (tw !! name) v = true.
Proof.
  intros Hc Hfit. destruct (Hc name) as [->|(_ & cw & cc & -> & Hcc & Hsub)]; [done|].
  rewrite Hcc in Hfit. simpl in *.
  apply orb_true_iff in Hfit as [Hnull|Hin]; [by rewrite Hnull|].
  apply orb_true_iff. right.
  destruct (label_of v) as [l|]; [|done].
  apply bool_decide_eq_true in Hin. apply bool_decide_eq_true. by apply Hsub.
Qed.

Lemma chunkwise_bind F G :
  chunkwise F -> chunkwise G -> chunkwise (fun d => F d ≫= G).
Proof.
  intros HF HG W Cs Cs' Hj Hrun.
  apply mapM_bind_inv in Hrun as (Cs1 & H1 & H2).
  destruct (HF W Cs Cs1 Hj H1) as (W1 & HW1 & Hj1).
  destruct (HG W1 Cs1 Cs' Hj1 H2) as (W' & HW' & Hj').
  exists W'. split; [|done]. by rewrite HW1.
Qed.

Lemma chunkwise_ext F G :
  (forall d, F d = G d) -> chunkwise G -> chunkwise F.
Proof.
  intros Heq HG W Cs Cs' Hj Hrun. rewrite Heq.
  apply (HG W Cs Cs' Hj). rewrite <- Hrun. by apply mapM_ext.
Qed.

(** A statement that works row by row and changes the dtypes. *)
Definition per_row (g : Z * row -> option (Z * row))
    (T : gmap string dtype -> gmap string dtype) (d : DataFrame) : option DataFrame :=
  rows ← mapM g (body d); Some {| body := rows; dtypes := T (dtypes d) |}.

Lemma chunkwise_per_row g T :
  (forall tw tc, covers tw tc -> covers (T tw) (T tc)) ->
  chunkwise (per_row g T).
Proof.
  intros HT W Cs Cs' [Hbody Hcov] Hrun.
  apply mapM_Some in Hrun.
  assert (Forall2 (fun l k => mapM g l = Some k) (body <$> Cs) (body <$> Cs')) as Hrows.
  { apply Forall2_fmap. eapply Forall2_impl; [exact Hrun|].
    intros C C' HC. unfold per_row in HC.
    destruct (mapM g (body C)) as [rows|]; [|done]. by simplify_eq/=. }
  exists {| body := mjoin (body <$> Cs'); dtypes := T (dtypes W) |}. split.
  - unfold per_row. rewrite Hbody. by rewrite (mapM_mjoin g _ _ Hrows).
  - split; [done|]. simpl.
    clear Hrows Hbody. induction Hrun as [|C C' Cs Cs' HC _ IH]; [done|].
    apply Forall_cons in Hcov as [HcC Hcov].
    constructor; [|by apply IH].
    unfold per_row in HC. destruct (mapM g (body C)) as [rows|]; [|done].
    simplify_eq/=. by apply HT.
Qed.

Lemma chunkwise_assign name dt f : chunkwise (assign name dt f).
Proof.
  apply (chunkwise_ext _ (per_row (fun x => v ← f x.2; Some (x.1, upd name v x.2))
                                  (fun t => <[name := dt]> t))); [done|].
  apply chunkwise_per_row. intros tw tc. apply covers_insert.
Qed.

Lemma chunkwise_reassign name f : chunkwise (reassign name f).
Proof.
  apply (chunkwise_ext _ (per_row (fun x => v ← f x.2; Some (x.1, upd name v x.2))
                                  (fun t => t))); [done|].
  by apply chunkwise_per_row.
Qed.

Lemma mapM_total {A B : Type} (h : A -> B) (l : list A) :
  mapM (fun x => Some (h x)) l = Some (h <$> l).
Proof. apply mapM_Some. apply Forall2_fmap_r. by apply Forall_Forall2_diag, Forall_true. Qed.

Lemma chunkwise_drop_column name : chunkwise (drop_column name).
Proof.
  apply (chunkwise_ext _ (per_row (fun x => Some (x.1, upd name NA x.2))
                                  (fun t => delete name t))).
  - intros d. unfold per_row, drop_column. by rewrite mapM_total.
  - apply chunkwise_per_row. intros tw tc. apply covers_delete.
Qed.

Lemma chunkwise_loc_set mask name f : chunkwise (loc_set mask name f).
Proof.
  intros W Cs Cs' [Hbody Hcov] Hrun.
  apply mapM_Some in Hrun.
  set (h := fun x : Z * row => (x.1, if mask x.2 then upd name (f x.2) x.2 else x.2)).
  assert (forallb (fun x => implb (mask x.2) (fits (dtypes W !! name) (f x.2)))
            (mjoin (body <$> Cs)) = true
          /\ h <$> mjoin (body <$> Cs) = mjoin (body <$> Cs')
          /\ Forall (fun C => covers (dtypes W) (dtypes C)) Cs') as (Hfit & Hrows & Hcov').
  { clear Hbody. induction Hrun as [|C C' Cs Cs' HC _ IH]; [done|].
    apply Forall_cons in Hcov as [HcC Hcov].
    destruct (IH Hcov) as (IH1 & IH2 & IH3). clear IH.
    unfold loc_set in HC.
    destruct (forallb _ (body C)) eqn:Hchk; [|done]. simplify_eq.
    rewrite !fmap_cons, !mjoin_cons. cbn [body dtypes].
    rewrite forallb_app, fmap_app, IH1, IH2. split; [|split]; [|done|by constructor].
    rewrite andb_true_r. apply forallb_elem_of. intros x Hx.
    pose proof (forallb_elem_of_1 _ _ _ Hchk Hx) as Hx'. simpl in Hx'.
    destruct (mask x.2); [|done]. simpl in *. by eapply covers_fits. }
  exists {| body := h <$> body W; dtypes := dtypes W |}. split.
  - unfold loc_set. by rewrite Hbody, Hfit.
  - split; [|done]. simpl. by rewrite Hbody.
Qed.

Lemma categories_subseteq name (l : list (Z * row)) ls :
  l ∈ ls -> categories name l ⊆ categories name (mjoin ls).
Proof.
  intros Hl c. unfold categories. rewrite !elem_of_list_to_set, !list_elem_of_omap.
  intros (x & Hx & Hc). exists x. split; [|done].
  apply list_elem_of_join. by exists l.
Qed.

Lemma chunkwise_astype_category name :
  name ∈ free -> chunkwise (astype_category name).
Proof.
  intros Hfree W Cs Cs' [Hbody Hcov] Hrun.
  apply mapM_Some in Hrun.
  destruct (astype_category name W) as [W'|] eqn:HW; [|by unfold astype_category in HW; repeat case_match].
  exists W'. split; [done|].
  assert (body W' = body W) as HbW.
  { unfold astype_category in HW. by repeat case_match; simplify_eq. }
  split.
  - rewrite HbW, Hbody. f_equal.
    apply list_eq_Forall2. apply Forall2_fmap.
    eapply Forall2_impl; [exact Hrun|]. intros C C' HC.
    unfold astype_category in HC. by repeat case_match; simplify_eq.
  - apply Forall_forall. intros C' HC'.
    apply list_elem_of_lookup in HC' as [i HC'].
    destruct (Forall2_lookup_r _ _ _ _ _ Hrun HC') as (C & HC & Hstep).
    assert (C ∈ Cs) as HCin by (by eapply list_elem_of_lookup_2).
    rewrite Forall_forall in Hcov. specialize (Hcov C HCin).
    intros col. destruct (decide (col = name)) as [->|Hne].
    + unfold astype_category in HW, Hstep.
      destruct (Hcov name) as [Heq|(_ & cw & cc & Hw & Hc & Hsub)].
      * clear HbW. rewrite <- Heq in Hstep.
        assert (categories name (body C) ⊆ categories name (body W)) as Hsub.
        { rewrite Hbody. apply categories_subseteq.
          apply list_elem_of_fmap. by exists C. }
        destruct (dtypes W !! name) as [[n|cw]|] eqn:Hdt; simplify_eq/=;
          rewrite ?lookup_insert_eq.
        -- right. split; [done|]. by eexists _, _.
        -- left. congruence.
        -- right. split; [done|]. by eexists _, _.
      * rewrite Hw in HW. rewrite Hc in Hstep. simplify_eq.
        right. split; [done|]. by exists cw, cc.
    + assert (dtypes W' !! col = dtypes W !! col) as ->.
      { unfold astype_category in HW.
        repeat case_match; simplify_eq/=; by rewrite ?lookup_insert_ne. }
      assert (dtypes C' !! col = dtypes C !! col) as ->.
      { unfold astype_category in Hstep.
        repeat case_match; simplify_eq/=; by rewrite ?lookup_insert_ne. }
      apply Hcov.
Qed.

Lemma chunkwise_if_any_loc_set mask name f :
  chunkwise (if_any mask (loc_set mask name f)).
Proof.
  apply (chunkwise_ext _ (loc_set mask name f)); [|apply chunkwise_loc_set].
  intros d. apply if_any_loc_set.
Qed.

Lemma chunkwise_if_nonempty_loc_set mask name f :
  chunkwise (if_any (fun _ => true) (loc_set mask name f)).
Proof.
  apply (chunkwise_ext _ (loc_set mask name f)); [|apply chunkwise_loc_set].
  intros d. apply if_any_nonempty. intros Hnil.
  apply loc_set_none_selected. rewrite Hnil. intros x Hx. by apply elem_of_nil in Hx.
Qed.

Lemma null_is_not_empty_str c : notna c = false -> is_empty_str c = false.
Proof. by destruct c. Qed.

Lemma if_any_note f d :
  if_any (fun r => notna (r "Note"))
    (fun data =>
       data ← loc_set (fun r => notna (r "Note")) "Note" f data;
       loc_set (fun r => is_empty_str (r "Note")) "Note" (fun _ => NA) data) d
  = (loc_set (fun r => notna (r "Note")) "Note" f d
     ≫= loc_set (fun r => is_empty_str (r "Note")) "Note" (fun _ => NA)).
Proof.
  apply if_any_guarded. intros Hno.
  rewrite loc_set_none_selected by done. simpl.
  apply loc_set_none_selected. intros x Hx.
  apply null_is_not_empty_str. by apply Hno.
Qed.

Lemma chunkwise_if_any_note f :
  chunkwise (if_any (fun r => notna (r "Note"))
    (fun data =>
       data ← loc_set (fun r => notna (r "Note")) "Note" f data;
       loc_set (fun r => is_empty_str (r "Note")) "Note" (fun _ => NA) data)).
Proof.
  eapply chunkwise_ext; [apply if_any_note|].
  apply chunkwise_bind; apply chunkwise_loc_set.
Qed.

(** ** Splitting and concatenating *)

Lemma take_chunks_join {A : Type} (sizes : list nat) (l : list A) :
  mjoin (take_chunks sizes l) = take (sum_list sizes) l.
Proof.
  revert l. induction sizes as [|k ks IH]; intros l; cbn [take_chunks].
  - by rewrite take_0.
  - rewrite mjoin_cons, IH. apply take_take_drop.
Qed.

Lemma chunk_sizes_sum (total n : nat) :
  (0 < n)%nat -> sum_list (chunk_sizes total n) = total.
Proof.
  intros Hn. unfold chunk_sizes.
  rewrite sum_list_with_app.
  fold (sum_list (replicate (total mod n)%nat (S (total / n)%nat))).
  fold (sum_list (replicate (n - total mod n)%nat (total / n)%nat)).
  rewrite !sum_list_replicate.
  pose proof (Nat.div_mod_eq total n) as Hdiv.
  pose proof (Nat.mod_upper_bound total n ltac:(lia)) as Hmod.
  nia.
Qed.

Lemma array_split_joins data n :
  (0 < n)%nat -> joins data (array_split data n).
Proof.
  intros Hn. unfold array_split. split.
  - rewrite <- list_fmap_compose.
    rewrite (list_fmap_ext _ id) by done. rewrite list_fmap_id.
    rewrite take_chunks_join, chunk_sizes_sum by done. by rewrite take_ge.
  - apply Forall_fmap, Forall_true. intros rows. apply covers_refl.
Qed.

Lemma array_split_length data n :
  (0 < n)%nat -> length (array_split data n) = n.
Proof.
  intros Hn. unfold array_split. rewrite length_fmap.
  assert (forall (sizes : list nat) (l : list (Z * row)),
            length (take_chunks sizes l) = length sizes) as Hlen.
  { induction sizes as [|k ks IH]; intros l; simpl; [done|]. by rewrite IH. }
  rewrite Hlen. unfold chunk_sizes.
  rewrite length_app, !length_replicate.
  pose proof (Nat.mod_upper_bound (length (body data)) n ltac:(lia)). lia.
Qed.

(** The frame against the concatenation of its chunks: a column of the
    frame that is categorical may have become one of dtype object, or hold
    other categories. *)
Definition merged (tw tp : gmap string dtype) : Prop :=
  forall col,
    tw !! col = tp !! col
    \/ (col ∈ free
        /\ exists cw, tw !! col = Some (Category cw)
                   /\ (tp !! col = Some (Plain "object")
                       \/ exists cp, tp !! col = Some (Category cp))).

Definition alike0 (W P : DataFrame) : Prop :=
  body W = body P /\ merged (dtypes W) (dtypes P).

Lemma concat_joins W Cs P :
  joins W Cs -> concat Cs = Some P -> alike0 W P.
Proof.
  intros [Hbody Hcov] Hcat. destruct Cs as [|first rest]; [done|].
  simpl in Hcat. simplify_eq. split; [done|]. simpl.
  apply Forall_cons in Hcov as [Hfirst Hrest].
  intros col. rewrite map_lookup_imap.
  destruct (Hfirst col) as [Heq|(Hfree & cw & cc & Hw & Hc & _)].
  - rewrite Heq. destruct (dtypes first !! col) as [d|] eqn:Hd; [|by left]. simpl.
    destruct (forallb _ rest) eqn:Hall; [by left|].
    right.
    assert (exists f, f ∈ rest /\ dtypes f !! col <> Some d) as (f & Hf & Hne).
    { clear -Hall. induction rest as [|f rest IH]; [done|]. simpl in Hall.
      apply andb_false_iff in Hall as [Hf|Hall].
      - exists f. split; [apply list_elem_of_here|]. by apply bool_decide_eq_false in Hf.
      - destruct (IH Hall) as (g & Hg & Hne). exists g. split; [|done].
        by apply list_elem_of_further. }
    rewrite Forall_forall in Hrest.
    destruct (Hrest f Hf col) as [Heqf|(Hfree & cw & cc & Hw & Hc & _)].
    + congruence.
    + split; [done|]. exists cw. split; [congruence|]. by left.
  - rewrite Hc. simpl. right. split; [done|]. exists cw. split; [done|].
    destruct (forallb _ rest); [right; by exists cc|by left].
Qed.

Ltac chunk_step :=
  first [ apply chunkwise_assign
        | apply chunkwise_reassign
        | apply chunkwise_loc_set
        | apply chunkwise_drop_column
        | apply chunkwise_if_any_loc_set
        | apply chunkwise_if_nonempty_loc_set
        | apply chunkwise_if_any_note
        | apply chunkwise_astype_category; unfold free; set_solver ].

(** ** The checks after parsing *)

Definition is_category (o : option dtype) : Prop := exists c, o = Some (Category c).

(** The frame parsed in one piece against the frame parsed in chunks, once
    the categorical columns are categorical again. *)
Definition alike (W P : DataFrame) : Prop :=
  body W = body P
  /\ forall col,
       dtypes W !! col = dtypes P !! col
       \/ (col ∈ free /\ is_category (dtypes W !! col) /\ is_category (dtypes P !! col)).

Lemma for_each_option cols F (o : option DataFrame) :
  foldl (fun d col => d ≫= F col) o cols = o ≫= for_each cols F.
Proof.
  unfold for_each. revert o. induction cols as [|col cols IH]; intros o; simpl.
  - by destruct o.
  - rewrite IH. destruct o as [d|]; simpl; [by rewrite IH|done].
Qed.

Lemma for_each_cons col cols F d :
  for_each (col :: cols) F d = F col d ≫= for_each cols F.
Proof. unfold for_each at 1. simpl. apply for_each_option. Qed.

Lemma astype_category_body col d d' :
  astype_category col d = Some d' -> body d' = body d.
Proof. unfold astype_category. intros. by repeat case_match; simplify_eq. Qed.

Lemma astype_category_is_category col d d' :
  astype_category col d = Some d' -> is_category (dtypes d' !! col).
Proof.
  unfold astype_category. intros Hd.
  destruct (dtypes d !! col) as [[n|c]|] eqn:Hdt; simplify_eq/=;
    rewrite ?lookup_insert_eq; by eexists.
Qed.

Lemma astype_category_keeps col d d' c :
  astype_category col d = Some d' ->
  is_category (dtypes d !! c) -> is_category (dtypes d' !! c).
Proof.
  unfold astype_category. intros Hd Hc.
  destruct (dtypes d !! col) as [[n|k]|] eqn:Hdt; simplify_eq/=; try done;
    (destruct (decide (c = col)) as [->|Hne];
     [rewrite lookup_insert_eq; by eexists|by rewrite lookup_insert_ne]).
Qed.

Lemma astype_category_other col d d' c :
  astype_category col d = Some d' -> c <> col -> dtypes d' !! c = dtypes d !! c.
Proof.
  unfold astype_category. intros Hd Hne.
  destruct (dtypes d !! col) as [[n|k]|] eqn:Hdt; simplify_eq/=;
    by rewrite ?lookup_insert_ne.
Qed.

Lemma astype_category_total col d : exists d', astype_category col d = Some d'.
Proof. unfold astype_category. repeat case_match; by eexists. Qed.

Lemma astype_category_alike0 col W P W2 P2 :
  alike0 W P ->
  astype_category col W = Some W2 -> astype_category col P = Some P2 ->
  alike0 W2 P2.
Proof.
  intros [Hbody Hm] HW HP. split.
  - rewrite (astype_category_body _ _ _ HW), (astype_category_body _ _ _ HP). done.
  - intros c. destruct (decide (c = col)) as [->|Hne].
    + destruct (Hm col) as [Heq|(Hfree & cw & Hw & Hp)].
      * left. unfold astype_category in HW, HP. rewrite <- Heq in HP.
        destruct (dtypes W !! col) as [[n|k]|] eqn:Hdt; simplify_eq/=;
          rewrite ?lookup_insert_eq; congruence.
      * right. split; [done|].
        unfold astype_category in HW. rewrite Hw in HW. simplify_eq.
        exists cw. split; [done|]. right.
        apply (astype_category_is_category _ _ _ HP).
    + rewrite (astype_category_other _ _ _ _ HW Hne), (astype_category_other _ _ _ _ HP Hne).
      apply Hm.
Qed.

Lemma for_each_astype_alike0 cols W P :
  alike0 W P ->
  exists W2 P2,
    for_each cols astype_category W = Some W2
    /\ for_each cols astype_category P = Some P2
    /\ alike0 W2 P2
    /\ (forall c, c ∈ cols \/ is_category (dtypes P !! c) -> is_category (dtypes P2 !! c)).
Proof.
  revert W P. induction cols as [|col cols IH]; intros W P Hal.
  - exists W, P. do 3 (split; [done|]).
    intros c [Hc|Hc]; [by apply elem_of_nil in Hc|done].
  - destruct (astype_category_total col W) as [W1 HW1].
    destruct (astype_category_total col P) as [P1 HP1].
    destruct (IH W1 P1 (astype_category_alike0 _ _ _ _ _ Hal HW1 HP1))
      as (W2 & P2 & HW2 & HP2 & Hal2 & Hcat).
    exists W2, P2. rewrite !for_each_cons, HW1, HP1. simpl.
    do 3 (split; [done|]).
    intros c [Hc|Hc].
    + apply elem_of_cons in Hc as [->|Hc]; apply Hcat; [right|by left].
      apply (astype_category_is_category _ _ _ HP1).
    + apply Hcat. right. by apply (astype_category_keeps _ _ _ _ HP1).
Qed.

Lemma alike0_alike W P :
  alike0 W P -> (forall c, c ∈ free -> is_category (dtypes P !! c)) -> alike W P.
Proof.
  intros [Hbody Hm] Hcat. split; [done|]. intros col.
  destruct (Hm col) as [Heq|(Hfree & cw & Hw & _)]; [by left|].
  right. split; [done|]. split; [by exists cw|by apply Hcat].
Qed.

Lemma alike_refl W : alike W W.
Proof. split; [done|]. by left. Qed.

Lemma alike_dtype_is W P name dt : alike W P -> dtype_is W name dt = dtype_is P name dt.
Proof.
  intros [_ Hm]. unfold dtype_is.
  destruct (Hm name) as [->|(_ & [cw ->] & [cp ->])]; done.
Qed.

Lemma alike_all_notna W P name : alike W P -> all_notna W name = all_notna P name.
Proof. intros [Hb _]. unfold all_notna. by rewrite Hb. Qed.

Lemma alike_reset_index W P : alike W P -> alike (reset_index W) (reset_index P).
Proof. intros [Hb Hm]. split; simpl; [by rewrite Hb|done]. Qed.

Lemma alike0_reset_index W P : alike0 W P -> alike0 (reset_index W) (reset_index P).
Proof. intros [Hb Hm]. split; simpl; [by rewrite Hb|done]. Qed.

Lemma alike_loc_set mask name f W P :
  alike W P -> name ∉ free ->
  match loc_set mask name f W, loc_set mask name f P with
  | Some W2, Some P2 => alike W2 P2
  | None, None => True
  | _, _ => False
  end.
Proof.
  intros [Hb Hm] Hfree. unfold loc_set.
  destruct (Hm name) as [Heq|(? & _)]; [|done].
  rewrite Hb, Heq. destruct (forallb _ _); [|done].
  split; [done|]. done.
Qed.

(** What the two runs of a conversion share when both give a dataset: the
    rows with their labels and values, the names of the dtypes, and the
    dtypes themselves but for the categories of [Condition] and [Category]. *)
Definition same_dataset (d1 d2 : DataFrame) : Prop :=
  body d1 = body d2
  /\ dtype_name <$> dtypes d1 = dtype_name <$> dtypes d2
  /\ forall col, col ∉ free -> dtypes d1 !! col = dtypes d2 !! col.

Lemma alike_same_dataset W P : alike W P -> same_dataset W P.
Proof.
  intros [Hb Hm]. split; [done|]. split.
  - apply map_eq. intros col. rewrite !lookup_fmap.
    destruct (Hm col) as [->|(_ & [cw ->] & [cp ->])]; done.
  - intros col Hcol. by destruct (Hm col) as [?|(? & _)].
Qed.

(** ** The columns of strings of the older parser *)

Definition is_text (c : cell) : bool :=
  match c with
  | Str _ | NA => true
  | _ => false
  end.

Definition is_str (c : cell) : bool :=
  match c with
  | Str _ => true
  | _ => false
  end.

Definition by_dtype (dt : option dtype) : bool :=
  match dt with
  | Some (Category _) => true
  | _ => bool_decide (dt = Some (Plain "string"))
  end.

(** A column as a reader gives it: of dtype string or categorical, or of
    strings and nulls only, or without any string. *)
Definition uniform_column (col : string) (data : DataFrame) : bool :=
  by_dtype (dtypes data !! col)
  || forallb (fun x => is_text (x.2 col)) (body data)
  || forallb (fun x => negb (is_str (x.2 col))) (body data).

Definition uniform (data : DataFrame) : bool :=
  forallb (fun col => uniform_column col data) (columns data).

(** The statement of the first loop of [_parse_data]. *)
Definition strip_column (col : string) (data : DataFrame) : option DataFrame :=
  if String.eqb (infer_dtype col data) "string"
  then reassign col (fun r => Some (str_map strip (r col))) data
  else Some data.

Definition stripped (col : string) (x : Z * row) : Z * row :=
  (x.1, upd col (str_map strip (x.2 col)) x.2).

Lemma upd_same name (r : row) : upd name (r name) r = r.
Proof.
  apply functional_extensionality. intros k. unfold upd.
  destruct (String.eqb k name) eqn:Hk; [|done].
  apply String.eqb_eq in Hk. by subst.
Qed.

Lemma strip_column_string col d :
  infer_dtype col d = "string" ->
  strip_column col d = Some {| body := stripped col <$> body d; dtypes := dtypes d |}.
Proof.
  intros Hinf. unfold strip_column, reassign. rewrite Hinf. simpl.
  by rewrite (mapM_total (stripped col)).
Qed.

Lemma strip_column_other col d :
  infer_dtype col d <> "string" -> strip_column col d = Some d.
Proof.
  intros Hinf. unfold strip_column.
  destruct (String.eqb _ _) eqn:Heq; [|done]. by apply String.eqb_eq in Heq.
Qed.

Lemma stripped_nulls col (l : list (Z * row)) :
  (forall x, x ∈ l -> x.2 col = NA) -> stripped col <$> l = l.
Proof.
  intros Hna. rewrite <- (list_fmap_id l) at 2.
  apply list_fmap_ext. intros i x Hx. unfold stripped.
  specialize (Hna x ltac:(by eapply list_elem_of_lookup_2)).
  destruct x as [lbl r]. simpl in *. f_equal.
  rewrite Hna. simpl. rewrite <- Hna. apply upd_same.
Qed.

Lemma kind_of_string c : kind_of c = "string" -> is_str c = true.
Proof. by destruct c. Qed.

(** Without a string a column is not inferred to be of strings. *)
Lemma infer_dtype_no_str col d :
  by_dtype (dtypes d !! col) = false ->
  (forall x, x ∈ body d -> is_str (x.2 col) = false) ->
  infer_dtype col d <> "string".
Proof.
  intros Hdt Hno. unfold infer_dtype. unfold by_dtype in Hdt.
  destruct (dtypes d !! col) as [[n|c]|] eqn:Hd; try done; rewrite ?Hdt.
  all: destruct (bool_decide _) eqn:Hbd; [by apply bool_decide_eq_true in Hbd|].
  all: destruct (filter _ _) as [|c cs] eqn:Hf; [done|].
  all: assert (is_str c = false) as Hc
         by (assert (c ∈ filter (fun c => notna c = true) ((fun x => x.2 col) <$> body d))
               as Hin by (rewrite Hf; apply list_elem_of_here);
             apply list_elem_of_filter in Hin as [_ Hin];
             apply list_elem_of_fmap in Hin as (x & -> & Hx); by apply Hno).
  all: destruct (forallb _ cs); [|done].
  all: intros Hk; apply kind_of_string in Hk; congruence.
Qed.

(** A column of strings and nulls is inferred to be of strings, unless it
    is all null. *)
Lemma infer_dtype_text col d :
  by_dtype (dtypes d !! col) = false ->
  (forall x, x ∈ body d -> is_text (x.2 col) = true) ->
  infer_dtype col d = "string" \/ (forall x, x ∈ body d -> x.2 col = NA).
Proof.
  intros Hdt Htext. unfold infer_dtype. unfold by_dtype in Hdt.
  assert (forall c, c ∈ filter (fun c => notna c = true) ((fun x => x.2 col) <$> body d) ->
                    kind_of c = "string") as Hkinds.
  { intros c Hc. apply list_elem_of_filter in Hc as [Hnn Hc].
    apply list_elem_of_fmap in Hc as (x & -> & Hx). specialize (Htext x Hx).
    by destruct (x.2 col). }
  assert (filter (fun c => notna c = true) ((fun x => x.2 col) <$> body d) = [] ->
          forall x, x ∈ body d -> x.2 col = NA) as Hempty.
  { intros Hnil x Hx. specialize (Htext x Hx).
    destruct (x.2 col) eqn:Hc; try done.
    assert (Str s ∈ filter (fun c => notna c = true) ((fun x => x.2 col) <$> body d)) as Hin.
    { apply list_elem_of_filter. split; [done|].
      apply list_elem_of_fmap. by exists x. }
    rewrite Hnil in Hin. by apply elem_of_nil in Hin. }
  destruct (dtypes d !! col) as [[n|c]|] eqn:Hd; try done; rewrite ?Hdt.
  all: destruct (bool_decide _) eqn:Hbd; [by apply bool_decide_eq_true in Hbd|].
  all: destruct (filter _ _) as [|c cs] eqn:Hf; [right; by apply Hempty|left].
  all: rewrite (Hkinds c (list_elem_of_here _ _)).
  all: rewrite forallb_elem_of; [done|].
  all: intros c' Hc'; rewrite (Hkinds c' (list_elem_of_further _ _ _ Hc')); done.
Qed.

Lemma infer_dtype_by_dtype col d :
  by_dtype (dtypes d !! col) = true ->
  infer_dtype col d = "string" <-> dtypes d !! col = Some (Plain "string").
Proof.
  unfold by_dtype, infer_dtype.
  destruct (dtypes d !! col) as [[n|c]|] eqn:Hd; try done.
  - intros Hb. apply bool_decide_eq_true in Hb. by rewrite Hb.
Qed.

(** What the statement does to the rows of a frame with a uniform column,
    and to the rows of every part of the frame. *)
Lemma strip_column_uniform col W :
  uniform_column col W = true ->
  exists h : Z * row -> Z * row,
    (h = id \/ h = stripped col)
    /\ forall d, dtypes d = dtypes W -> (forall x, x ∈ body d -> x ∈ body W) ->
         strip_column col d = Some {| body := h <$> body d; dtypes := dtypes d |}.
Proof.
  unfold uniform_column. intros Hu.
  destruct (by_dtype (dtypes W !! col)) eqn:Hdt.
  { destruct (decide (dtypes W !! col = Some (Plain "string"))) as [Hs|Hs].
    - exists (stripped col). split; [by right|]. intros d Hd Hsub.
      apply strip_column_string. apply infer_dtype_by_dtype; by rewrite Hd.
    - exists id. split; [by left|]. intros d Hd Hsub.
      rewrite list_fmap_id, frame_eta. apply strip_column_other.
      intros Hinf. apply infer_dtype_by_dtype in Hinf; rewrite Hd in *; done. }
  simpl in Hu. apply orb_true_iff in Hu as [Htext|Hno].
  - exists (stripped col). split; [by right|]. intros d Hd Hsub.
    destruct (infer_dtype_text col d) as [Hinf|Hna].
    + by rewrite Hd.
    + intros x Hx. by apply (forallb_elem_of_1 _ _ _ Htext), Hsub.
    + by apply strip_column_string.
    + rewrite (stripped_nulls col _ Hna), frame_eta.
      destruct (decide (infer_dtype col d = "string")) as [Hinf|Hinf].
      * rewrite (strip_column_string _ _ Hinf).
        by rewrite (stripped_nulls col _ Hna), frame_eta.
      * by apply strip_column_other.
  - exists id. split; [by left|]. intros d Hd Hsub.
    rewrite list_fmap_id, frame_eta. apply strip_column_other.
    apply infer_dtype_no_str; [by rewrite Hd|].
    intros x Hx. apply negb_true_iff.
    by apply (forallb_elem_of_1 _ _ _ Hno), Hsub.
Qed.

(** A frame and parts of it that have its dtypes. *)
Definition parts (W : DataFrame) (Cs : list DataFrame) : Prop :=
  body W = mjoin (body <$> Cs) /\ Forall (fun C => dtypes C = dtypes W) Cs.

Lemma fmap_mjoin {A B : Type} (h : A -> B) (ls : list (list A)) :
  h <$> mjoin ls = mjoin (fmap h <$> ls).
Proof.
  induction ls as [|l ls IH]; [done|].
  by rewrite fmap_cons, !mjoin_cons, fmap_app, IH.
Qed.

Lemma parts_elem_of W Cs C x : parts W Cs -> C ∈ Cs -> x ∈ body C -> x ∈ body W.
Proof.
  intros [Hb _] HC Hx. rewrite Hb. apply list_elem_of_join.
  exists (body C). split; [done|]. apply list_elem_of_fmap. by exists C.
Qed.

Lemma parts_joins W Cs : parts W Cs -> joins W Cs.
Proof.
  intros [Hb Hd]. split; [done|].
  eapply Forall_impl; [exact Hd|]. intros C ->. apply covers_refl.
Qed.

Lemma uniform_column_fmap col c (h : Z * row -> Z * row) d :
  (h = id \/ h = stripped col) ->
  uniform_column c d = true ->
  uniform_column c {| body := h <$> body d; dtypes := dtypes d |} = true.
Proof.
  intros [->| ->]; [by rewrite list_fmap_id|].
  unfold uniform_column. simpl. intros Hu.
  apply orb_true_iff in Hu as [Hu|Hno].
  - apply orb_true_iff in Hu as [->|Htext]; [done|].
    apply orb_true_iff. left. apply orb_true_iff. right.
    apply forallb_elem_of. intros y Hy.
    apply list_elem_of_fmap in Hy as (x & -> & Hx).
    pose proof (forallb_elem_of_1 _ _ _ Htext Hx) as Hc. simpl in *.
    unfold upd. destruct (String.eqb c col) eqn:Hcc; [|done].
    by destruct (x.2 col).
  - apply orb_true_iff. right.
    apply forallb_elem_of. intros y Hy.
    apply list_elem_of_fmap in Hy as (x & -> & Hx).
    pose proof (forallb_elem_of_1 _ _ _ Hno Hx) as Hc. simpl in *.
    unfold upd. destruct (String.eqb c col) eqn:Hcc; [|done].
    apply String.eqb_eq in Hcc. subst c. clear Hno.
    destruct x as [lbl r]. simpl in *. by destruct (r col).
Qed.

Lemma strip_loop cols W Cs :
  (forall col, col ∈ cols -> uniform_column col W = true) ->
  parts W Cs ->
  exists W' Cs',
    for_each cols strip_column W = Some W'
    /\ Forall2 (fun C C' => for_each cols strip_column C = Some C') Cs Cs'
    /\ parts W' Cs'.
Proof.
  revert W Cs. induction cols as [|col cols IH]; intros W Cs Hu Hp.
  - exists W, Cs. split; [done|]. split; [|done].
    by apply Forall_Forall2_diag, Forall_true.
  - destruct (strip_column_uniform col W (Hu col (list_elem_of_here _ _)))
      as (h & Hh & Hstep).
    set (step := fun d : DataFrame => {| body := h <$> body d; dtypes := dtypes d |}).
    assert (parts (step W) (step <$> Cs)) as Hp1.
    { destruct Hp as [Hb Hd]. split; simpl.
      - rewrite Hb, fmap_mjoin. f_equal. rewrite <- !list_fmap_compose.
        by apply list_fmap_ext.
      - apply Forall_fmap. eapply Forall_impl; [exact Hd|]. by intros C. }
    destruct (IH (step W) (step <$> Cs)) as (W' & Cs' & HW' & HCs' & Hp'); [|done|].
    { intros c Hc. apply (uniform_column_fmap col c h W Hh).
      apply Hu. by apply list_elem_of_further. }
    exists W', Cs'. split; [|split; [|done]].
    + rewrite for_each_cons, (Hstep W eq_refl (fun x Hx => Hx)). exact HW'.
    + apply Forall2_fmap_l in HCs'.
      apply Forall2_same_length_lookup. split; [by eapply Forall2_length|].
      intros i C C' HC HC'.
      rewrite for_each_cons, (Hstep C).
      * simpl. eapply (Forall2_lookup_lr _ _ _ _ _ _ HCs' HC HC').
      * destruct Hp as [_ Hd]. rewrite Forall_forall in Hd.
        apply Hd. by eapply list_elem_of_lookup_2.
      * intros x Hx. eapply parts_elem_of; [exact Hp| |exact Hx].
        by eapply list_elem_of_lookup_2.
Qed.

Lemma uniform_columns data col :
  uniform data = true -> col ∈ columns data -> uniform_column col data = true.
Proof. intros Hu Hcol. by apply (forallb_elem_of_1 _ _ _ Hu). Qed.

Lemma array_split_parts data n :
  (0 < n)%nat -> parts data (array_split data n).
Proof.
  intros Hn. split; [apply (array_split_joins data n Hn)|].
  unfold array_split. apply Forall_fmap, Forall_true. by intros rows.
Qed.

(** ** The conversions of whole columns

    A conversion of a whole column gives a value what the values of the
    column let it give. The chunks of a frame are parsed as the frame is
    where such a conversion gives every value of a chunk what it gives the
    value in the whole column. *)

Definition alike_on (name : string) (f : list cell -> cell -> option cell)
    (W C : DataFrame) : Prop :=
  forall c, c ∈ column name C -> f (column name C) c = f (column name W) c.

(** A statement that keeps the values of a column. *)
Definition keeps (name : string) (F : DataFrame -> option DataFrame) : Prop :=
  forall d d', F d = Some d' -> column name d' = column name d.

Lemma upd_other (name name' : string) (v : cell) (r : row) :
  name <> name' -> upd name' v r name = r name.
Proof.
  intros Hne. unfold upd. destruct (String.eqb name name') eqn:Heq; [|done].
  by apply String.eqb_eq in Heq.
Qed.

Lemma mapM_ext_in {A B : Type} (f g : A -> option B) (l : list A) :
  (forall x, x ∈ l -> f x = g x) -> mapM f l = mapM g l.
Proof.
  induction l as [|x l IH]; intros Hfg; [done|]. cbn.
  rewrite (Hfg x) by apply list_elem_of_here.
  rewrite IH; [done|]. intros y Hy. apply Hfg. by apply list_elem_of_further.
Qed.

Lemma per_row_keeps name (g : Z * row -> option (Z * row)) T d d' :
  (forall x y, g x = Some y -> y.2 name = x.2 name) ->
  per_row g T d = Some d' -> column name d' = column name d.
Proof.
  intros Hg Hrun. unfold per_row in Hrun.
  destruct (mapM g (body d)) as [rows|] eqn:Hrows; [|done]. simplify_eq/=.
  unfold column. simpl. apply mapM_Some in Hrows.
  induction Hrows as [|x y l k Hxy _ IH]; [done|].
  rewrite !fmap_cons. f_equal; [by apply Hg|done].
Qed.

Lemma assign_keeps name name' dt f d d' :
  name <> name' -> assign name' dt f d = Some d' -> column name d' = column name d.
Proof.
  intros Hne. apply (per_row_keeps name
    (fun x => v ← f x.2; Some (x.1, upd name' v x.2)) (fun t => <[name' := dt]> t)).
  intros x y Hxy. destruct (f x.2) as [v|]; [|done]. simplify_eq/=. by apply upd_other.
Qed.

Lemma reassign_keeps name name' f d d' :
  name <> name' -> reassign name' f d = Some d' -> column name d' = column name d.
Proof.
  intros Hne. apply (per_row_keeps name
    (fun x => v ← f x.2; Some (x.1, upd name' v x.2)) (fun t => t)).
  intros x y Hxy. destruct (f x.2) as [v|]; [|done]. simplify_eq/=. by apply upd_other.
Qed.

Lemma loc_set_keeps name mask name' f d d' :
  name <> name' -> loc_set mask name' f d = Some d' -> column name d' = column name d.
Proof.
  intros Hne Hrun. unfold loc_set in Hrun. destruct (forallb _ _); [|done].
  simplify_eq/=. unfold column. simpl. rewrite <- list_fmap_compose.
  apply list_fmap_ext. intros i x _. simpl.
  destruct (mask x.2); [by apply upd_other|done].
Qed.

(** The column of a frame and of its chunks is still the column a run of
    statements began with. *)
Definition same_column (name : string) (W0 : DataFrame) (Cs0 : list DataFrame)
    (W : DataFrame) (Cs : list DataFrame) : Prop :=
  column name W = column name W0
  /\ Forall2 (fun C C0 => column name C = column name C0) Cs Cs0.

Lemma same_column_refl name W Cs : same_column name W Cs W Cs.
Proof. split; [done|]. by apply Forall_Forall2_diag, Forall_true. Qed.

Lemma same_column_step name F W0 Cs0 W Cs W' Cs' :
  keeps name F ->
  same_column name W0 Cs0 W Cs ->
  F W = Some W' -> mapM F Cs = Some Cs' ->
  same_column name W0 Cs0 W' Cs'.
Proof.
  intros Hk [HW HCs] HW' HCs'. split; [by rewrite (Hk _ _ HW')|].
  apply mapM_Some in HCs'. revert Cs0 HCs.
  induction HCs' as [|C C' Cs Cs' HC _ IH]; intros Cs0 HCs.
  - by apply Forall2_nil_inv_l in HCs as ->.
  - apply Forall2_cons_inv_l in HCs as (C0 & Cs0' & HC0 & HCs0 & ->).
    constructor; [by rewrite (Hk _ _ HC)|by apply IH].
Qed.

(** A conversion of the column [name] in a frame and in its chunks. *)
Lemma per_row_in_column name T (f : list cell -> cell -> option cell)
    W0 Cs0 W Cs Cs' :
  (forall tw tc, covers tw tc -> covers (T tw) (T tc)) ->
  joins W Cs ->
  same_column name W0 Cs0 W Cs ->
  Forall (alike_on name f W0) Cs0 ->
  mapM (fun d => per_row (fun x => v ← f (column name d) (x.2 name);
                                   Some (x.1, upd name v x.2)) T d) Cs = Some Cs' ->
  exists W',
    per_row (fun x => v ← f (column name W) (x.2 name); Some (x.1, upd name v x.2)) T W
    = Some W'
    /\ joins W' Cs'.
Proof.
  intros HT Hj [HW HCs] Halike Hrun. rewrite HW.
  apply (chunkwise_per_row _ T HT W Cs Cs' Hj).
  apply mapM_Some. apply mapM_Some in Hrun.
  clear Hj HW. revert Cs0 HCs Halike.
  induction Hrun as [|C C' Cs Cs' HC _ IH]; intros Cs0 HCs Halike; [constructor|].
  apply Forall2_cons_inv_l in HCs as (C0 & Cs0' & HC0 & HCs0 & ->).
  apply Forall_cons in Halike as [HaC Halike].
  constructor; [|by apply (IH Cs0')].
  rewrite <- HC. unfold per_row.
  rewrite (mapM_ext_in
             (fun x => v ← f (column name W0) (x.2 name); Some (x.1, upd name v x.2))
             (fun x => v ← f (column name C) (x.2 name); Some (x.1, upd name v x.2)));
    [done|].
  intros x Hx. rewrite HC0, (HaC (x.2 name)); [done|].
  rewrite <- HC0. apply list_elem_of_fmap. by exists x.
Qed.

Lemma assign_in_column name dt (f : list cell -> cell -> option cell) W0 Cs0 W Cs Cs' :
  joins W Cs ->
  same_column name W0 Cs0 W Cs ->
  Forall (alike_on name f W0) Cs0 ->
  mapM (fun d => assign name dt (fun r => f (column name d) (r name)) d) Cs = Some Cs' ->
  exists W', assign name dt (fun r => f (column name W) (r name)) W = Some W'
             /\ joins W' Cs'.
Proof.
  apply (per_row_in_column name (fun t => <[name := dt]> t) f).
  intros tw tc. apply covers_insert.
Qed.

Lemma reassign_in_column name (f : list cell -> cell -> option cell) W0 Cs0 W Cs Cs' :
  joins W Cs ->
  same_column name W0 Cs0 W Cs ->
  Forall (alike_on name f W0) Cs0 ->
  mapM (fun d => reassign name (fun r => f (column name d) (r name)) d) Cs = Some Cs' ->
  exists W', reassign name (fun r => f (column name W) (r name)) W = Some W'
             /\ joins W' Cs'.
Proof. by apply (per_row_in_column name (fun t => t) f). Qed.

(** The columns a run of statements still has to convert. *)
Definition same_columns (names : list string) (W0 : DataFrame) (Cs0 : list DataFrame)
    (W : DataFrame) (Cs : list DataFrame) : Prop :=
  Forall (fun name => same_column name W0 Cs0 W Cs) names.

(** A statement that converts no whole column, before the rest of a run. *)
Lemma plain_step names F (K : DataFrame -> option DataFrame) W0 Cs0 W Cs Cs' :
  chunkwise F ->
  Forall (fun name => keeps name F) names ->
  joins W Cs ->
  same_columns names W0 Cs0 W Cs ->
  mapM (fun d => F d ≫= K) Cs = Some Cs' ->
  (forall W1 Cs1,
     joins W1 Cs1 -> same_columns names W0 Cs0 W1 Cs1 -> mapM K Cs1 = Some Cs' ->
     exists W', K W1 = Some W' /\ joins W' Cs') ->
  exists W', F W ≫= K = Some W' /\ joins W' Cs'.
Proof.
  intros HF Hk Hj Hs Hrun Hrest.
  apply mapM_bind_inv in Hrun as (Cs1 & H1 & Hrun).
  destruct (HF W Cs Cs1 Hj H1) as (W1 & HW1 & Hj1).
  rewrite HW1. cbn [mbind option_bind]. apply (Hrest W1 Cs1); [done| |done].
  unfold same_columns in *. rewrite Forall_forall in Hk, Hs. apply Forall_forall.
  intros name Hname.
  by apply (same_column_step name F W0 Cs0 W Cs W1 Cs1 (Hk name Hname) (Hs name Hname)).
Qed.

(** The conversion of a whole column, before the rest of a run. *)
Lemma column_step name names T (f : list cell -> cell -> option cell)
    (K : DataFrame -> option DataFrame) W0 Cs0 W Cs Cs' :
  (forall tw tc, covers tw tc -> covers (T tw) (T tc)) ->
  Forall (fun n => n <> name) names ->
  joins W Cs ->
  same_columns (name :: names) W0 Cs0 W Cs ->
  Forall (alike_on name f W0) Cs0 ->
  mapM (fun d => per_row (fun x => v ← f (column name d) (x.2 name);
                                   Some (x.1, upd name v x.2)) T d ≫= K) Cs = Some Cs' ->
  (forall W1 Cs1,
     joins W1 Cs1 -> same_columns names W0 Cs0 W1 Cs1 -> mapM K Cs1 = Some Cs' ->
     exists W', K W1 = Some W' /\ joins W' Cs') ->
  exists W',
    per_row (fun x => v ← f (column name W) (x.2 name); Some (x.1, upd name v x.2)) T W ≫= K
    = Some W'
    /\ joins W' Cs'.
Proof.
  intros HT Hne Hj Hs Ha Hrun Hrest.
  apply mapM_bind_inv in Hrun as (Cs1 & H1 & Hrun).
  apply Forall_cons in Hs as [Hname Hs].
  destruct (per_row_in_column name T f W0 Cs0 W Cs Cs1 HT Hj Hname Ha H1)
    as (W1 & HW1 & Hj1).
  rewrite HW1. cbn [mbind option_bind]. apply (Hrest W1 Cs1); [done| |done].
  unfold same_columns in *. rewrite Forall_forall in Hne, Hs. apply Forall_forall.
  intros n Hn.
  apply (same_column_step n
           (fun d => per_row (fun x => v ← f (column name d) (x.2 name);
                                       Some (x.1, upd name v x.2)) T d)
           W0 Cs0 W Cs W1 Cs1); [|by apply Hs|done|done].
  intros d d' Hd. eapply (per_row_keeps n); [|exact Hd].
  intros x y Hxy. cbv beta in Hxy.
  destruct (f (column name d) (x.2 name)) as [v|]; [|done]. simplify_eq/=.
  apply upd_other. by apply Hne.
Qed.

Section Chunks.

Context `{Pandas}.

(** The conversions of whole columns in [_parse_data_opt] and in
    [_parse_data]: the clearing documents, the dates and the posting keys
    of a chunk become what they become in the whole frame. *)
Definition converts_alike_opt (W C : DataFrame) : Prop :=
  alike_on "Clearing_Document"
    (fun values c => to_numeric_in true values c ≫= astype_uint 64) W C
  /\ alike_on "Document_Date" (to_date false) W C
  /\ alike_on "Posting_Date" (to_date false) W C
  /\ alike_on "Posting_Key" (to_numeric_in false) W C.

Definition converts_alike (W C : DataFrame) : Prop :=
  alike_on "Clearing_Document"
    (fun values c => to_numeric_in true values c ≫= astype_Int64) W C
  /\ alike_on "Document_Date" _parse_dates W C
  /\ alike_on "Posting_Date" _parse_dates W C
  /\ alike_on "Posting_Key" (to_numeric_in false) W C.

Lemma check_alike0 W P :
  alike0 W P ->
  match check_fbl3n_data_opt W, check_fbl3n_data_opt P with
  | Dataset d1, Dataset d2 => alike d1 d2
  | Nothing, Nothing => True
  | Raised, Raised => True
  | _, _ => False
  end.
Proof.
  intros Hal. unfold check_fbl3n_data_opt. cbv zeta.
  assert (empty W = empty P) as -> by (unfold empty; by rewrite (proj1 Hal)).
  destruct (empty P); [done|].
  assert (has_duplicates W = has_duplicates P) as ->
    by (unfold has_duplicates; by rewrite (proj1 Hal)).
  set (W0 := if has_duplicates P then reset_index W else W).
  set (P0 := if has_duplicates P then reset_index P else P).
  assert (alike0 W0 P0) as Hal0.
  { unfold W0, P0. destruct (has_duplicates P); [by apply alike0_reset_index|done]. }
  destruct (for_each_astype_alike0
              ["Document_Type"; "Condition"; "Category"; "Posting_Key";
               "Assignment"; "Business_Area"; "Tax_Code";
               "GL_Account"; "Document_Number"; "Fiscal_Year"] W0 P0 Hal0)
    as (W1 & P1 & -> & -> & Hal1 & Hcat).
  cbn [or_raise].
  assert (alike W1 P1) as Hal2.
  { apply alike0_alike; [done|]. intros c Hc. apply Hcat. left.
    unfold free in Hc.
    apply elem_of_cons in Hc as [->|Hc]; [|apply elem_of_cons in Hc as [->|Hc]].
    - apply list_elem_of_further, list_elem_of_here.
    - do 2 apply list_elem_of_further. apply list_elem_of_here.
    - by apply elem_of_nil in Hc. }
  assert ("LC_Amount" ∉ free) as Hamount.
  { unfold free. intros Hc.
    repeat (apply elem_of_cons in Hc as [Hc|Hc]; [discriminate Hc|]).
    by apply elem_of_nil in Hc. }
  match goal with
  | |- context [loc_set ?m ?n ?f W1] =>
      pose proof (alike_loc_set m n f W1 P1 Hal2 Hamount) as Hset;
      destruct (loc_set m n f W1) as [W2|], (loc_set m n f P1) as [P2|];
      cbn [or_raise]; [|destruct Hset..|exact I]
  end.
  pose proof (alike_reset_index _ _ Hset) as Hal3.
  rewrite !(alike_dtype_is _ _ _ _ Hal3), !(alike_all_notna _ _ _ Hal3).
  by destruct (_ && _).
Qed.

Ltac keeps_others :=
  repeat constructor;
  let d := fresh "d" in
  let d' := fresh "d" in
  let Hd := fresh "Hd" in
  intros d d' Hd;
  first [ by eapply assign_keeps; [|exact Hd]
        | by eapply reassign_keeps; [|exact Hd]
        | by eapply loc_set_keeps; [|exact Hd] ].

(** The next statement of a run on a frame and its chunks: one that
    converts no whole column, or the conversion [f] of the column [name]. *)
Ltac plain_statement Hj Hs Hrun :=
  refine (plain_step _ _ _ _ _ _ _ _ _ _ Hj Hs Hrun _);
  [ chunk_step | keeps_others | ];
  clear Hj Hs Hrun; intros ? ? Hj Hs Hrun; cbv beta in Hrun |- *.

Ltac column_statement name T f Hj Hs Ha Hrun :=
  refine (column_step name _ T f _ _ _ _ _ _ _ _ Hj Hs Ha Hrun _);
  [ first [ by intros ? ?; apply covers_insert | done ]
  | by repeat constructor
  | ];
  clear Hj Hs Hrun; intros ? ? Hj Hs Hrun; cbv beta in Hrun |- *.

(** Parsing the chunks of a frame and parsing the frame. *)
Lemma parse_opt_chunks_from W0 Cs0 W Cs Cs' :
  joins W Cs ->
  same_columns ["Clearing_Document"; "Document_Date"; "Posting_Date"; "Posting_Key"]
    W0 Cs0 W Cs ->
  Forall (converts_alike_opt W0) Cs0 ->
  mapM _parse_data_opt Cs = Some Cs' ->
  exists W', _parse_data_opt W = Some W' /\ joins W' Cs'.
Proof.
  intros Hj Hs Ha Hrun.
  pose proof (Forall_impl _ _ _ Ha (fun C HC => proj1 HC)) as Ha1.
  pose proof (Forall_impl _ _ _ Ha (fun C HC => proj1 (proj2 HC))) as Ha2.
  pose proof (Forall_impl _ _ _ Ha (fun C HC => proj1 (proj2 (proj2 HC)))) as Ha3.
  pose proof (Forall_impl _ _ _ Ha (fun C HC => proj2 (proj2 (proj2 HC)))) as Ha4.
  clear Ha. cbv beta in Ha1, Ha2, Ha3, Ha4.
  unfold _parse_data_opt in Hrun |- *. cbv zeta in Hrun |- *.
  do 4 plain_statement Hj Hs Hrun.
  column_statement "Clearing_Document"
    (fun t : gmap string dtype => <["Clearing_Document" := Plain "UInt64"]> t)
    (fun values c => to_numeric_in true values c ≫= astype_uint 64) Hj Hs Ha1 Hrun.
  do 3 plain_statement Hj Hs Hrun.
  column_statement "Document_Date"
    (fun t : gmap string dtype => <["Document_Date" := Plain "object"]> t)
    (to_date false) Hj Hs Ha2 Hrun.
  column_statement "Posting_Date"
    (fun t : gmap string dtype => <["Posting_Date" := Plain "object"]> t)
    (to_date false) Hj Hs Ha3 Hrun.
  column_statement "Posting_Key" (fun t : gmap string dtype => t)
    (to_numeric_in false) Hj Hs Ha4 Hrun.
  lazymatch type of Hrun with
  | mapM ?G _ = _ =>
      assert (chunkwise G) as Hcw
        by (repeat (apply chunkwise_bind; [chunk_step|]); chunk_step)
  end.
  exact (Hcw _ _ _ Hj Hrun).
Qed.

Lemma parse_chunks data n parsed P :
  (0 < n)%nat ->
  Forall (converts_alike_opt data) (array_split data n) ->
  mapM _parse_data_opt (array_split data n) = Some parsed ->
  concat parsed = Some P ->
  exists W, _parse_data_opt data = Some W /\ alike0 W P.
Proof.
  intros Hn Ha Hrun Hcat.
  destruct (parse_opt_chunks_from data (array_split data n) data (array_split data n) parsed
              (array_split_joins data n Hn)) as (W & HW & Hj); [|done|done|].
  { apply Forall_forall. intros name _. apply same_column_refl. }
  exists W. split; [done|]. by eapply concat_joins.
Qed.

Lemma parse_data_chunks data n parsed P :
  uniform data = true ->
  (0 < n)%nat ->
  (forall stripped chunks,
     for_each (columns data) strip_column data = Some stripped ->
     mapM (fun C => for_each (columns C) strip_column C) (array_split data n) = Some chunks ->
     Forall (converts_alike stripped) chunks) ->
  mapM _parse_data (array_split data n) = Some parsed ->
  concat parsed = Some P ->
  exists W, _parse_data data = Some W /\ alike0 W P.
Proof.
  intros Hu Hn Halike Hrun Hcat.
  pose proof (array_split_parts data n Hn) as Hp.
  destruct (strip_loop (columns data) data (array_split data n))
    as (W1 & Cs1 & HW1 & HCs1 & Hp1); [|done|].
  { intros col. by apply uniform_columns. }
  unfold _parse_data in Hrun |- *. cbv zeta in Hrun |- *.
  apply mapM_bind_inv in Hrun as (Cs1' & Hpre & Hrun).
  assert (Cs1' = Cs1) as ->.
  { apply (inj Some). rewrite <- Hpre. apply mapM_Some.
    apply Forall2_same_length_lookup. split; [by eapply Forall2_length|].
    intros i C C' HC HC'.
    assert (dtypes C = dtypes data) as HdC.
    { destruct Hp as [_ Hd]. rewrite Forall_forall in Hd.
      apply Hd. by eapply list_elem_of_lookup_2. }
    unfold columns. rewrite HdC.
    apply (Forall2_lookup_lr _ _ _ _ _ _ HCs1 HC HC'). }
  pose proof (Halike W1 Cs1 HW1 Hpre) as Ha. clear Halike Hpre HCs1.
  pose proof (Forall_impl _ _ _ Ha (fun C HC => proj1 HC)) as Ha1.
  pose proof (Forall_impl _ _ _ Ha (fun C HC => proj1 (proj2 HC))) as Ha2.
  pose proof (Forall_impl _ _ _ Ha (fun C HC => proj1 (proj2 (proj2 HC)))) as Ha3.
  pose proof (Forall_impl _ _ _ Ha (fun C HC => proj2 (proj2 (proj2 HC)))) as Ha4.
  clear Ha. cbv beta in Ha1, Ha2, Ha3, Ha4.
  unfold strip_column in HW1. rewrite HW1. cbn [mbind option_bind].
  pose proof (parts_joins _ _ Hp1) as Hj.
  assert (same_columns ["Clearing_Document"; "Document_Date"; "Posting_Date"; "Posting_Key"]
            W1 Cs1 W1 Cs1) as Hs.
  { apply Forall_forall. intros name _. apply same_column_refl. }
  set (W0 := W1) in Ha1, Ha2, Ha3, Ha4, Hs at 1.
  set (Cs0 := Cs1) in Ha1, Ha2, Ha3, Ha4, Hs at 1.
  clearbody W0 Cs0. clear HW1 Hp1 Hp Hu.
  match goal with
  | |- exists W, ?run = Some W /\ _ =>
      cut (exists W', run = Some W' /\ joins W' parsed)
  end.
  { intros (W' & HW' & Hj'). exists W'. split; [exact HW'|]. by eapply concat_joins. }
  do 4 plain_statement Hj Hs Hrun.
  column_statement "Clearing_Document"
    (fun t : gmap string dtype => <["Clearing_Document" := Plain "Int64"]> t)
    (fun values c => to_numeric_in true values c ≫= astype_Int64) Hj Hs Ha1 Hrun.
  do 5 plain_statement Hj Hs Hrun.
  column_statement "Document_Date"
    (fun t : gmap string dtype => <["Document_Date" := Plain "object"]> t)
    _parse_dates Hj Hs Ha2 Hrun.
  column_statement "Posting_Date"
    (fun t : gmap string dtype => <["Posting_Date" := Plain "object"]> t)
    _parse_dates Hj Hs Ha3 Hrun.
  column_statement "Posting_Key" (fun t : gmap string dtype => t)
    (to_numeric_in false) Hj Hs Ha4 Hrun.
  lazymatch type of Hrun with
  | mapM ?G _ = _ =>
      assert (chunkwise G) as Hcw
        by (repeat (apply chunkwise_bind; [chunk_step|]); chunk_step)
  end.
  exact (Hcw _ _ _ Hj Hrun).
Qed.

(** The frame [convert_fbl3n_data_opt] parses: the export as it is read,
    with its columns of strings stripped. *)
Definition read_stripped (text : string) : option DataFrame :=
  data ← read_csv (_clean_text_opt [text] "^\|\s+\d{4}\|.*$");
  for_each ["Assignment"; "Business_Area"; "Tax_Code";
            "Text"; "LC_Amount"; "Clearing_Document"]
    (fun col => reassign col (fun r => Some (str_map strip (r col)))) data.

(** X19. Where the conversions of whole columns give every clearing document,
    date and posting key of a chunk what they give it in the whole frame, a
    dataset that [convert_fbl3n_data_opt] returns when it parses in chunks is
    the dataset it returns when it parses in one piece: the same records with
    the same labels and values and the same names of dtypes, the dtypes
    themselves being the same but for the categories of [Condition] and
    [Category]. *)
Theorem chunked_opt_agrees (text : string) (n : Z) (d2 : DataFrame) :
  (forall data, read_stripped text = Some data ->
     Forall (converts_alike_opt data) (array_split data (Z.to_nat n))) ->
  convert_fbl3n_data_opt text true n = Dataset d2 ->
  exists d1, convert_fbl3n_data_opt text false n = Dataset d1 /\ same_dataset d1 d2.
Proof.
  intros Halike. unfold read_stripped in Halike.
  unfold convert_fbl3n_data_opt. cbv zeta.
  destruct (read_csv _) as [data0|]; cbn [or_raise mbind option_bind] in *; [|done].
  destruct (for_each _ _ _) as [data|]; cbn [or_raise]; [|done].
  specialize (Halike data eq_refl).
  destruct (length (body data) <=? MAX_ROWS_SNG)%nat eqn:Hrows; cbn [negb].
  { intros Hd2. exists d2. split; [done|]. apply alike_same_dataset, alike_refl. }
  destruct (n <? 2) eqn:Hn; [done|]. apply Z.ltb_ge in Hn.
  destruct (mapM _parse_data_opt _) as [parsed|] eqn:Hrun; [|done].
  cbn [mbind option_bind].
  destruct (concat parsed) as [P|] eqn:Hcat; cbn [or_raise]; [|done].
  destruct (parse_chunks data (Z.to_nat n) parsed P ltac:(lia) Halike Hrun Hcat)
    as (W & -> & Hal).
  cbn [or_raise]. intros Hd2.
  pose proof (check_alike0 W P Hal) as Hchk. rewrite Hd2 in Hchk.
  destruct (check_fbl3n_data_opt W) as [| |d1]; try done.
  exists d1. split; [done|]. by apply alike_same_dataset.
Qed.

End Chunks.



(** ** The fields of one record *)

(** A statement whose rows are the rows of its frame, each changed by the
    same function. *)
Definition rows_by (g : row -> option row) (d d' : DataFrame) : Prop :=
  Forall2 (fun x y => y.1 = x.1 /\ g x.2 = Some y.2) (body d) (body d').

Definition rowwise (F : DataFrame -> option DataFrame) (g : row -> option row) : Prop :=
  forall d d', F d = Some d' -> rows_by g d d'.

Lemma rowwise_bind F G g h :
  rowwise F g -> rowwise G h -> rowwise (fun d => F d ≫= G) (fun r => g r ≫= h).
Proof.
  intros HF HG d d' Hrun. unfold rowwise, rows_by in *.
  destruct (F d) as [d1|] eqn:Hd1; [|done]. simpl in Hrun.
  specialize (HF d d1 Hd1). specialize (HG d1 d' Hrun).
  eapply Forall2_trans; [|exact HF|exact HG].
  intros x y z [Hxy Hgx] [Hyz Hhy]. split; [congruence|]. by rewrite Hgx.
Qed.

Lemma rowwise_ext F G g :
  (forall d, F d = G d) -> rowwise G g -> rowwise F g.
Proof. intros Heq HG d d' Hrun. apply HG. by rewrite <- Heq. Qed.

Lemma rowwise_per_row (k : row -> option row) T :
  rowwise (per_row (fun x => r ← k x.2; Some (x.1, r)) T) k.
Proof.
  intros d d' Hrun. unfold rows_by. unfold per_row in Hrun.
  destruct (mapM _ (body d)) as [rows|] eqn:Hrows; [|done]. simplify_eq/=.
  apply mapM_Some in Hrows. eapply Forall2_impl; [exact Hrows|].
  intros x y Hxy. simpl in Hxy.
  destruct (k x.2) as [r|]; [|done]. by simplify_eq/=.
Qed.

Lemma rowwise_assign name dt f :
  rowwise (assign name dt f) (fun r => v ← f r; Some (upd name v r)).
Proof.
  eapply rowwise_ext; [|apply (rowwise_per_row _ (fun t => <[name := dt]> t))].
  intros d. unfold assign, per_row. f_equal. apply mapM_ext. intros x.
  by destruct (f x.2).
Qed.

Lemma rowwise_reassign name f :
  rowwise (reassign name f) (fun r => v ← f r; Some (upd name v r)).
Proof.
  eapply rowwise_ext; [|apply (rowwise_per_row _ (fun t => t))].
  intros d. unfold reassign, per_row. f_equal. apply mapM_ext. intros x.
  by destruct (f x.2).
Qed.

Lemma rowwise_loc_set mask name f :
  rowwise (loc_set mask name f) (fun r => Some (if mask r then upd name (f r) r else r)).
Proof.
  intros d d' Hrun. unfold rows_by. unfold loc_set in Hrun.
  destruct (forallb _ _); [|done]. simplify_eq/=.
  apply Forall2_fmap_r, Forall_Forall2_diag, Forall_true. by intros x.
Qed.

Lemma rowwise_astype_category name :
  rowwise (astype_category name) Some.
Proof.
  intros d d' Hrun. unfold rows_by. rewrite (astype_category_body _ _ _ Hrun).
  apply Forall_Forall2_diag, Forall_true. by intros x.
Qed.

Lemma rowwise_drop_column name :
  rowwise (drop_column name) (fun r => Some (upd name NA r)).
Proof.
  intros d d' Hrun. unfold rows_by. unfold drop_column in Hrun. simplify_eq/=.
  apply Forall2_fmap_r, Forall_Forall2_diag, Forall_true. by intros x.
Qed.

Lemma rowwise_if_any_loc_set mask name f :
  rowwise (if_any mask (loc_set mask name f))
          (fun r => Some (if mask r then upd name (f r) r else r)).
Proof. eapply rowwise_ext; [apply if_any_loc_set|apply rowwise_loc_set]. Qed.

Lemma rowwise_if_nonempty_loc_set mask name f :
  rowwise (if_any (fun _ => true) (loc_set mask name f))
          (fun r => Some (if mask r then upd name (f r) r else r)).
Proof.
  eapply rowwise_ext; [|apply rowwise_loc_set].
  intros d. apply if_any_nonempty. intros Hnil.
  apply loc_set_none_selected. rewrite Hnil. intros x Hx. by apply elem_of_nil in Hx.
Qed.

Lemma rowwise_if_any_note f :
  rowwise (if_any (fun r => notna (r "Note"))
    (fun data =>
       data ← loc_set (fun r => notna (r "Note")) "Note" f data;
       loc_set (fun r => is_empty_str (r "Note")) "Note" (fun _ => NA) data))
    (fun r => Some (if notna (r "Note") then upd "Note" (f r) r else r)
              ≫= fun r => Some (if is_empty_str (r "Note") then upd "Note" NA r else r)).
Proof.
  eapply rowwise_ext; [apply if_any_note|].
  apply rowwise_bind; apply rowwise_loc_set.
Qed.

(** The tokens of the text of a record. *)
Definition tokens (r : row) : list string :=
  match r "Text" with
  | Str s => split_on ";" s
  | _ => []
  end.

(** A token of the expected length, or null. *)
Definition shaped (n : nat) (s : string) : cell :=
  if (String.length s =? n)%nat then Str s else NA.

Lemma lstrip_with_weaker (p q : ascii -> bool) s :
  (forall c, q c = true -> p c = true) ->
  lstrip_with p (lstrip_with q s) = lstrip_with p s.
Proof.
  intros Hpq. induction s as [|c s IH]; simpl; [done|].
  destruct (q c) eqn:Hq.
  - by rewrite (Hpq c Hq).
  - done.
Qed.

Lemma rstrip_with_weaker (p q : ascii -> bool) s :
  (forall c, q c = true -> p c = true) ->
  rstrip_with p (rstrip_with q s) = rstrip_with p s.
Proof.
  intros Hpq. induction s as [|c s IH]; simpl; [done|].
  destruct (String.eqb (rstrip_with q s) "") eqn:Hq; simpl.
  - apply String.eqb_eq in Hq. rewrite Hq in IH. simpl in IH. rewrite <- IH. simpl.
    destruct (q c) eqn:Hqc; simpl.
    + by rewrite (Hpq c Hqc).
    + by rewrite Hq.
  - by rewrite IH.
Qed.

Lemma lstrip_rstrip_with (p q : ascii -> bool) s :
  (forall c, q c = true -> p c = true) ->
  lstrip_with p (rstrip_with q s) = rstrip_with q (lstrip_with p s).
Proof.
  intros Hpq. induction s as [|c s IH]; simpl; [done|].
  destruct (p c) eqn:Hp.
  - rewrite <- IH.
    destruct (String.eqb (rstrip_with q s) "") eqn:Hq; simpl.
    + apply String.eqb_eq in Hq. rewrite Hq. simpl.
      destruct (q c); simpl; [done|by rewrite Hp].
    + by rewrite Hp.
  - assert (q c = false) as Hq.
    { destruct (q c) eqn:Hq; [|done]. by rewrite (Hpq c Hq) in Hp. }
    rewrite Hq, andb_false_r. simpl. by rewrite Hp, Hq, andb_false_r.
Qed.

Lemma strip_strip_spaces s : strip (strip_spaces s) = strip s.
Proof.
  assert (forall c, is_char " " c = true -> is_space c = true) as Hsub.
  { intros c Hc. apply Ascii.eqb_eq in Hc. by subst c. }
  unfold strip, strip_spaces, strip_with.
  rewrite (lstrip_rstrip_with _ _ _ Hsub), (rstrip_with_weaker _ _ _ Hsub).
  by rewrite (lstrip_with_weaker _ _ _ Hsub).
Qed.

Lemma upd_if (b : bool) name v (r : row) c :
  (if b then upd name v r else r) c = if b && String.eqb c name then v else r c.
Proof. unfold upd. by destruct b, (String.eqb c name). Qed.

Lemma bind_step {A B : Type} (s : option A) (K : A -> option B) y :
  s ≫= K = Some y -> exists a, s = Some a /\ K a = Some y.
Proof. destruct s as [a|]; [|done]. intros HK. by exists a. Qed.

Lemma rows_by_bind g h d d1 d2 :
  rows_by g d d1 -> rows_by h d1 d2 -> rows_by (fun r => g r ≫= h) d d2.
Proof.
  intros Hg Hh. eapply Forall2_trans; [|exact Hg|exact Hh].
  intros x y z [Hxy Hgx] [Hyz Hhy]. split; [congruence|]. by rewrite Hgx.
Qed.

(** From the run [H] of one statement to the rows it makes. *)
Ltac rows_fact H :=
  let Hn := fresh "Hrows" in
  first [ pose proof (rowwise_assign _ _ _ _ _ H) as Hn
        | pose proof (rowwise_reassign _ _ _ _ H) as Hn
        | pose proof (rowwise_loc_set _ _ _ _ _ H) as Hn
        | pose proof (rowwise_drop_column _ _ _ H) as Hn
        | pose proof (rowwise_if_any_loc_set _ _ _ _ _ H) as Hn
        | pose proof (rowwise_if_nonempty_loc_set _ _ _ _ _ H) as Hn
        | pose proof (rowwise_if_any_note _ _ _ H) as Hn
        | pose proof (rowwise_astype_category _ _ _ H) as Hn ];
  clear H; rename Hn into H.

(** From the run [Hrun] of the statements of a parser to the rows it
    makes. *)
Ltac walk_rows Hrun :=
  lazymatch type of Hrun with
  | mbind _ _ = Some _ =>
      let d := fresh "d" in
      let Hstep := fresh "Hstep" in
      apply bind_step in Hrun as (d & Hstep & Hrun); cbv beta in Hrun;
      rows_fact Hstep; walk_rows Hrun;
      let Hn := fresh "Hrows" in
      pose proof (rows_by_bind _ _ _ _ _ Hstep Hrun) as Hn;
      clear Hstep Hrun; rename Hn into Hrun
  | _ => rows_fact Hrun
  end.

(** The columns a step of the parser reads to derive the fields. *)
Ltac rewrite_facts r :=
  repeat match goal with
         | H : r ?c = _ |- context [r ?c] => rewrite H
         end.

Ltac rewrite_facts_in r Hv :=
  repeat match goal with
         | H : r ?c = _ |- _ =>
             lazymatch type of Hv with
             | context [r c] => rewrite H in Hv
             end
         end.

Ltac cell_simpl :=
  cbn [is_empty_str str_split str_get str_map str_len len_ge len_gt len_ne notna
       lookup list_lookup Nat.leb Nat.ltb Nat.eqb length negb andb orb].

Ltac cell_simpl_in Hv :=
  cbn [is_empty_str str_split str_get str_map str_len len_ge len_gt len_ne notna
       lookup list_lookup Nat.leb Nat.ltb Nat.eqb length negb andb orb] in Hv.

Ltac cell_norm :=
  repeat (progress (cell_simpl;
                    repeat match goal with
                           | H : String.eqb _ _ = _ |- _ => rewrite H
                           | H : split_on _ _ = _ |- _ => rewrite H
                           end)).

Ltac cell_norm_in Hv :=
  repeat (progress (cell_simpl_in Hv;
                    repeat match goal with
                           | H : String.eqb _ _ = _ |- _ => rewrite H in Hv
                           | H : split_on _ _ = _ |- _ => rewrite H in Hv
                           | H : String.length _ = _ |- _ => rewrite H in Hv
                           end)).

Ltac new_fact r r' Hr' c :=
  let Hc := fresh "Hcol" in
  eassert (r' c = _) as Hc;
  [ rewrite <- Hr'; rewrite ?upd_if; unfold upd;
    cbn [String.eqb Ascii.eqb Bool.eqb];
    rewrite ?andb_false_r, ?andb_true_r; cbv iota;
    rewrite_facts r;
    cell_norm;
    reflexivity
  | ].

Ltac new_facts r r' Hr' :=
  new_fact r r' Hr' "Text";
  new_fact r r' Hr' "Tokens";
  new_fact r r' Hr' "Condition";
  new_fact r r' Hr' "Category";
  new_fact r r' Hr' "Customer";
  new_fact r r' Hr' "Agreement";
  new_fact r r' Hr' "Note";
  clear Hr';
  repeat match goal with
         | H : r _ = _ |- _ => clear H
         end.

Lemma to_numeric_NA `{Pandas} coerce : to_numeric coerce NA = Some NA.
Proof. done. Qed.

Lemma astype_uint_NA `{Pandas} bits : astype_uint bits NA = Some NA.
Proof. done. Qed.

Lemma bind_Some_l {A B : Type} (a : A) (K : A -> option B) : Some a ≫= K = K a.
Proof. done. Qed.

(** The facts about the row [y] and the values read into it, with the
    operations on known cells carried out. *)
Ltac norm_facts y :=
  repeat match goal with
         | H : y _ = _ |- _ => progress cell_norm_in H
         | H : mbind _ _ = Some _ |- _ => progress cell_norm_in H
         end;
  repeat match goal with
         | H : to_numeric _ NA ≫= _ = Some ?v |- _ =>
             rewrite to_numeric_NA, bind_Some_l, astype_uint_NA in H;
             apply (inj Some) in H; subst v
         end.

(** The property of the fields, once they are known. *)
Ltac solve_shape :=
  first [ by left
        | right; eexists; split; [reflexivity|by apply Nat.eqb_eq] ].

Ltac solve_fields :=
  split; [intros Hlt; cbn [length] in Hlt; first [lia | by repeat split]|];
  split; [solve_shape|];
  split; [solve_shape|];
  intros ? ? ? ? ? Htoks; simplify_eq;
  repeat match goal with
         | H : (String.length _ =? _)%nat = _ |- _ => rewrite ?H; clear H
         end;
  repeat match goal with
         | |- _ /\ _ => split
         | |- forall c : string, _ = Str c -> _ => by intros c [= <-]
         | |- (_ <= 2)%nat -> _ => intros Hle; first [done | lia]
         | |- _ = _ => done
         | |- _ \/ _ => first [by left | by right]
         | |- _ <> _ -> _ =>
             let Hne := fresh in
             intros Hne;
             first [ done
                   | exfalso; apply Hne; by apply String.eqb_eq ]
         end.

Ltac finish_row :=
  lazymatch goal with
  | HText : ?y "Text" = _ |- _ =>
      norm_facts y;
      repeat match goal with
             | Hc : y ?c = _ |- _ =>
                 lazymatch c with
                 | "Text" => fail
                 | _ => rewrite Hc; clear Hc
                 end
             end;
      solve_fields
  end.

(** One step of the parser on the row [r], the rest of the run being [Hg]. *)
Ltac row_step_on Hg r k :=
  lazymatch type of Hg with
  | mbind _ _ = Some _ =>
      let r' := fresh "r" in
      let Hr' := fresh "Hr" in
      apply bind_step in Hg as (r' & Hr' & Hg); cbv beta in Hg;
      lazymatch type of Hr' with
      | @eq (option cell) _ _ =>
          (* the last statement: [r'] is the value it assigns *)
          rewrite_facts_in r Hr'; cell_norm_in Hr';
          try (apply (inj Some) in Hr'; subst r');
          apply (inj Some) in Hg;
          lazymatch type of Hg with
          | _ = ?y => new_facts r y Hg; try clear r
          end
      | Some _ = Some _ =>
          apply (inj Some) in Hr'; new_facts r r' Hr'; try clear r; k r'
      | mbind _ _ = Some _ =>
          let v := fresh "v" in
          let Hv := fresh "Hv" in
          apply bind_step in Hr' as (v & Hv & Hr'); cbv beta in Hr';
          apply (inj Some) in Hr';
          rewrite_facts_in r Hv; cell_norm_in Hv;
          lazymatch type of Hv with
          | Some _ = Some _ =>
              apply (inj Some) in Hv; subst v; new_facts r r' Hr'; try clear r
          | _ =>
              new_facts r r' Hr';
              first [ clear r | clear Hv; clear r | idtac ]
          end;
          k r'
      end
  | _ => idtac
  end.

Ltac run_row Hg r := row_step_on Hg r ltac:(fun r' => run_row Hg r').

Section Fields.

Context `{Pandas}.

(** What the parser leaves in the fields derived from the text of a
    record: nothing unless the text has four tokens; a condition of four
    characters and a category of two, or nothing; and, of a text of four
    tokens or more, the tokens without the blanks around them. *)
Definition text_derived (r : row) : Prop :=
  ((length (tokens r) < 4)%nat ->
     r "Condition" = NA /\ r "Category" = NA /\ r "Customer" = NA
     /\ r "Agreement" = NA /\ r "Note" = NA)
  /\ (r "Condition" = NA \/ exists c, r "Condition" = Str c /\ String.length c = 4%nat)
  /\ (r "Category" = NA \/ exists c, r "Category" = Str c /\ String.length c = 2%nat)
  /\ (forall t0 t1 t2 t3 rest, tokens r = t0 :: t1 :: t2 :: t3 :: rest ->
        r "Condition" = shaped 4 (strip t0)
        /\ (forall c, r "Category" = Str c -> c = strip t1)
        /\ ((String.length (strip_spaces t1) <= 2)%nat ->
             r "Category" = shaped 2 (strip t1))
        /\ to_numeric true (Str t2) ≫= astype_uint 32 = Some (r "Customer")
        /\ to_numeric true (Str t3) ≫= astype_uint 32 = Some (r "Agreement")
        /\ match rest with
            | [] => r "Note" = NA
            | t4 :: _ =>
                (r "Note" = NA \/ r "Note" = Str (strip t4))
                /\ (strip t4 <> "" -> r "Note" = Str (strip t4))
            end).

(** From the run [Hg] of the parser on the row [x] to the property of the
    fields of its result [y]. *)
Ltac derive_fields Hg x y :=
  run_row Hg x;
  match goal with
  | Ht : y "Text" = _ |- _ => rewrite <- Ht in *; clear Ht
  end;
  cbn [snd]; unfold text_derived, tokens;
  let s := fresh "s" in
  let HText := fresh "HText" in
  destruct (y "Text") as [|s| | | |] eqn:HText;
  [ finish_row
  | let t0 := fresh "t" in
    let t1 := fresh "t" in
    let t2 := fresh "t" in
    let t3 := fresh "t" in
    let t4 := fresh "t" in
    let rest := fresh "rest" in
    let Hsplit := fresh "Hsplit" in
    destruct (split_on ";" s) as [|t0 [|t1 [|t2 [|t3 rest]]]] eqn:Hsplit;
    [ finish_row | finish_row | finish_row | finish_row
    | let Hlen0 := fresh "Hlen" in
      let Hlen1 := fresh "Hlen" in
      let Hlen2 := fresh "Hlen" in
      let Hnote := fresh "Hnote" in
      destruct (String.length (strip_spaces t1)) as [|[|[|?]]] eqn:Hlen1;
      destruct rest as [|t4 rest];
      norm_facts y; rewrite ?strip_strip_spaces in *;
      try destruct (String.eqb (strip t4) "") eqn:Hnote;
      destruct (String.length (strip t0) =? 4)%nat eqn:Hlen0;
      destruct (String.length (strip t1) =? 2)%nat eqn:Hlen2;
      cbn [negb] in *;
      repeat match goal with Hc : y _ = _ |- _ => rewrite Hc; clear Hc end;
      unfold shaped; rewrite ?Hlen0, ?Hlen2;
      solve_fields ]
  | finish_row | finish_row | finish_row | finish_row ].

Lemma parse_data_opt_fields data out y :
  _parse_data_opt data = Some out -> y ∈ body out -> text_derived y.2.
Proof.
  intros Hrun Hy. unfold _parse_data_opt in Hrun. cbv zeta in Hrun.
  walk_rows Hrun.
  apply list_elem_of_lookup in Hy as [i Hy].
  destruct (Forall2_lookup_r _ _ _ _ _ Hrun Hy) as (x & _ & _ & Hg).
  clear Hy Hrun. destruct y as [lbl y]. destruct x as [lbl' x].
  cbn [fst snd] in Hg. cbv beta in Hg.
  derive_fields Hg x y.
Qed.

Lemma parse_data_fields data out y :
  _parse_data data = Some out -> y ∈ body out -> text_derived y.2.
Proof.
  intros Hrun Hy. unfold _parse_data in Hrun. cbv zeta in Hrun.
  apply bind_step in Hrun as (stripped & _ & Hrun). cbv beta in Hrun.
  walk_rows Hrun.
  apply list_elem_of_lookup in Hy as [i Hy].
  destruct (Forall2_lookup_r _ _ _ _ _ Hrun Hy) as (x & _ & _ & Hg).
  clear Hy Hrun. destruct y as [lbl y]. destruct x as [lbl' x].
  cbn [fst snd] in Hg. cbv beta in Hg.
  derive_fields Hg x y.
Qed.

(** C8. The fields derived from the text of a record, for every record that
    [_parse_data_opt] or [_parse_data] returns: one of [Condition],
    [Category], [Customer], [Agreement] and [Note] is filled only if the
    text splits at [';'] into four tokens or more, and they are all null
    when it has fewer; a condition that is kept has four characters and a
    category that is kept has two, any other being replaced by null; and the
    fields of a text of four tokens or more are made of its tokens. *)
Theorem text_fields_of_records (data out : DataFrame) (y : Z * row) :
  _parse_data_opt data = Some out \/ _parse_data data = Some out ->
  y ∈ body out ->
  (forall name,
     name ∈ ["Condition"; "Category"; "Customer"; "Agreement"; "Note"] ->
     y.2 name <> NA -> (4 <= length (tokens y.2))%nat)
  /\ ((length (tokens y.2) < 4)%nat ->
        y.2 "Condition" = NA /\ y.2 "Category" = NA /\ y.2 "Customer" = NA
        /\ y.2 "Agreement" = NA /\ y.2 "Note" = NA)
  /\ (y.2 "Condition" = NA
      \/ exists c, y.2 "Condition" = Str c /\ String.length c = 4%nat)
  /\ (y.2 "Category" = NA
      \/ exists c, y.2 "Category" = Str c /\ String.length c = 2%nat)
  /\ text_derived y.2.
Proof.
  intros Hrun Hy.
  assert (text_derived y.2) as Hfields.
  { destruct Hrun as [Hrun|Hrun];
      [by eapply parse_data_opt_fields|by eapply parse_data_fields]. }
  pose proof Hfields as (Hfew & Hcond & Hcat & _).
  split; [|done].
  intros name Hname Hfilled.
  destruct (decide (length (tokens y.2) < 4)%nat) as [Hlt|Hge]; [|lia].
  destruct (Hfew Hlt) as (H0 & H1 & H2 & H3 & H4). exfalso. apply Hfilled.
  repeat (apply elem_of_cons in Hname as [->|Hname]; [done|]).
  by apply elem_of_nil in Hname.
Qed.

End Fields.

(** ** An instance of the conversions

    The numbers are decimal numerals with an optional sign and an optional
    fraction, the dates are written day.month.year, [findall] knows the line
    pattern of the FBL3N export, and the reader splits the lines of a text
    and their fields at the bars. A value of a column is converted as it is
    on its own, which is what pandas makes of columns whose integers are
    exact as floats and whose dates are written in one format, as are those
    of the texts below. *)

Definition digit_of (c : ascii) : option Z :=
  let n := Z.of_N (N_of_ascii c) in
  if (48 <=? n) && (n <=? 57) then Some (n - 48) else None.

Fixpoint digits_from (acc : Z) (s : string) : option Z :=
  match s with
  | EmptyString => Some acc
  | String c s' => d ← digit_of c; digits_from (10 * acc + d) s'
  end.

Definition natural (s : string) : option Z :=
  match s with
  | EmptyString => None
  | _ => digits_from 0 s
  end.

Definition integer (s : string) : option Z :=
  match s with
  | String "-" s' => Z.opp <$> natural s'
  | _ => natural s
  end.

Fixpoint float_of_pos (p : positive) : float :=
  match p with
  | xH => 1
  | xO p => 2 * float_of_pos p
  | xI p => 2 * float_of_pos p + 1
  end%float.

Definition float_of_Z (z : Z) : float :=
  match z with
  | Z0 => 0%float
  | Zpos p => float_of_pos p
  | Zneg p => (- float_of_pos p)%float
  end.

(** A numeral with a fraction is the quotient of its digits by a power of
    ten, rounded once. *)
Definition decimal (s : string) : option cell :=
  match split_on "." s with
  | [i] => Int <$> integer i
  | [i; f] =>
      m ← integer (i ++ f);
      _ ← natural f;
      Some (Flt (float_of_Z m / float_of_Z (10 ^ Z.of_nat (String.length f))))
  | _ => None
  end.

Definition Z_of_float (f : float) : option Z :=
  match Prim2SF f with
  | S754_zero _ => Some 0
  | S754_finite s m e =>
      let sign := if s then -1 else 1 in
      if 0 <=? e then Some (sign * Z.pos m * 2 ^ e)
      else if Z.pos m mod 2 ^ (- e) =? 0 then Some (sign * (Z.pos m / 2 ^ (- e)))
      else None
  | _ => None
  end.

(** The number of the day since 1970-01-01. *)
Definition days_from_civil (y m d : Z) : Z :=
  let y := if m <=? 2 then y - 1 else y in
  let era := y / 400 in
  let yoe := y - era * 400 in
  let doy := (153 * (if 2 <? m then m - 3 else m + 9) + 2) / 5 + d - 1 in
  let doe := yoe * 365 + yoe / 4 - yoe / 100 + doy in
  era * 146097 + doe - 719468.

Definition day_of (s : string) : option Z :=
  match split_on "." s with
  | [d; m; y] =>
      d ← natural d; m ← natural m; y ← natural y;
      if (1 <=? d) && (d <=? 31) && (1 <=? m) && (m <=? 12)
      then Some (days_from_civil y m d) else None
  | _ => None
  end.

Definition is_digit_char (c : ascii) : bool :=
  match digit_of c with Some _ => true | None => false end.

(** A line of the form bar, blanks, four digits, bar, anything. *)
Definition is_data_line (l : string) : bool :=
  match l with
  | String "|" rest =>
      let after := lstrip_with is_space rest in
      negb (String.length after =? String.length rest)%nat
      && match after with
         | String a (String b (String c (String d (String "|" _)))) =>
             is_digit_char a && is_digit_char b && is_digit_char c && is_digit_char d
         | _ => false
         end
  | _ => false
  end.

Definition data_lines (patt txt : string) : list string :=
  if String.eqb patt "^\|\s+\d{4}\|.*$"
  then filter (fun l => is_data_line l = true) (split_on "010" txt)
  else [].

Definition text_field (s : string) : option cell :=
  Some (if String.eqb s "" then NA else Str s).

Definition int_field (s : string) : option cell :=
  if String.eqb s "" then Some NA else Int <$> integer s.

(** The columns of the FBL3N export, with the reader of their fields and
    their dtype after reading. *)
Definition fbl3n_columns : list (string * (string -> option cell) * string) :=
  [ ("Fiscal_Year", int_field, "UInt16");
    ("Period", int_field, "UInt8");
    ("GL_Account", int_field, "UInt32");
    ("Assignment", text_field, "string");
    ("Document_Number", int_field, "UInt64");
    ("Business_Area", text_field, "string");
    ("Document_Type", text_field, "category");
    ("Document_Date", text_field, "object");
    ("Posting_Date", text_field, "object");
    ("Posting_Key", int_field, "UInt8");
    ("LC_Amount", text_field, "string");
    ("Tax_Code", text_field, "string");
    ("Clearing_Document", text_field, "string");
    ("Text", text_field, "string") ].

Fixpoint read_fields (cols : list (string * (string -> option cell) * string))
    (fields : list string) : option row :=
  match cols with
  | [] => Some (fun _ => NA)
  | (name, reader, _) :: cols =>
      v ← reader (default "" (head fields));
      r ← read_fields cols (tail fields);
      Some (upd name v r)
  end.

Definition read_frame (cols : list (string * (string -> option cell) * string))
    (text : string) : option DataFrame :=
  if String.eqb text "" then None else
  rows ← mapM (fun l => read_fields cols (split_on "|" l)) (split_on "010" text);
  let rows := imap (fun i r => (Z.of_nat i, r)) rows in
  Some {| body := rows;
          dtypes := list_to_map
            ((fun c => (c.1.1, if String.eqb c.2 "category"
                               then Category (categories c.1.1 rows)
                               else Plain c.2)) <$> cols) |}.

Definition read_lines (text : string) : option DataFrame := read_frame fbl3n_columns text.

(** The columns as the reader of [_parse_fbl3n_data] gives them for a .txt
    export: the dtype string where it is asked for, and the dtype the reader
    infers elsewhere. *)
Definition inferred_columns : list (string * (string -> option cell) * string) :=
  [ ("Fiscal_Year", int_field, "int64");
    ("Period", int_field, "int64");
    ("GL_Account", int_field, "int64");
    ("Assignment", text_field, "string");
    ("Document_Number", int_field, "int64");
    ("Business_Area", text_field, "string");
    ("Document_Type", text_field, "object");
    ("Document_Date", text_field, "object");
    ("Posting_Date", text_field, "object");
    ("Posting_Key", int_field, "int64");
    ("LC_Amount", text_field, "object");
    ("Tax_Code", text_field, "string");
    ("Clearing_Document", int_field, "int64");
    ("Text", text_field, "string") ].

Definition read_export (file_type : FileTypes) (header : list string) (text : string)
    : option DataFrame :=
  match file_type with
  | TXT => read_frame inferred_columns text
  | DAT => None
  end.

Definition decimal_of (c : cell) : option cell :=
  match c with
  | Int z => Some (Int z)
  | Flt f => Some (Flt f)
  | Str s => decimal s
  | _ => None
  end.

#[local] Instance decimal_pandas : Pandas := {|
  numeric := decimal;
  numeric_in := fun _ => decimal_of;
  integral := Z_of_float;
  float_of := float_of_Z;
  date_in := fun _ => day_of;
  findall := data_lines;
  read_csv := read_lines;
  read_csv_as := read_export
|}.

Definition TAB : string := String "009"%char EmptyString.

(** A line of the export with the given text of the item. *)
Definition export_line (text : string) : string :=
  "| 2023|12|66010010|A1|1900000001|BA|SA|01.12.2023|01.12.2023|40|100,00|V0|2000000001|"
  ++ text ++ "|".

Definition export_text (lines : list string) : string := join LF lines.

Definition is_dataset (c : converted) : bool :=
  match c with Dataset _ => true | _ => false end.

Definition dataset_of (c : converted) : DataFrame :=
  match c with
  | Dataset d => d
  | _ => {| body := []; dtypes := ∅ |}
  end.

(** 1001 items of the same text. *)
Definition uniform_text : string :=
  export_text (replicate 1001 (export_line "ABCD;B1;1;2;note")).

(** 501 items, then 500 items whose condition ends in a tabulator. *)
Definition tabbed_text : string :=
  export_text (replicate 501 (export_line "ABCD;B1;1;2")
               ++ replicate 500 (export_line ("ABCD" ++ TAB ++ ";B1;1;2"))).

(** 501 items with a condition of five characters, then 500 well-formed. *)
Definition malformed_text : string :=
  export_text (replicate 501 (export_line "ABCDE;B1;1;2")
               ++ replicate 500 (export_line "ABCD;B1;1;2")).

Example small_conversion :
  (fun d => (length (body d),
             (fun x => (x.1, x.2 "Condition", x.2 "Category", x.2 "Customer",
                        x.2 "Agreement", x.2 "Note", x.2 "LC_Amount",
                        x.2 "Posting_Date")) <$> body d,
             dtype_name <$> dtypes d !! "Condition"))
    (dataset_of (convert_fbl3n_data_opt
                   (export_text [export_line "ABCD;B1;1;2;note"; "junk";
                                 export_line "ABCDE;B;x"])
                   false 5))
  = (2%nat,
     [(0, Str "ABCD", Str "B1", Int 1, Int 2, Str "note", Flt 100, Day 19692);
      (1, NA, NA, NA, NA, NA, Flt 100, Day 19692)],
     Some "category").
Proof. vm_compute. reflexivity. Qed.

Lemma tabbed_text_runs :
  is_dataset (convert_fbl3n_data_opt tabbed_text false 2) = true
  /\ convert_fbl3n_data_opt tabbed_text true 2 = Raised.
Proof. split; vm_compute; reflexivity. Qed.

Lemma malformed_text_categories :
  dtypes (dataset_of (convert_fbl3n_data_opt malformed_text false 2)) !! "Condition"
  = Some (Category {[ LStr "ABCD"; LStr "ABCDE" ]})
  /\ dtypes (dataset_of (convert_fbl3n_data_opt malformed_text true 2)) !! "Condition"
    = Some (Category {[ LStr "ABCD" ]}).
Proof. split; vm_compute; reflexivity. Qed.

End ConversionFacts.

(* ===================================================================== *)
(** * The checkpoint store: saving, reading back and resuming *)
(* ===================================================================== *)

Module CheckpointFacts.
Import Py Recovery.

(** The rules of the closed examples: one country with two accounts. *)
Definition austria : rule := {|
  accounts := [66010010; 66010020];
  company_code := "1072";
  local_currency := "EUR";
  sales_organization_glob := "0001";
  sales_organization_loc := "0072";
  accountants := [("accountant@example.com", true)]
|}.

Definition rules_at : gmap string rule := <["Austria" := austria]> ∅.

(** The store of a first run for Austria. *)
Definition started : rec_state :=
  (initialize ["Austria"] rules_at {| _ent_states := None; rec_file := None |}).2.

(** Whether [save_state(country, key, val, acc)] finds what it assigns to:
    the states are initialized and hold the country and, for a save with an
    account, the key holds a dictionary. *)
Definition writable (country key : string) (acc : option string) (st : rec_state) : Prop :=
  exists states cs,
    _ent_states st = Some states /\ states !! country = Some cs
    /\ match acc with
       | None => True
       | Some _ => exists m, cs !! key = Some (PerAccount m)
       end.

Lemma save_state_ok (country key : string) (val : flag) (acc : option string)
    (st st' : rec_state) :
  save_state country key val acc st = (Ok tt, st') ->
  exists states cs cs',
    _ent_states st = Some states /\ states !! country = Some cs
    /\ st' = {| _ent_states := Some (<[country := cs']> states);
                rec_file := Some (<[country := cs']> states) |}
    /\ match acc with
       | None => cs' = <[key := Flag val]> cs
       | Some a => exists m, cs !! key = Some (PerAccount m)
                             /\ cs' = <[key := PerAccount (<[a := val]> m)]> cs
       end.
Proof.
  unfold save_state. intros H.
  destruct (_ent_states st) as [states|]; [|done].
  destruct (states !! country) as [cs|] eqn:Hc; [|done].
  destruct acc as [a|].
  - destruct (cs !! key) as [[f|m]|] eqn:Hk; try done.
    injection H as <-. eexists _, _, _. do 3 (split; [done|]). by eexists.
  - injection H as <-. by eexists _, _, _.
Qed.

(** X1. What was saved is what is read back, under the same country, key and
    account, and the file holds the states of the memory. *)
Theorem save_state_then_get_state (country key : string) (val : flag) (acc : option string)
    (st st' : rec_state) :
  save_state country key val acc st = (Ok tt, st') ->
  get_state country key acc st' = Ok (Flag val)
  /\ rec_file st' = _ent_states st'.
Proof.
  intros H. apply save_state_ok in H as (states & cs & cs' & _ & _ & -> & Hcs').
  split; [|done].
  unfold get_state, getitem. cbn [_ent_states]. rewrite lookup_insert_eq. simpl.
  destruct acc as [a|].
  - destruct Hcs' as (m & _ & ->). rewrite lookup_insert_eq. simpl.
    by rewrite lookup_insert_eq.
  - subst cs'. by rewrite lookup_insert_eq.
Qed.

Lemma save_state_then_get_state_witness :
  get_state "Austria" "fs10n_data_exported" (Some "66010020")
    (save_state "Austria" "fs10n_data_exported" (FStr "data_nonexist") (Some "66010020")
       started).2
  = Ok (Flag (FStr "data_nonexist")).
Proof.
  apply (save_state_then_get_state "Austria" "fs10n_data_exported" (FStr "data_nonexist")
           (Some "66010020") started).
  vm_compute. reflexivity.
Defined.

(** X2. A save leaves every other state as it was: the states of the other
    countries, those under the other keys of the country, and, for a save with
    an account, those of the other accounts under the key. *)
Theorem save_state_keeps_other_states (country key : string) (val : flag)
    (acc : option string) (st st' : rec_state) (country' key' : string) (acc' : option string) :
  save_state country key val acc st = (Ok tt, st') ->
  (country, key) <> (country', key')
  \/ (exists a a', acc = Some a /\ acc' = Some a' /\ a <> a') ->
  get_state country' key' acc' st' = get_state country' key' acc' st.
Proof.
  intros H Hother. apply save_state_ok in H as (states & cs & cs' & Hst & Hc & -> & Hcs').
  unfold get_state, getitem. rewrite Hst. cbn [_ent_states].
  destruct (decide (country' = country)) as [->|Hne]; [|by rewrite lookup_insert_ne].
  rewrite lookup_insert_eq, Hc. simpl.
  destruct (decide (key' = key)) as [->|Hk].
  - destruct Hother as [?|(a & a' & -> & -> & Ha)]; [done|].
    destruct Hcs' as (m & Hm & ->). rewrite lookup_insert_eq, Hm. simpl.
    by rewrite lookup_insert_ne.
  - assert (cs' !! key' = cs !! key') as ->; [|done].
    destruct acc as [a|].
    + destruct Hcs' as (m & _ & ->). by rewrite lookup_insert_ne.
    + subst cs'. by rewrite lookup_insert_ne.
Qed.

Lemma save_state_keeps_other_states_witness :
  get_state "Austria" "fs10n_data_exported" (Some "66010010")
    (save_state "Austria" "fs10n_data_exported" (FBool true) (Some "66010020") started).2
  = get_state "Austria" "fs10n_data_exported" (Some "66010010") started.
Proof.
  apply (save_state_keeps_other_states "Austria" "fs10n_data_exported" (FBool true)
           (Some "66010020") started).
  - vm_compute. reflexivity.
  - right. exists "66010020", "66010010". by repeat split.
Defined.

(** X3. A save succeeds exactly when it finds what it assigns to; a save without
    account needs the country only, so that it creates a key the states do
    not have. A save that raises leaves the states and the file as they were. *)
Theorem save_state_raises_without_change (country key : string) (val : flag)
    (acc : option string) (st : rec_state) :
  ((save_state country key val acc st).1 = Ok tt <-> writable country key acc st)
  /\ (~ writable country key acc st ->
      raises (save_state country key val acc st).1
      /\ (save_state country key val acc st).2 = st).
Proof.
  unfold writable, save_state, raises.
  destruct (_ent_states st) as [states|] eqn:Hst.
  2:{ split; [split; [done|by intros (? & ? & ? & _)]|]. intros _. split; [by eexists|done]. }
  destruct (states !! country) as [cs|] eqn:Hc.
  2:{ split; [split; [done|]|].
      - intros (? & ? & [= <-] & ? & _). congruence.
      - intros _. split; [by eexists|done]. }
  destruct acc as [a|].
  - destruct (cs !! key) as [[f|m]|] eqn:Hk; simpl.
    + split; [split; [done|]|].
      * intros (? & ? & [= <-] & ? & m & Hm). congruence.
      * intros _. split; [by eexists|done].
    + split; [split; [|done]|].
      * intros _. exists states, cs. do 2 (split; [done|]). by exists m.
      * intros Hn. destruct Hn. exists states, cs. do 2 (split; [done|]). by exists m.
    + split; [split; [done|]|].
      * intros (? & ? & [= <-] & ? & m & Hm). congruence.
      * intros _. split; [by eexists|done].
  - simpl. split; [split; [|done]|].
    + intros _. by exists states, cs.
    + intros Hn. destruct Hn. by exists states, cs.
Qed.

(** X4. A file that holds states is taken as it is: the countries and the rules
    of the run are not looked at, and a country of the run that the file does
    not know has no state to read. *)
Theorem initialize_resumes_from_file (countries : list string) (rules : gmap string rule)
    (mem : option states_doc) (doc : states_doc) :
  countries <> [] -> doc <> ∅ ->
  let resumed := {| _ent_states := Some doc; rec_file := Some doc |} in
  initialize countries rules {| _ent_states := mem; rec_file := Some doc |} = (Ok tt, resumed)
  /\ (forall c key acc, doc !! c = None -> get_state c key acc resumed = Raise KeyError)
  /\ (forall c cs key, doc !! c = Some cs -> get_state c key None resumed = getitem cs key).
Proof.
  intros Hc Hdoc resumed. split; [|split].
  - unfold initialize. destruct countries as [|c cs]; [done|]. cbn [rec_file].
    by rewrite bool_decide_eq_false_2.
  - intros c key acc Hnone. unfold get_state, getitem. cbn [_ent_states resumed].
    by rewrite Hnone.
  - intros c cs key Hsome. unfold get_state, getitem. cbn [_ent_states resumed].
    rewrite Hsome. simpl. by destruct (cs !! key).
Qed.

Lemma initialize_resumes_from_file_witness :
  initialize ["Austria"; "Germany"] ∅
    {| _ent_states := None; rec_file := Some (<["Austria" := default_states [66010010]]> ∅) |}
  = (Ok tt, {| _ent_states := Some (<["Austria" := default_states [66010010]]> ∅);
               rec_file := Some (<["Austria" := default_states [66010010]]> ∅) |}).
Proof.
  apply (initialize_resumes_from_file ["Austria"; "Germany"] ∅ None
           (<["Austria" := default_states [66010010]]> ∅)).
  - discriminate.
  - apply insert_non_empty.
Defined.

Lemma reset_loop_total (countries : list string) (rules : gmap string rule)
    (acc : states_doc) :
  Forall (fun c => is_Some (rules !! c)) countries ->
  exists doc, reset_loop countries rules acc = Ok doc.
Proof.
  intros Hall. revert acc. induction Hall as [|c cs [r Hr] _ IH]; intros acc.
  - by eexists.
  - cbn [reset_loop]. unfold getitem. rewrite Hr. apply IH.
Qed.

Lemma reset_loop_missing (countries : list string) (rules : gmap string rule)
    (acc : states_doc) :
  Exists (fun c => rules !! c = None) countries ->
  reset_loop countries rules acc = Raise KeyError.
Proof.
  intros Hex. revert acc. induction countries as [|c cs IH]; intros acc.
  - by apply Exists_nil in Hex.
  - cbn [reset_loop]. unfold getitem.
    destruct (rules !! c) as [r|] eqn:Hr; [|done]. simpl.
    apply Exists_cons in Hex as [Hex|Hex]; [congruence|by apply IH].
Qed.

(** X5. [reset_states] writes the defaults of all the countries or writes
    nothing: with rules for every country the file holds the defaults of
    exactly the countries given, and the states in memory are not touched;
    without a country it raises [ValueError], with a country that has no
    rules [KeyError], and the file stays as it was. *)
Theorem reset_states_all_or_nothing (countries : list string) (rules : gmap string rule)
    (st : rec_state) :
  (countries <> [] /\ Forall (fun c => is_Some (rules !! c)) countries ->
     exists doc,
       reset_states countries rules st
       = (Ok doc, {| _ent_states := _ent_states st; rec_file := Some doc |})
       /\ forall c, doc !! c =
            if bool_decide (c ∈ countries)
            then default_states <$> (accounts <$> rules !! c)
            else None)
  /\ (countries = [] -> reset_states countries rules st = (Raise ValueError, st))
  /\ (Exists (fun c => rules !! c = None) countries ->
      reset_states countries rules st = (Raise KeyError, st)).
Proof.
  split; [|split].
  - intros [Hne Hall]. destruct (reset_loop_total countries rules ∅ Hall) as [doc Hdoc].
    exists doc. split.
    + unfold reset_states. destruct countries; [done|]. by rewrite Hdoc.
    + intros c. rewrite (RecoveryFacts.reset_loop_spec _ _ _ _ Hdoc c).
      by rewrite lookup_empty.
  - by intros ->.
  - intros Hex. unfold reset_states.
    destruct countries as [|c cs]; [by apply Exists_nil in Hex|].
    by rewrite (reset_loop_missing _ _ _ Hex).
Qed.

End CheckpointFacts.

(* ===================================================================== *)
(** * The accumulator: other entries, clearing, the kinds *)
(* ===================================================================== *)

Module StoreFacts.
Import Py Processor AccumulatorFacts.

Section Facts.

Context {PyObj : Type}.
Variable obj_contains : PyObj -> acc_key -> result bool.
Variable obj_setitem : PyObj -> acc_key -> option PyObj -> result PyObj.
Variable obj_getitem : PyObj -> acc_key -> result PyObj.

Local Abbreviation store := (store_to_accum obj_contains obj_setitem).
Local Abbreviation fetch := (get_from_accum obj_getitem).
Local Abbreviation accum := (gmap string (gmap string (@slot PyObj))).

Lemma fetch_held (a a' : accum) (c k : string) (acc : option acc_key) :
  a !! k = None <-> a' !! k = None ->
  held a' c k = held a c k ->
  fetch c k acc a' = fetch c k acc a.
Proof.
  unfold held, get_from_accum, getitem. intros Hdom Hheld.
  destruct (bad_account acc); [done|].
  destruct (a !! k) as [bc|] eqn:Hk, (a' !! k) as [bc'|] eqn:Hk'; simpl in *.
  - by rewrite Hheld.
  - by pose proof (proj2 Hdom eq_refl).
  - by pose proof (proj1 Hdom eq_refl).
  - done.
Qed.

(** X6. A store changes what is held for its country under its kind and nothing
    else: a fetch for another country or another kind gives what it gave
    before, and so does a fetch for another account of the same country and
    kind, unless a stored object is what the accounts are kept in. *)
Theorem store_keeps_other_entries (d : option PyObj) (c k : string) (acc : option acc_key)
    (a a' : accum) :
  store d c k acc a = Ok a' ->
  (forall c' k' acc', (c, k) <> (c', k') -> fetch c' k' acc' a' = fetch c' k' acc' a)
  /\ (forall x y, acc = Some x -> y <> x ->
        (forall o, held a c k <> Some (Data (Some o))) ->
        fetch c k (Some y) a' = fetch c k (Some y) a).
Proof.
  intros H. apply store_ok_held in H as (Hb & bc & s' & Hk & -> & Hs). split.
  - intros c' k' acc' Hne. apply fetch_held.
    + destruct (decide (k = k')) as [<-|Hkk].
      * rewrite lookup_insert_eq, Hk. by split.
      * by rewrite lookup_insert_ne.
    + by apply held_assign_ne.
  - intros x y -> Hxy Hfree.
    unfold get_from_accum, getitem. destruct (bad_account (Some y)); [done|].
    rewrite lookup_insert_eq, Hk. simpl. rewrite lookup_insert_eq. simpl.
    unfold held in Hfree. rewrite Hk in Hfree. simpl in Hfree.
    destruct (bc !! c) as [[[o|]|m]|]; try done.
    + by destruct (Hfree o).
    + destruct Hs as [_ ->]. by rewrite lookup_insert_ne.
    + subst s'. simpl. by rewrite lookup_insert_ne, lookup_empty.
Qed.

(** X7. After [clear] nothing can be fetched, whatever was stored; the kinds
    are still there, so that a store under a kind the accumulator had
    succeeds again, for every country and valid account, and its data is
    fetched back. *)
Theorem clear_then_store_and_fetch (a : accum) (d : option PyObj) (c k : string)
    (acc : option acc_key) :
  raises (fetch c k acc (clear a))
  /\ (bad_account acc = false -> is_Some (a !! k) ->
        exists a', store d c k acc (clear a) = Ok a' /\ fetch c k acc a' = Ok (Fetched d)).
Proof.
  unfold raises, clear, store_to_accum, get_from_accum, getitem. split.
  - destruct (bad_account acc); [by eexists|].
    rewrite lookup_fmap. destruct (a !! k); simpl; [|by eexists].
    rewrite lookup_empty. by eexists.
  - intros -> [bc Hbc]. rewrite lookup_fmap, Hbc. simpl. rewrite lookup_empty.
    destruct acc as [x|]; eexists; (split; [done|]);
      rewrite lookup_insert_eq; simpl; rewrite lookup_insert_eq; simpl;
      by rewrite ?lookup_insert_eq.
Qed.

Lemma accum_kinds_initial (k : string) :
  is_Some ((_accum : accum) !! k) <-> k ∈ accum_kinds.
Proof.
  unfold _accum. rewrite <- elem_of_dom, dom_list_to_map_L, elem_of_list_to_set.
  by rewrite <- list_fmap_compose, list_fmap_id.
Qed.

Lemma store_step_kinds (a : accum) (call : store_call) (k : string) :
  is_Some (store_step obj_contains obj_setitem a call !! k) <-> is_Some (a !! k).
Proof.
  unfold store_step.
  destruct (store_to_accum _ _ _ _ _ _ a) as [a'|] eqn:Hst; [|done].
  apply store_ok_held in Hst as (_ & bc & s' & Hk & -> & _).
  destruct (decide (sc_key call = k)) as [<-|Hne].
  - rewrite lookup_insert_eq, Hk. by split.
  - by rewrite lookup_insert_ne.
Qed.

(** X8. The kinds of the accumulator are those it is created with, whatever is
    stored in the run: under another kind every store and every fetch with a
    valid account raises [KeyError]. *)
Theorem kinds_are_fixed (calls : list store_call) (k : string) :
  let a := run_stores obj_contains obj_setitem calls _accum in
  (is_Some (a !! k) <-> k ∈ accum_kinds)
  /\ (k ∉ accum_kinds -> forall d c acc, bad_account acc = false ->
        store d c k acc a = Raise KeyError /\ fetch c k acc a = Raise KeyError).
Proof.
  intros a.
  assert (is_Some (a !! k) <-> k ∈ accum_kinds) as Hkinds.
  { subst a. unfold run_stores. rewrite <- accum_kinds_initial.
    generalize (_accum : accum). induction calls as [|call calls IH]; intros a0; [done|].
    cbn [foldl]. rewrite IH. apply store_step_kinds. }
  split; [done|]. intros Hk d c acc Hb.
  assert (a !! k = None) as Hnone.
  { apply eq_None_not_Some. by rewrite Hkinds. }
  unfold store_to_accum, get_from_accum, getitem. by rewrite Hb, Hnone.
Qed.

End Facts.

(** The accumulator after the balances of one account of Austria are stored. *)
Definition stored_one : gmap string (gmap string (@slot (list acc_key))) :=
  run_stores labels_contains labels_setitem
    [ {| sc_data := Some []; sc_country := "Austria";
         sc_key := "fs10n_data"; sc_acc := Some (AccStr "66010010") |} ]
    _accum.

Lemma store_keeps_other_entries_witness :
  get_from_accum labels_getitem "Austria" "fs10n_data" (Some (AccStr "66010020")) stored_one
  = get_from_accum labels_getitem "Austria" "fs10n_data" (Some (AccStr "66010020")) _accum.
Proof.
  apply (proj2 (store_keeps_other_entries labels_contains labels_setitem labels_getitem
                  (Some []) "Austria" "fs10n_data" (Some (AccStr "66010010")) _accum
                  stored_one eq_refl)
           (AccStr "66010010") (AccStr "66010020") eq_refl).
  - discriminate.
  - intros o. vm_compute. discriminate.
Defined.

End StoreFacts.

(* ===================================================================== *)
(** * The export stages when the export fails, and where a rate comes from *)
(* ===================================================================== *)

Module StageFacts.
Import Py Recovery Processor Controller ExportFacts.

(** The stage flag of a country can be read and is not set. *)
Definition unset (st : rec_state) (cntry key : string) : Prop :=
  exists e, Recovery.get_state cntry key None st = Ok e /\ truthy e = false.

(** The per-account flag holds a value that counts as true. *)
Definition flagged (st : rec_state) (cntry key acc : string) : Prop :=
  exists f, Recovery.get_state cntry key (Some acc) st = Ok (Flag f) /\ flag_truthy f = true.

(** Where a flag of a country can be read, a flag of the country can be
    saved; it is read back, and the other states are as before. *)
Lemma save_flag (cntry key key' : string) (val : flag) (st : rec_state) (e : entry) :
  Recovery.get_state cntry key None st = Ok e ->
  exists st',
    Recovery.save_state cntry key' val None st = (Ok tt, st')
    /\ Recovery.get_state cntry key' None st' = Ok (Flag val)
    /\ (forall c k a, (c, k) <> (cntry, key') ->
          Recovery.get_state c k a st' = Recovery.get_state c k a st).
Proof.
  unfold Recovery.get_state, Recovery.save_state, getitem. intros H.
  destruct (_ent_states st) as [states|]; [|done].
  destruct (states !! cntry) as [cs|] eqn:Hc; [|done].
  eexists. split; [done|]. cbn [_ent_states]. split.
  - rewrite lookup_insert_eq. simpl. by rewrite lookup_insert_eq.
  - intros c k a Hne. destruct (decide (c = cntry)) as [->|Hcc].
    + rewrite lookup_insert_eq, Hc. simpl. rewrite lookup_insert_ne; [done|]. congruence.
    + by rewrite lookup_insert_ne.
Qed.

(** A save of a value that counts as true, with an account, keeps the
    accounts flagged that were. *)
Lemma save_keeps_flagged (cntry key acc : string) (val : flag) (st : rec_state)
    (c k a : string) :
  flag_truthy val = true ->
  flagged st c k a ->
  flagged (Recovery.save_state cntry key val (Some acc) st).2 c k a.
Proof.
  intros Hval (f & Hf & Ht).
  destruct (Recovery.save_state cntry key val (Some acc) st) as [[[]|e] st'] eqn:Hsave.
  2:{ unfold Recovery.save_state in Hsave. simpl.
      repeat case_match; simplify_eq; by exists f. }
  simpl. apply CheckpointFacts.save_state_ok in Hsave
    as (states & cs & cs' & Hst & Hc & -> & m & Hm & ->).
  unfold flagged, Recovery.get_state, getitem in *. rewrite Hst in Hf. cbn [_ent_states].
  destruct (decide (c = cntry)) as [->|Hcc]; [|rewrite lookup_insert_ne by done; eauto].
  rewrite lookup_insert_eq. rewrite Hc in Hf. simpl in *.
  destruct (decide (k = key)) as [->|Hkk]; [|rewrite lookup_insert_ne by done; eauto].
  rewrite lookup_insert_eq. rewrite Hm in Hf. simpl in *.
  destruct (decide (a = acc)) as [->|Haa].
  - rewrite lookup_insert_eq. simpl. eauto.
  - rewrite lookup_insert_ne by done. eauto.
Qed.

(** What is saved with an account is flagged, where the flag could be read. *)
Lemma save_flags_account (cntry key acc : string) (val : flag) (st : rec_state) (e : entry) :
  flag_truthy val = true ->
  Recovery.get_state cntry key (Some acc) st = Ok e ->
  exists st', Recovery.save_state cntry key val (Some acc) st = (Ok tt, st')
              /\ flagged st' cntry key acc.
Proof.
  intros Hval. unfold flagged, Recovery.get_state, Recovery.save_state, getitem. intros H.
  destruct (_ent_states st) as [states|]; [|done].
  destruct (states !! cntry) as [cs|] eqn:Hc; [|done]. simpl in H.
  destruct (cs !! key) as [[f|m]|] eqn:Hk; try done.
  eexists. split; [done|]. exists val. split; [|done]. cbn [_ent_states].
  rewrite lookup_insert_eq. simpl. rewrite lookup_insert_eq. simpl.
  by rewrite lookup_insert_eq.
Qed.

Section Facts.

Context {PyObj : Type}.
Variable obj_getitem : PyObj -> acc_key -> result PyObj.
Variable agreements_of : PyObj -> result (list Z).
Variable sap : list sap_call -> sap_call -> result unit.
Variable portal : Z -> Z -> result (option float).
Variable date_fmt : Z -> string.
Variable rules : gmap string rule.

Local Abbreviation world := (@world PyObj).

(** The world after the calls to the export collaborator, with the given
    checkpoint store. *)
Definition logged (w : world) (calls : list sap_call) (st : rec_state) : world :=
  {| rec := st; accum := accum w; sap_log := sap_log w ++ calls |}.

(** X9. The SE16 KOTE stage with its flag not set: the table is exported between
    the start and the close of the transaction, which is closed whatever the
    export does. When the export raises, the stage returns [False] and the
    checkpoint store is as it was, so that the next run exports again; when
    it does not, the stage returns [True] with the flag recorded. *)
Theorem se16_kote_stage_outcomes (cntry : string) (r : rule) (w : world) :
  rules !! cntry = Some r ->
  unset (rec w) cntry "se16_kote_data_exported" ->
  sap (sap_log w) (Start SE16) = Ok tt ->
  sap (sap_log w ++ [Start SE16; Export SE16 "KOTE"]) (Close SE16) = Ok tt ->
  let calls := [Start SE16; Export SE16 "KOTE"; Close SE16] in
  match sap (sap_log w ++ [Start SE16]) (Export SE16 "KOTE") with
  | Raise _ => export_se16_kote_data sap rules cntry w = (Ok false, logged w calls (rec w))
  | Ok _ =>
      exists st', export_se16_kote_data sap rules cntry w = (Ok true, logged w calls st')
                  /\ complete st' cntry "se16_kote_data_exported"
  end.
Proof.
  intros Hr (e & He & Hfalse) Hstart Hclose calls.
  unfold export_se16_kote_data, getitem. m_unfold. rewrite Hr. cbn [rec].
  rewrite He, Hfalse, Hstart. cbn [rec accum sap_log].
  destruct (sap (sap_log w ++ [Start SE16]) (Export SE16 "KOTE")) as [[]|exc].
  - destruct (save_flag cntry _ "se16_kote_data_exported" (FBool true) (rec w) e He)
      as (st' & Hsave & Hget & _).
    exists st'. split; [|done]. cbn [rec accum sap_log].
    rewrite Hsave. cbn [rec accum sap_log]. rewrite <- !app_assoc. cbn [app].
    by rewrite Hclose.
  - cbn [rec accum sap_log]. rewrite <- !app_assoc. cbn [app].
    by rewrite Hclose.
Qed.

(** X10. The ZSD25 local stage returns [True] whatever the export does: when the
    export raises, the stage still reports success, with the transaction
    closed and the flag not recorded. *)
Theorem zsd25_local_stage_reports_success (cntry : string) (r : rule) (w : world) :
  rules !! cntry = Some r ->
  unset (rec w) cntry "zsd25_loc_data_exported" ->
  sap (sap_log w) (Start ZSD25) = Ok tt ->
  sap (sap_log w ++ [Start ZSD25; Export ZSD25 (sales_organization_loc r)]) (Close ZSD25)
    = Ok tt ->
  let calls := [Start ZSD25; Export ZSD25 (sales_organization_loc r); Close ZSD25] in
  (export_zsd25_local_data sap rules cntry w).1 = Ok true
  /\ match sap (sap_log w ++ [Start ZSD25]) (Export ZSD25 (sales_organization_loc r)) with
     | Raise _ => (export_zsd25_local_data sap rules cntry w).2 = logged w calls (rec w)
     | Ok _ =>
         exists st', (export_zsd25_local_data sap rules cntry w).2 = logged w calls st'
                     /\ complete st' cntry "zsd25_loc_data_exported"
     end.
Proof.
  intros Hr (e & He & Hfalse) Hstart Hclose calls.
  unfold export_zsd25_local_data, getitem. m_unfold. rewrite Hr. cbn [rec].
  rewrite He, Hfalse, Hstart. cbn [rec accum sap_log].
  destruct (sap (sap_log w ++ [Start ZSD25]) _) as [[]|exc].
  - destruct (save_flag cntry _ "zsd25_loc_data_exported" (FBool true) (rec w) e He)
      as (st' & Hsave & Hget & _).
    cbn [rec accum sap_log]. rewrite Hsave. cbn [rec accum sap_log].
    rewrite <- !app_assoc. cbn [app]. rewrite Hclose. split; [done|]. by exists st'.
  - cbn [rec accum sap_log]. rewrite <- !app_assoc. cbn [app].
    by rewrite Hclose.
Qed.

(** X11. A search of the KONA table without result counts as success: the SE16
    KONA stage returns [True] and records that there is no KONA data, not
    that the data is exported. The head-quarter ZSD25 stage that follows
    then returns [True] at once, with no call to the export collaborator. *)
Theorem no_kona_data_skips_global_export (cntry : string) (r : rule) (w : world)
    (kote : PyObj) (nums : list Z) :
  rules !! cntry = Some r ->
  Processor.get_from_accum obj_getitem cntry "kote_data" None (accum w)
    = Ok (Fetched (Some kote)) ->
  agreements_of kote = Ok nums ->
  unset (rec w) cntry "se16_kona_data_exported" ->
  sap (sap_log w) (Start SE16) = Ok tt ->
  sap (sap_log w ++ [Start SE16]) (Export SE16 "KONA") = Raise NoDataFoundWarning ->
  sap (sap_log w ++ [Start SE16; Export SE16 "KONA"]) (Close SE16) = Ok tt ->
  exists st',
    let w' := logged w [Start SE16; Export SE16 "KONA"; Close SE16] st' in
    export_se16_kona_data obj_getitem agreements_of sap rules cntry w = (Ok true, w')
    /\ complete st' cntry "se16_no_kona_data"
    /\ unset st' cntry "se16_kona_data_exported"
    /\ export_zsd25_global_data obj_getitem agreements_of sap rules cntry w' = (Ok true, w').
Proof.
  intros Hr Hkote Hnums (e & He & Hfalse) Hstart Hexport Hclose.
  destruct (save_flag cntry _ "se16_no_kona_data" (FBool true) (rec w) e He)
    as (st' & Hsave & Hget & Hother).
  exists st'. cbv zeta. split; [|split; [done|split]].
  - unfold export_se16_kona_data, getitem. m_unfold. rewrite Hr. cbn [rec accum].
    rewrite Hkote. cbn [get_se16_agreements rec accum]. rewrite Hnums, He, Hfalse, Hstart.
    cbn [rec accum sap_log]. rewrite Hexport. cbn [rec accum sap_log].
    rewrite Hsave. cbn [rec accum sap_log]. rewrite <- !app_assoc. cbn [app].
    by rewrite Hclose.
  - exists e. split; [|done]. rewrite Hother; [done|]. by intros [= ?].
  - unfold export_zsd25_global_data, getitem. m_unfold. rewrite Hr. cbn [rec logged].
    by rewrite Hget.
Qed.

Lemma fbl3n_retry_gives_up (cocd : string) (fuel nth : nat) (w : world) :
  (forall log, sap log (Export FBL3N cocd) = Raise SapRuntimeError) ->
  fbl3n_retry sap fuel nth cocd w
  = (Ok (nth + fuel)%nat, logged w (replicate fuel (Export FBL3N cocd)) (rec w)).
Proof.
  intros Hfail. revert nth w. induction fuel as [|fuel IH]; intros nth w.
  - cbn [fbl3n_retry replicate]. unfold mret, M_ret, logged.
    rewrite Nat.add_0_r, app_nil_r. by destruct w.
  - cbn [fbl3n_retry replicate]. m_unfold. rewrite Hfail. rewrite IH.
    unfold logged. cbn [rec accum sap_log]. rewrite <- app_assoc. cbn [app].
    do 2 f_equal. lia.
Qed.

(** X12. When every export from FBL3N ends in [SapRuntimeError], the stage exports
    four times, the first attempt and three more, closes the transaction and
    returns [False]; the checkpoint store is as it was. *)
Theorem fbl3n_stage_gives_up (cntry : string) (r : rule) (w : world) :
  rules !! cntry = Some r ->
  unset (rec w) cntry "fbl3n_data_exported" ->
  (forall log, sap log (Start FBL3N) = Ok tt) ->
  (forall log, sap log (Export FBL3N (company_code r)) = Raise SapRuntimeError) ->
  (forall log, sap log (Close FBL3N) = Ok tt) ->
  export_fbl3n_data sap rules cntry w
  = (Ok false,
     logged w (Start FBL3N :: replicate 4 (Export FBL3N (company_code r)) ++ [Close FBL3N])
       (rec w)).
Proof.
  intros Hr (e & He & Hfalse) Hstart Hexport Hclose.
  unfold export_fbl3n_data, getitem.
  unfold mbind at 1, M_bind at 1, Controller.get_state. rewrite He, Hfalse.
  unfold mbind at 1, M_bind at 1, lift. rewrite Hr.
  unfold mbind at 1, M_bind at 1, sap_do at 1. rewrite Hstart.
  unfold mbind at 1, M_bind at 1, finally.
  unfold mbind at 1, M_bind at 1, try, sap_do at 1. cbn [sap_log]. rewrite Hexport.
  rewrite (fbl3n_retry_gives_up _ _ _ _ Hexport).
  unfold sap_do, logged. cbn [rec accum sap_log]. rewrite Hclose.
  cbn [Nat.add Nat.ltb Nat.leb]. unfold mret, M_ret.
  do 2 f_equal. rewrite <- !app_assoc. reflexivity.
Qed.

(** X13. An export from FBL3N that raises anything but [SapRuntimeError], the
    warning of a search without result included, is taken as done: the stage
    closes the transaction, records the data as exported and returns [True]. *)
Theorem fbl3n_stage_records_failed_export (cntry : string) (r : rule) (w : world) (exc : exn) :
  rules !! cntry = Some r ->
  unset (rec w) cntry "fbl3n_data_exported" ->
  sap (sap_log w) (Start FBL3N) = Ok tt ->
  sap (sap_log w ++ [Start FBL3N]) (Export FBL3N (company_code r)) = Raise exc ->
  exc <> SapRuntimeError ->
  sap (sap_log w ++ [Start FBL3N; Export FBL3N (company_code r)]) (Close FBL3N) = Ok tt ->
  exists st',
    export_fbl3n_data sap rules cntry w
    = (Ok true,
       logged w [Start FBL3N; Export FBL3N (company_code r); Close FBL3N] st')
    /\ complete st' cntry "fbl3n_data_exported".
Proof.
  intros Hr (e & He & Hfalse) Hstart Hexport Hexc Hclose.
  destruct (save_flag cntry _ "fbl3n_data_exported" (FBool true) (rec w) e He)
    as (st' & Hsave & Hget & _).
  exists st'. split; [|done].
  unfold export_fbl3n_data, getitem. m_unfold. cbn [rec].
  rewrite He, Hfalse, Hr, Hstart. cbn [rec accum sap_log]. rewrite Hexport.
  destruct exc; try done; cbn [rec accum sap_log];
    rewrite <- !app_assoc; cbn [app]; rewrite Hclose; cbn [Nat.ltb Nat.leb rec accum sap_log];
    by rewrite Hsave.
Qed.

(** The loop over the accounts only sets flags, to values that count as
    true: an account that is flagged stays flagged. *)
Lemma fs10n_loop_keeps_flagged (cntry : string) (accs : list string) (w : world)
    (c k a : string) :
  flagged (rec w) c k a ->
  flagged (rec (fs10n_loop sap cntry accs w).2) c k a.
Proof.
  revert w. induction accs as [|acc accs IH]; intros w Hf; [done|].
  cbn [fs10n_loop]. m_unfold.
  destruct (Recovery.get_state cntry "fs10n_data_exported" (Some acc) (rec w)) as [st|]; [|done].
  case_bool_decide; [by apply IH|].
  destruct (truthy st); [by apply IH|]. cbn [rec accum sap_log].
  destruct (sap _ (Export FS10N acc)) as [[]|exc].
  - pose proof (save_keeps_flagged cntry "fs10n_data_exported" acc (FBool true) (rec w)
                  c k a eq_refl Hf) as Hkept.
    cbn [rec accum sap_log].
    destruct (Recovery.save_state _ _ (FBool true) _ _) as [[[]|] st']; [|done].
    by apply IH.
  - assert (flagged (rec (let (r0, w') :=
                let (r, st0) := Recovery.save_state cntry "fs10n_data_exported"
                                  (FStr "data_nonexist") (Some acc) (rec w) in
                (r, {| rec := st0; accum := accum w;
                       sap_log := sap_log w ++ [Export FS10N acc] |}) in
              match r0 with
              | Ok _ => fs10n_loop sap cntry accs w'
              | Raise e => (Raise e, w')
              end).2) c k a) as Hnodata.
    { pose proof (save_keeps_flagged cntry "fs10n_data_exported" acc (FStr "data_nonexist")
                    (rec w) c k a eq_refl Hf) as Hkept.
      destruct (Recovery.save_state _ _ (FStr "data_nonexist") _ _) as [[[]|] st']; [|done].
      by apply IH. }
    destruct exc; cbn [rec accum sap_log]; try exact Hnodata;
      by destruct (sap _ (Close FS10N)) as [[]|].
Qed.

Lemma fs10n_loop_flags (cntry : string) (accs : list string) (w w' : world) :
  fs10n_loop sap cntry accs w = (Ok true, w') ->
  Forall (flagged (rec w') cntry "fs10n_data_exported") accs.
Proof.
  revert w. induction accs as [|acc accs IH]; intros w Hrun; [done|].
  cbn [fs10n_loop] in Hrun. revert Hrun. m_unfold.
  destruct (Recovery.get_state cntry "fs10n_data_exported" (Some acc) (rec w))
    as [st|] eqn:Hst; [|done].
  assert (forall w1, flagged (rec w1) cntry "fs10n_data_exported" acc ->
            fs10n_loop sap cntry accs w1 = (Ok true, w') ->
            Forall (flagged (rec w') cntry "fs10n_data_exported") (acc :: accs)) as Hrest.
  { intros w1 Hf Hrun. constructor; [|by eapply IH].
    pose proof (fs10n_loop_keeps_flagged cntry accs w1 _ _ _ Hf) as Hkept.
    by rewrite Hrun in Hkept. }
  assert (exists f, st = Flag f) as [f ->].
  { clear -Hst. unfold Recovery.get_state, getitem in Hst.
    destruct (_ent_states (rec w)) as [states|]; [|done].
    destruct (states !! cntry) as [cs|]; [|done]. simpl in Hst.
    destruct (cs !! "fs10n_data_exported") as [[g|m]|]; try done. simpl in Hst.
    destruct (m !! acc) as [g|]; [|done]. simpl in Hst. injection Hst as <-. by eexists. }
  case_bool_decide as Hnone.
  { apply Hrest. exists f. split; [done|]. by simplify_eq. }
  destruct (truthy (Flag f)) eqn:Ht.
  { apply Hrest. by exists f. }
  cbn [rec accum sap_log].
  destruct (sap _ (Export FS10N acc)) as [[]|exc]; cbn [rec accum sap_log].
  - destruct (save_flags_account cntry "fs10n_data_exported" acc (FBool true) (rec w) _
                eq_refl Hst) as (st' & -> & Hf).
    by apply Hrest.
  - assert ((let (r0, w'0) :=
               let (r, st0) := Recovery.save_state cntry "fs10n_data_exported"
                                 (FStr "data_nonexist") (Some acc) (rec w) in
               (r, {| rec := st0; accum := accum w;
                      sap_log := sap_log w ++ [Export FS10N acc] |}) in
             match r0 with
             | Ok _ => fs10n_loop sap cntry accs w'0
             | Raise e => (Raise e, w'0)
             end) = (Ok true, w') ->
            Forall (flagged (rec w') cntry "fs10n_data_exported") (acc :: accs)) as Hnodata.
    { destruct (save_flags_account cntry "fs10n_data_exported" acc (FStr "data_nonexist")
                  (rec w) _ eq_refl Hst) as (st' & -> & Hf).
      by apply Hrest. }
    destruct exc; try exact Hnodata; by destruct (sap _ (Close FS10N)) as [[]|].
Qed.

(** X14. When the FS10N stage returns [True], the flag of every account of the
    country holds a value that counts as true: each account was exported in
    this run or an earlier one, or its search gave no result. *)
Theorem fs10n_success_flags_every_account (cntry : string) (r : rule) (w w' : world) :
  rules !! cntry = Some r ->
  export_fs10n_data sap rules cntry w = (Ok true, w') ->
  Forall (flagged (rec w') cntry "fs10n_data_exported") (str <$> accounts r).
Proof.
  intros Hr. unfold export_fs10n_data, getitem. rewrite Hr.
  unfold mbind at 1, M_bind at 1, lift.
  unfold mbind at 1, M_bind at 1, sap_do at 1.
  destruct (sap (sap_log w) (Start FS10N)) as [[]|]; [|done].
  unfold mbind at 1, M_bind at 1.
  destruct (fs10n_loop _ _ _ _) as [[[]|] w1] eqn:Hloop; try done.
  apply fs10n_loop_flags in Hloop. m_unfold.
  destruct (sap (sap_log w1) (Close FS10N)) as [[]|]; [|done].
  intros [= <-]. exact Hloop.
Qed.

Lemma fx_walk_back_found (fuel : nat) (d p prev : Z) (rate : float) (day : Z) :
  1 <= p ->
  fx_walk_back portal fuel d p prev = Ok (Walked (Some rate) day) ->
  d - MAX_PAST_DAYS <= day <= d - p
  /\ (portal day 15 = Ok (Some rate)
      \/ (portal day 15 = Raise TimeoutError /\ portal d 60 = Ok (Some rate))).
Proof.
  revert p prev. induction fuel as [|fuel IH]; intros p prev Hp; [done|].
  cbn [fx_walk_back]. destruct (p <=? MAX_PAST_DAYS) eqn:Hle; [|done]. cbn [negb].
  apply Z.leb_le in Hle.
  assert (forall q, p + 1 <= q ->
            fx_walk_back portal fuel d q (d - p) = Ok (Walked (Some rate) day) ->
            d - MAX_PAST_DAYS <= day <= d - p
            /\ (portal day 15 = Ok (Some rate)
                \/ (portal day 15 = Raise TimeoutError /\ portal d 60 = Ok (Some rate))))
    as Hnext.
  { intros q Hq Hrun. destruct (IH q (d - p) ltac:(lia) Hrun) as [? ?]. split; [lia|done]. }
  destruct (portal (d - p) 15) as [[rate'|]|exc] eqn:Hportal.
  - intros [= <- <-]. split; [lia|by left].
  - apply Hnext. lia.
  - destruct exc; try done; try (apply Hnext; lia).
    destruct (portal d 60) as [[rate'|]|exc] eqn:Hagain; simpl; try done.
    + intros [= <- <-]. split; [lia|by right].
    + apply Hnext. lia.
Qed.

Lemma fx_first_rate (params : option user_params) (d : Z) (rate : float) :
  fx_first portal params d = Ok (Some (Some rate)) ->
  params ≫= up_fx_rate = Some (Some rate)
  \/ (params ≫= up_fx_rate = None
      /\ (portal d 15 = Ok (Some rate)
          \/ (portal d 15 = Raise TimeoutError /\ portal d 60 = Ok (Some rate)))).
Proof.
  unfold fx_first. intros Hfirst.
  destruct (params ≫= up_fx_rate) as [[rate0|]|]; [left; congruence|done|].
  right. split; [done|].
  destruct (portal d 15) as [[rate0|]|exc] eqn:Hp; [left; congruence|done|].
  destruct exc; try done.
  destruct (portal d 60) as [[rate0|]|exc] eqn:Hq; simpl in Hfirst; try done.
  right. split; [done|congruence].
Qed.

(** X15. Where the rate of a reconciliation comes from. It is the rate of the
    trigger mail, or the rate of the portal for the conversion date, and then
    no message is recorded; or, on a day that is not the day after period
    end, a rate the portal gave in the walk back, for one of the five days
    before the conversion date, and then the warning that names that day is
    recorded. After a timeout the rate is the one the portal gives for the
    conversion date when it is asked again with the longer timeout. *)
Theorem reconcile_rate_origin (cntry : string) (params : option user_params)
    (fx_rate_date recon_date : Z) (recon_time : string) (is_uplusone : bool)
    (w w' : world) (rate : float) :
  reconcile_fx portal date_fmt cntry params fx_rate_date recon_date recon_time is_uplusone w
    = (Ok (FxRate rate), w') ->
  (w' = w
   /\ (params ≫= up_fx_rate = Some (Some rate)
       \/ (params ≫= up_fx_rate = None
           /\ (portal fx_rate_date 15 = Ok (Some rate)
               \/ (portal fx_rate_date 15 = Raise TimeoutError
                   /\ portal fx_rate_date 60 = Ok (Some rate))))))
  \/ (is_uplusone = false
      /\ exists day,
           fx_rate_date - 5 <= day <= fx_rate_date - 1
           /\ (portal day 15 = Ok (Some rate)
               \/ (portal day 15 = Raise TimeoutError
                   /\ portal fx_rate_date 60 = Ok (Some rate)))
           /\ exists st',
                Recovery.save_state cntry "user_warning"
                  (FStr (prior_rate_msg (date_fmt recon_date) recon_time (date_fmt day)))
                  None (rec w) = (Ok tt, st')
                /\ w' = logged w [] st').
Proof.
  unfold reconcile_fx. m_unfold.
  destruct (fx_first portal params fx_rate_date) as [[[rate'|]|]|exc] eqn:Hfirst;
    cbn [fst snd]; try done.
  - intros [= <- <-]. left. split; [done|]. exact (fx_first_rate _ _ _ Hfirst).
  - destruct is_uplusone; cbn [negb].
    { destruct (Recovery.save_state _ _ _ _ _) as [[[]|] st']; done. }
    destruct (fx_walk_back _ _ _ _ _) as [[[rate'|] day|]|exc] eqn:Hwalk; try done.
    + destruct (Recovery.save_state _ _ _ _ _) as [[[]|] st'] eqn:Hsave; [|done].
      intros [= <- <-]. right. split; [done|]. exists day.
      destruct (fx_walk_back_found _ _ 1 _ _ _ ltac:(lia) Hwalk) as [Hday Hrate].
      unfold MAX_PAST_DAYS in Hday. split; [lia|]. split; [done|].
      exists st'. split; [done|]. unfold logged. by rewrite app_nil_r.
    + destruct (Recovery.save_state _ _ _ _ _) as [[[]|] st']; done.
Qed.

End Facts.

(** ** Closed runs: Austria, two reconciled accounts *)

(** The world of a first run, with the KOTE data of Austria stored. *)
Definition austria_run : @world (list acc_key) :=
  {| rec := CheckpointFacts.started;
     accum := <["kote_data" := <["Austria" := Data (Some [])]> ∅]> _accum;
     sap_log := [] |}.

(** An export collaborator whose exports raise the given exception. *)
Definition sap_failing (exc : exn) (log : list sap_call) (c : sap_call) : result unit :=
  match c with
  | Export _ _ => Raise exc
  | _ => Ok tt
  end.

Definition sap_working (log : list sap_call) (c : sap_call) : result unit := Ok tt.

Definition no_agreement (o : list acc_key) : result (list Z) := Ok [].

(** A portal whose only rate is the one of the day before the day 19662. *)
Definition portal_yesterday (valid_on resp_timeout : Z) : result (option float) :=
  if valid_on =? 19661 then Ok (Some 1.05%float) else Raise ResponseError.

Lemma first_run_unset (key : string) :
  key ∈ ["se16_kote_data_exported"; "se16_kona_data_exported"; "zsd25_loc_data_exported";
         "fbl3n_data_exported"] ->
  unset (rec austria_run) "Austria" key.
Proof.
  intros Hkey. exists (Flag (FBool false)).
  repeat (apply elem_of_cons in Hkey as [->|Hkey]; [by vm_compute|]).
  by apply elem_of_nil in Hkey.
Qed.

Lemma se16_kote_stage_outcomes_witness :
  export_se16_kote_data (sap_failing Exception) CheckpointFacts.rules_at "Austria" austria_run
  = (Ok false,
     logged austria_run [Start SE16; Export SE16 "KOTE"; Close SE16] (rec austria_run)).
Proof.
  apply (se16_kote_stage_outcomes (sap_failing Exception) CheckpointFacts.rules_at
           "Austria" CheckpointFacts.austria austria_run).
  - reflexivity.
  - apply first_run_unset. apply list_elem_of_here.
  - reflexivity.
  - reflexivity.
Defined.

Lemma zsd25_local_stage_reports_success_witness :
  (export_zsd25_local_data (sap_failing Exception) CheckpointFacts.rules_at "Austria"
     austria_run).1 = Ok true.
Proof.
  apply (zsd25_local_stage_reports_success (sap_failing Exception) CheckpointFacts.rules_at
           "Austria" CheckpointFacts.austria austria_run).
  - reflexivity.
  - apply first_run_unset. do 2 apply list_elem_of_further. apply list_elem_of_here.
  - reflexivity.
  - reflexivity.
Defined.

Lemma no_kona_data_skips_global_export_witness :
  exists st',
    let w' := logged austria_run [Start SE16; Export SE16 "KONA"; Close SE16] st' in
    export_se16_kona_data AccumulatorFacts.labels_getitem no_agreement
      (sap_failing NoDataFoundWarning) CheckpointFacts.rules_at "Austria" austria_run
    = (Ok true, w')
    /\ complete st' "Austria" "se16_no_kona_data"
    /\ unset st' "Austria" "se16_kona_data_exported"
    /\ export_zsd25_global_data AccumulatorFacts.labels_getitem no_agreement
         (sap_failing NoDataFoundWarning) CheckpointFacts.rules_at "Austria" w'
       = (Ok true, w').
Proof.
  apply (no_kona_data_skips_global_export AccumulatorFacts.labels_getitem no_agreement
           (sap_failing NoDataFoundWarning) CheckpointFacts.rules_at
           "Austria" CheckpointFacts.austria austria_run [] []).
  - reflexivity.
  - reflexivity.
  - reflexivity.
  - apply first_run_unset. apply list_elem_of_further, list_elem_of_here.
  - reflexivity.
  - reflexivity.
  - reflexivity.
Defined.

Lemma fbl3n_stage_gives_up_witness :
  export_fbl3n_data (sap_failing SapRuntimeError) CheckpointFacts.rules_at "Austria" austria_run
  = (Ok false,
     logged austria_run
       [Start FBL3N; Export FBL3N "1072"; Export FBL3N "1072"; Export FBL3N "1072";
        Export FBL3N "1072"; Close FBL3N]
       (rec austria_run)).
Proof.
  apply (fbl3n_stage_gives_up (sap_failing SapRuntimeError) CheckpointFacts.rules_at
           "Austria" CheckpointFacts.austria austria_run).
  - reflexivity.
  - apply first_run_unset. do 3 apply list_elem_of_further. apply list_elem_of_here.
  - reflexivity.
  - reflexivity.
  - reflexivity.
Defined.

Lemma fbl3n_stage_records_failed_export_witness :
  exists st',
    export_fbl3n_data (sap_failing NoDataFoundWarning) CheckpointFacts.rules_at "Austria"
      austria_run
    = (Ok true, logged austria_run [Start FBL3N; Export FBL3N "1072"; Close FBL3N] st')
    /\ complete st' "Austria" "fbl3n_data_exported".
Proof.
  apply (fbl3n_stage_records_failed_export (sap_failing NoDataFoundWarning)
           CheckpointFacts.rules_at "Austria" CheckpointFacts.austria austria_run
           NoDataFoundWarning).
  - reflexivity.
  - apply first_run_unset. do 3 apply list_elem_of_further. apply list_elem_of_here.
  - reflexivity.
  - reflexivity.
  - discriminate.
  - reflexivity.
Defined.

Lemma fs10n_success_flags_every_account_witness :
  Forall (flagged (rec (export_fs10n_data (sap_failing NoDataFoundWarning)
                          CheckpointFacts.rules_at "Austria" austria_run).2)
            "Austria" "fs10n_data_exported")
    ["66010010"; "66010020"].
Proof.
  apply (fs10n_success_flags_every_account (sap_failing NoDataFoundWarning)
           CheckpointFacts.rules_at "Austria" CheckpointFacts.austria austria_run).
  - reflexivity.
  - vm_compute. reflexivity.
Defined.

Lemma reconcile_rate_origin_witness :
  exists day,
    19662 - 5 <= day <= 19662 - 1
    /\ (portal_yesterday day 15 = Ok (Some 1.05%float)
        \/ (portal_yesterday day 15 = Raise TimeoutError
            /\ portal_yesterday 19662 60 = Ok (Some 1.05%float))).
Proof.
  destruct (reconcile_rate_origin portal_yesterday pretty "Austria" None 19662 19662
              "09:00:00 AM" false austria_run
              (reconcile_fx portal_yesterday pretty "Austria" None 19662 19662
                 "09:00:00 AM" false austria_run).2
              1.05%float)
    as [[_ [Huser|[_ [Hday|[Htimeout _]]]]]|[_ (day & Hday & Hrate & _)]].
  - vm_compute. reflexivity.
  - discriminate Huser.
  - discriminate Hday.
  - discriminate Htimeout.
  - by exists day.
Defined.

End StageFacts.

(* ===================================================================== *)
(** * The bonus calculation: one row per agreement, differences, flag order *)
(* ===================================================================== *)

Module BonusFacts.
Import Py Processor CalculationFacts.

(** ** The first row of every agreement *)

Lemma drop_duplicates_agreements (seen : list Z) (rows : list Zsd25.row) :
  Zsd25.Agreement <$> drop_duplicates seen rows = unique seen (Zsd25.Agreement <$> rows).
Proof.
  revert seen. induction rows as [|r rows IH]; intros seen; [done|].
  cbn [drop_duplicates fmap list_fmap unique]. case_bool_decide; [apply IH|].
  rewrite fmap_cons. f_equal. apply IH.
Qed.

Lemma unique_NoDup (seen l : list Z) : NoDup (unique seen l).
Proof.
  revert seen. induction l as [|x l IH]; intros seen; [constructor|].
  cbn [unique]. case_bool_decide; [apply IH|].
  constructor; [|apply IH].
  rewrite unique_elem. intros [_ Hx]. apply Hx. by left.
Qed.

Lemma drop_duplicates_first (seen : list Z) (rows : list Zsd25.row) (r : Zsd25.row) :
  r ∈ drop_duplicates seen rows ->
  exists before after,
    rows = (before ++ r :: after)%list
    /\ (Zsd25.Agreement r ∉ seen)
    /\ Zsd25.Agreement r ∉ (Zsd25.Agreement <$> before).
Proof.
  revert seen. induction rows as [|x rows IH]; intros seen Hr.
  - by apply elem_of_nil in Hr.
  - cbn [drop_duplicates] in Hr. case_bool_decide as Hseen.
    + destruct (IH _ Hr) as (before & after & -> & Hns & Hnb).
      exists (x :: before), after. split; [done|]. split; [done|].
      rewrite fmap_cons. intros [Heq|?]%elem_of_cons; [|done]. congruence.
    + apply elem_of_cons in Hr as [->|Hr].
      * exists [], rows. split; [done|]. split; [done|]. by intros ?%elem_of_nil.
      * destruct (IH _ Hr) as (before & after & -> & Hns & Hnb).
        exists (x :: before), after. split; [done|]. split.
        -- intros ?. apply Hns. by right.
        -- rewrite fmap_cons. intros [Heq|?]%elem_of_cons; [|done].
           apply Hns. rewrite Heq. by left.
Qed.

Section Rows.

Variable series_sum : list float -> float.

(** The amounts of an agreement on the reconciled accounts, in the order of
    the accounts. *)
Definition account_amounts (txt_summs : list (string * list TextSumm.row)) (agreement : Z)
    : list (string * float) :=
  (fun '(acc, txt_summ) => (acc, account_amount series_sum txt_summ agreement)) <$> txt_summs.

Lemma add_accounts_amounts (txt_summs : list (string * list TextSumm.row)) (r : LeCalc.row) :
  LeCalc.by_account (add_accounts series_sum txt_summs r)
  = (LeCalc.by_account r ++ account_amounts txt_summs (Zsd25.Agreement (LeCalc.base r)))%list
  /\ LeCalc.Difference (add_accounts series_sum txt_summs r)
     = foldl PrimFloat.add (LeCalc.Difference r)
         (account_amounts txt_summs (Zsd25.Agreement (LeCalc.base r))).*2.
Proof.
  revert r. induction txt_summs as [|[acc t] rest IH]; intros r.
  - cbn. by rewrite app_nil_r.
  - change (add_accounts series_sum ((acc, t) :: rest) r)
      with (add_accounts series_sum rest (add_account series_sum acc t r)).
    destruct (IH (add_account series_sum acc t r)) as [-> ->].
    cbn [add_account LeCalc.base LeCalc.by_account LeCalc.Difference].
    split; [by rewrite <- app_assoc|done].
Qed.

(** X16. The local-entity calculation has one row for every agreement of the
    extract, in the order in which the agreements first appear, and the row
    is made of the first row the extract has for the agreement. *)
Theorem one_row_per_agreement (txt_summs : list (string * list TextSumm.row))
    (le_data : list Zsd25.row) (loc_curr : string) (ex_rate : float) :
  let result := calculate_le_bonus_data series_sum txt_summs le_data loc_curr ex_rate in
  let agreements := (fun r => Zsd25.Agreement (LeCalc.base r)) <$> LeCalc.rows result in
  agreements = unique [] (Zsd25.Agreement <$> le_data)
  /\ NoDup agreements
  /\ (forall a, a ∈ agreements <-> a ∈ Zsd25.Agreement <$> le_data)
  /\ (forall r, r ∈ LeCalc.rows result ->
        exists before after,
          le_data = (before ++ LeCalc.base r :: after)%list
          /\ Zsd25.Agreement (LeCalc.base r) ∉ (Zsd25.Agreement <$> before)).
Proof.
  intros result agreements.
  assert (LeCalc.base <$> LeCalc.rows result = drop_duplicates [] le_data) as Hbase.
  { subst result. rewrite calculate_le_rows, <- list_fmap_compose.
    rewrite <- (list_fmap_id (drop_duplicates [] le_data)) at 2.
    apply list_fmap_ext. intros i r _. simpl.
    by destruct (add_accounts_keeps series_sum txt_summs
                   (correct_currency loc_curr ex_rate r)) as (-> & _). }
  assert (agreements = unique [] (Zsd25.Agreement <$> le_data)) as Hagr.
  { subst agreements. rewrite <- drop_duplicates_agreements, <- Hbase.
    by rewrite <- list_fmap_compose. }
  split; [done|]. rewrite Hagr. split; [apply unique_NoDup|]. split.
  - intros a. rewrite unique_elem. split; [by intros [? _]|].
    intros ?. split; [done|]. by intros ?%elem_of_nil.
  - intros r Hr.
    assert (LeCalc.base r ∈ drop_duplicates [] le_data) as Hin.
    { rewrite <- Hbase. apply list_elem_of_fmap. by exists r. }
    destruct (drop_duplicates_first _ _ _ Hin) as (before & after & -> & _ & Hnb).
    by exists before, after.
Qed.

(** X17. On every row of the local-entity calculation the columns of the
    accounts hold the amount the account has for the agreement (0 when it has
    no line for it), in the order of the accounts, and the difference is the
    sum of these amounts, added to 0 from the first account to the last, less
    the accrual in local currency, rounded to two decimals. *)
Theorem difference_of_local_bonuses (txt_summs : list (string * list TextSumm.row))
    (le_data : list Zsd25.row) (loc_curr : string) (ex_rate : float) :
  Forall (fun r =>
      let amounts := account_amounts txt_summs (Zsd25.Agreement (LeCalc.base r)) in
      LeCalc.by_account r = amounts
      /\ LeCalc.Difference r
         = round2 (foldl PrimFloat.add 0%float amounts.*2 - LeCalc.LC_Open_Accr r)%float)
    (LeCalc.rows (calculate_le_bonus_data series_sum txt_summs le_data loc_curr ex_rate)).
Proof.
  rewrite calculate_le_rows. apply Forall_fmap, Forall_forall. intros r _. simpl.
  pose proof (add_accounts_amounts txt_summs (correct_currency loc_curr ex_rate r)) as [Hby Hdiff].
  destruct (add_accounts_keeps series_sum txt_summs (correct_currency loc_curr ex_rate r))
    as (-> & _ & ->).
  rewrite Hby, Hdiff. done.
Qed.

End Rows.

(** ** The order of the checked lines *)

(** The flags from the strongest to the weakest: ['x'], ['CHECK'], none. *)
Definition rank (status : string) : nat :=
  if String.eqb status INVALD_TEXT_FMT then 2
  else if String.eqb status AGREEMENT_CLOSED then 1
  else 0.

Definition flags_descend (a b : Checked.row) : Prop :=
  (rank (Checked.Status b) <= rank (Checked.Status a))%nat.

Definition is_flag (status : string) : Prop :=
  status = "" \/ status = "x" \/ status = "CHECK".

Lemma ltb_rank (s t : string) :
  is_flag s -> is_flag t -> String.ltb s t = (rank s <? rank t)%nat.
Proof. by intros [->|[->| ->]] [->|[->| ->]]. Qed.

Lemma insert_by_status_sorted (r : Checked.row) (l : list Checked.row) :
  is_flag (Checked.Status r) ->
  Forall (fun y => is_flag (Checked.Status y)) l ->
  StronglySorted flags_descend l ->
  StronglySorted flags_descend (insert_by_status r l).
Proof.
  intros Hr Hl Hsorted. induction Hsorted as [|y ys Hys IH Hy]; cbn [insert_by_status].
  - repeat constructor.
  - apply Forall_cons in Hl as [Hfy Hl].
    rewrite (ltb_rank _ _ Hr Hfy).
    destruct (rank (Checked.Status r) <? rank (Checked.Status y))%nat eqn:Hlt.
    + apply Nat.ltb_lt in Hlt. constructor; [by apply IH|].
      rewrite insert_by_status_perm. constructor; [|done].
      unfold flags_descend. lia.
    + apply Nat.ltb_ge in Hlt. constructor; [by constructor|].
      constructor; [done|].
      eapply Forall_impl; [exact Hy|]. unfold flags_descend. intros z Hz. simpl in *. lia.
Qed.

Lemma sort_by_status_sorted (l : list Checked.row) :
  Forall (fun y => is_flag (Checked.Status y)) l ->
  StronglySorted flags_descend (sort_by_status l).
Proof.
  induction 1 as [|r l Hr Hl IH]; [constructor|].
  unfold sort_by_status in *. cbn [foldr].
  apply insert_by_status_sorted; [done| |done].
  fold (sort_by_status l). by rewrite sort_by_status_perm.
Qed.

(** X18. The checked lines of every account are in the order of their flags: the
    lines flagged ['x'] come first, then the lines flagged ['CHECK'], then the
    lines without flag. *)
Theorem flagged_lines_come_first (txt_summs : list (string * list TextSumm.row))
    (le_bon : list Zsd25.row) (hq_bon : option (list Zsd25.row)) :
  Forall (fun checked => StronglySorted flags_descend checked.2)
    (check_agreement_states txt_summs le_bon hq_bon).
Proof.
  unfold check_agreement_states. apply Forall_fmap, Forall_forall.
  intros [acc txt_summ] _. simpl. apply sort_by_status_sorted.
  destruct (flag_lines_spec (open_agreements le_bon hq_bon) txt_summ) as [_ Hs].
  eapply Forall_impl; [exact Hs|]. intros r ->.
  destruct (line_status_rule (open_agreements le_bon hq_bon) (Checked.line r))
    as (_ & _ & _ & _ & Hflag).
  exact Hflag.
Qed.

End BonusFacts.

(* ===================================================================== *)
(** * The FBL3N conversion from the text to the dataset *)
(* ===================================================================== *)

Module ConversionRuns.
Import Py Processor ConversionFacts.

(** ** Splitting a frame *)

Lemma take_chunks_lengths {A : Type} (sizes : list nat) (l : list A) :
  (sum_list sizes <= length l)%nat ->
  length <$> take_chunks sizes l = sizes.
Proof.
  revert l. induction sizes as [|k ks IH]; intros l Hsum; [done|].
  cbn [take_chunks]. cbn [sum_list sum_list_with] in Hsum. change (id k) with k in Hsum.
  rewrite fmap_cons. f_equal.
  - rewrite length_take. lia.
  - apply IH. rewrite length_drop. lia.
Qed.

Lemma concat_same_dtypes (first : DataFrame) (rest : list DataFrame) :
  Forall (fun C => dtypes C = dtypes first) rest ->
  concat (first :: rest)
  = Some {| body := mjoin (body <$> first :: rest); dtypes := dtypes first |}.
Proof.
  intros Hall. unfold concat. do 2 f_equal.
  apply map_eq. intros col. rewrite map_lookup_imap.
  destruct (dtypes first !! col) as [d|] eqn:Hd; [|done]. simpl.
  rewrite forallb_elem_of; [done|].
  intros C HC. apply bool_decide_eq_true.
  rewrite Forall_forall in Hall. by rewrite (Hall C HC).
Qed.

Lemma concat_body (frames : list DataFrame) (P : DataFrame) :
  concat frames = Some P -> body P = mjoin (body <$> frames).
Proof. destruct frames as [|first rest]; [done|]. by intros [= <-]. Qed.

(** X23. [np.array_split] into [n] parts gives [n] frames, each with the whole
    number of rows per part or one row more, and [pd.concat] of the parts
    gives the frame back: its rows in their order with their labels, and its
    dtypes. *)
Theorem array_split_then_concat (data : DataFrame) (n : nat) :
  (0 < n)%nat ->
  length (array_split data n) = n
  /\ concat (array_split data n) = Some data
  /\ Forall (fun C => length (body C) = (length (body data) / n)%nat
                      \/ length (body C) = S (length (body data) / n))
       (array_split data n).
Proof.
  intros Hn. split; [by apply array_split_length|]. split.
  - destruct (array_split_parts data n Hn) as [Hbody Hdtypes].
    destruct (array_split data n) as [|first rest] eqn:Hsplit.
    { pose proof (array_split_length data n Hn) as Hlen. rewrite Hsplit in Hlen.
      simpl in Hlen. lia. }
    apply Forall_cons in Hdtypes as [Hfirst Hrest].
    rewrite concat_same_dtypes.
    + rewrite <- Hbody, Hfirst. by destruct data.
    + eapply Forall_impl; [exact Hrest|]. intros C ->. done.
  - unfold array_split. apply Forall_fmap. simpl.
    assert (Forall (fun k => k = (length (body data) / n)%nat
                             \/ k = S (length (body data) / n))
              (length <$> take_chunks (chunk_sizes (length (body data)) n) (body data)))
      as Hsizes.
    { rewrite take_chunks_lengths by (by rewrite chunk_sizes_sum).
      unfold chunk_sizes. apply Forall_app. split; apply Forall_replicate; auto. }
    by apply Forall_fmap in Hsizes.
Qed.

Lemma array_split_then_concat_witness :
  length (array_split {| body := [(0, fun _ => NA); (1, fun _ => NA); (2, fun _ => NA)];
                         dtypes := ∅ |} 2) = 2%nat.
Proof.
  apply (array_split_then_concat
           {| body := [(0, fun _ => NA); (1, fun _ => NA); (2, fun _ => NA)]; dtypes := ∅ |} 2).
  lia.
Defined.

(** ** The checks after parsing *)

(** The amount of a credit item (posting key 50) is made negative. *)
Definition credit_sign `{Pandas} (r : row) : row :=
  if is_number 50 (r "Posting_Key") && is_positive (r "LC_Amount")
  then upd "LC_Amount" (negated (r "LC_Amount")) r
  else r.

Lemma reset_index_labels (n : nat) (l : list (Z * row)) :
  (imap (fun i x => (Z.of_nat (n + i), x.2)) l).*1 = Z.of_nat <$> seq n (length l).
Proof.
  revert n. induction l as [|x l IH]; intros n; [done|].
  cbn [imap fmap list_fmap length seq]. rewrite Nat.add_0_r. f_equal.
  rewrite <- (IH (S n)). f_equal. apply imap_ext. intros i y _. simpl.
  do 2 f_equal. lia.
Qed.

Lemma reset_index_rows (l : list (Z * row)) :
  (imap (fun i x => (Z.of_nat i, x.2)) l).*2 = l.*2.
Proof. rewrite fmap_imap. apply imap_const. Qed.

Lemma for_each_astype_body (cols : list string) (d d' : DataFrame) :
  for_each cols astype_category d = Some d' -> body d' = body d.
Proof.
  revert d. induction cols as [|col cols IH]; intros d Hrun.
  - by injection Hrun as <-.
  - rewrite for_each_cons in Hrun.
    destruct (astype_category col d) as [d1|] eqn:Hd1; [|done]. simpl in Hrun.
    rewrite (IH _ Hrun). by eapply astype_category_body.
Qed.

Section Runs.

Context `{Pandas}.

(** What the checks leave of the parsed frame: it is not empty, the labels
    are the positions of the rows, and the rows are those of the parsed frame
    but for the sign of the credit amounts. *)
Definition checked (parsed d : DataFrame) : Prop :=
  body parsed <> []
  /\ (body d).*1 = Z.of_nat <$> seq 0 (length (body parsed))
  /\ (body d).*2 = credit_sign <$> (body parsed).*2.

Lemma checked_rows (cols : list string) (parsed p1 : DataFrame) :
  empty parsed = false ->
  for_each cols astype_category
    (if has_duplicates parsed then reset_index parsed else parsed) = Some p1 ->
  checked parsed
    (reset_index
       {| body := (fun x => (x.1, if is_number 50 (x.2 "Posting_Key")
                                     && is_positive (x.2 "LC_Amount")
                                  then upd "LC_Amount" (negated (x.2 "LC_Amount")) x.2
                                  else x.2)) <$> body p1;
          dtypes := dtypes p1 |}).
Proof.
  intros Hne Hp1. apply for_each_astype_body in Hp1.
  assert ((body p1).*2 = (body parsed).*2 /\ length (body p1) = length (body parsed))
    as [Hrows Hlen].
  { rewrite Hp1. destruct (has_duplicates parsed); [|done]. simpl.
    by rewrite reset_index_rows, length_imap. }
  split; [|split].
  - unfold empty in Hne. by destruct (body parsed).
  - simpl. rewrite (reset_index_labels 0), length_fmap. do 2 f_equal. exact Hlen.
  - simpl. rewrite reset_index_rows, <- Hrows, <- !list_fmap_compose.
    apply list_fmap_ext. by intros i [lbl r] _.
Qed.

Lemma check_opt_checked (parsed d : DataFrame) :
  check_fbl3n_data_opt parsed = Dataset d -> checked parsed d.
Proof.
  unfold check_fbl3n_data_opt. cbv zeta.
  destruct (empty parsed) eqn:Hne; [done|].
  destruct (for_each _ astype_category _) as [p1|] eqn:Hp1; cbn [or_raise]; [|done].
  unfold loc_set. destruct (forallb _ (body p1)); cbn [or_raise]; [|done].
  match goal with |- (if ?c then _ else _) = _ -> _ => destruct c; [|done] end.
  intros [= <-]. by eapply checked_rows.
Qed.

Lemma check_checked (parsed d : DataFrame) :
  check_fbl3n_data parsed = Dataset d -> checked parsed d.
Proof.
  unfold check_fbl3n_data. cbv zeta.
  destruct (empty parsed) eqn:Hne; [done|].
  match goal with |- (if ?c then _ else _) = _ -> _ => destruct c; [done|] end.
  destruct (for_each _ astype_category _) as [p1|] eqn:Hp1; cbn [or_raise]; [|done].
  unfold loc_set. destruct (forallb _ (body p1)); cbn [or_raise]; [|done].
  match goal with |- (if ?c then _ else _) = _ -> _ => destruct c; [|done] end.
  intros [= <-]. by eapply checked_rows.
Qed.

(** ** The fields of the records of a dataset *)

Lemma text_derived_credit_sign (r : row) : text_derived r -> text_derived (credit_sign r).
Proof.
  unfold credit_sign. destruct (_ && _); [|done].
  unfold text_derived, tokens, upd. by cbn.
Qed.

Lemma parsed_rows (parse : DataFrame -> option DataFrame) (data out : DataFrame) :
  (forall data out y, parse data = Some out -> y ∈ body out -> text_derived y.2) ->
  parse data = Some out ->
  Forall text_derived (body out).*2.
Proof.
  intros Hparse Hrun. apply Forall_fmap, Forall_forall. intros y Hy. by eapply Hparse.
Qed.

Lemma parsed_chunks (parse : DataFrame -> option DataFrame) (chunks parsed : list DataFrame)
    (P : DataFrame) :
  (forall data out y, parse data = Some out -> y ∈ body out -> text_derived y.2) ->
  mapM parse chunks = Some parsed -> concat parsed = Some P ->
  Forall text_derived (body P).*2.
Proof.
  intros Hparse Hrun Hcat. apply Forall_fmap, Forall_forall. intros y Hy.
  rewrite (concat_body _ _ Hcat) in Hy.
  apply list_elem_of_join in Hy as (rows & Hy & Hrows).
  apply list_elem_of_fmap in Hrows as (C' & -> & HC').
  apply mapM_Some in Hrun.
  apply list_elem_of_lookup in HC' as [i Hi].
  destruct (Forall2_lookup_r _ _ _ _ _ Hrun Hi) as (C & _ & HC).
  by eapply Hparse.
Qed.

Lemma checked_fields (parsed d : DataFrame) :
  checked parsed d ->
  Forall text_derived (body parsed).*2 ->
  body d <> []
  /\ (body d).*1 = Z.of_nat <$> seq 0 (length (body d))
  /\ Forall text_derived (body d).*2.
Proof.
  intros (Hne & Hlabels & Hrows) Hfields.
  assert (length (body d) = length (body parsed)) as Hlen.
  { rewrite <- (length_fmap snd (body d)), Hrows. by rewrite !length_fmap. }
  split; [|split].
  - intros Hd. rewrite Hd in Hlen. destruct (body parsed); [done|]. simpl in Hlen. lia.
  - by rewrite Hlen.
  - rewrite Hrows. apply Forall_fmap. eapply Forall_impl; [exact Hfields|].
    intros r Hr. by apply text_derived_credit_sign.
Qed.

(** X20. The dataset [convert_fbl3n_data_opt] returns, in one piece or in
    chunks, is not empty and is labelled by the positions of its records, and
    each record has the fields derived from its text as the parser leaves
    them: nothing unless the text has four tokens; a condition of four
    characters and a category of two, or nothing; the customer and the
    agreement as numbers; the note, if any. *)
Theorem converted_opt_records (text : string) (multiproc : bool) (n_workers : Z)
    (d : DataFrame) :
  convert_fbl3n_data_opt text multiproc n_workers = Dataset d ->
  body d <> []
  /\ (body d).*1 = Z.of_nat <$> seq 0 (length (body d))
  /\ Forall text_derived (body d).*2.
Proof.
  unfold convert_fbl3n_data_opt. cbv zeta.
  destruct (read_csv _) as [data0|]; cbn [or_raise]; [|done].
  destruct (for_each _ _ _) as [data|]; cbn [or_raise]; [|done].
  match goal with
  | |- or_raise ?run _ = _ -> _ => destruct run as [parsed|] eqn:Hrun; cbn [or_raise]; [|done]
  end.
  intros Hcheck. apply check_opt_checked in Hcheck.
  apply (checked_fields parsed d Hcheck).
  destruct (negb _).
  - eapply parsed_rows; [apply parse_data_opt_fields|exact Hrun].
  - destruct (n_workers <? 2); [done|].
    apply bind_step in Hrun as (chunks & Hchunks & Hcat).
    eapply parsed_chunks; [apply parse_data_opt_fields|exact Hchunks|exact Hcat].
Qed.

(** X21. The dataset of the older [convert_fbl3n_data], of a .txt or a .dat
    export, in one piece or in chunks: it is not empty, it is labelled by the
    positions of its records, and the fields derived from the text of each
    record are as the parser leaves them. *)
Theorem converted_records (content : string) (file_type : FileTypes) (multiproc : bool)
    (d : DataFrame) :
  convert_fbl3n_data content file_type multiproc = Dataset d ->
  body d <> []
  /\ (body d).*1 = Z.of_nat <$> seq 0 (length (body d))
  /\ Forall text_derived (body d).*2.
Proof.
  unfold convert_fbl3n_data, _parse_fbl3n_data. cbv zeta.
  destruct (read_csv_as _ _ _) as [data|]; cbn [or_raise]; [|done].
  destruct (_ || _).
  - destruct (_parse_data data) as [parsed|] eqn:Hrun; [|done].
    intros Hcheck. apply check_checked in Hcheck.
    apply (checked_fields parsed d Hcheck).
    eapply parsed_rows; [apply parse_data_fields|exact Hrun].
  - match goal with
    | |- match or_raise ?run _ with _ => _ end = _ -> _ =>
        destruct run as [parsed|] eqn:Hrun; cbn [or_raise]; [|done]
    end.
    intros Hcheck. apply check_checked in Hcheck.
    apply (checked_fields parsed d Hcheck).
    apply bind_step in Hrun as (chunks & Hchunks & Hcat).
    eapply parsed_chunks; [apply parse_data_fields|exact Hchunks|exact Hcat].
Qed.

(** ** The older conversion in chunks *)

Lemma alike0_infer_dtype (W P : DataFrame) (col : string) :
  alike0 W P -> col ∉ free -> infer_dtype col W = infer_dtype col P.
Proof.
  intros [Hbody Hm] Hcol. unfold infer_dtype.
  destruct (Hm col) as [->|[? _]]; [|done]. by rewrite Hbody.
Qed.

Lemma not_free (col : string) :
  col <> "Condition" -> col <> "Category" -> col ∉ free.
Proof.
  intros H1 H2 Hc. unfold free in Hc.
  apply elem_of_cons in Hc as [->|Hc]; [done|].
  apply elem_of_cons in Hc as [->|Hc]; [done|]. by apply elem_of_nil in Hc.
Qed.

Lemma check_older_alike0 (W P : DataFrame) :
  alike0 W P ->
  match check_fbl3n_data W, check_fbl3n_data P with
  | Dataset d1, Dataset d2 => alike d1 d2
  | Nothing, Nothing => True
  | Raised, Raised => True
  | _, _ => False
  end.
Proof.
  intros Hal. unfold check_fbl3n_data. cbv zeta.
  assert (empty W = empty P) as -> by (unfold empty; by rewrite (proj1 Hal)).
  destruct (empty P); [done|].
  rewrite !(alike0_infer_dtype W P) by (done || by apply not_free).
  match goal with |- context [negb ?c] => destruct c; cbn [negb]; [|done] end.
  assert (has_duplicates W = has_duplicates P) as ->
    by (unfold has_duplicates; by rewrite (proj1 Hal)).
  set (W0 := if has_duplicates P then reset_index W else W).
  set (P0 := if has_duplicates P then reset_index P else P).
  assert (alike0 W0 P0) as Hal0.
  { unfold W0, P0. destruct (has_duplicates P); [by apply alike0_reset_index|done]. }
  destruct (for_each_astype_alike0
              ["Document_Type"; "Condition"; "Category"; "Posting_Key";
               "Assignment"; "Business_Area"; "Tax_Code"] W0 P0 Hal0)
    as (W1 & P1 & -> & -> & Hal1 & Hcat).
  cbn [or_raise].
  assert (alike W1 P1) as Hal2.
  { apply alike0_alike; [done|]. intros c Hc. apply Hcat. left.
    unfold free in Hc.
    apply elem_of_cons in Hc as [->|Hc]; [|apply elem_of_cons in Hc as [->|Hc]].
    - apply list_elem_of_further, list_elem_of_here.
    - do 2 apply list_elem_of_further. apply list_elem_of_here.
    - by apply elem_of_nil in Hc. }
  assert ("LC_Amount" ∉ free) as Hamount by (by apply not_free).
  match goal with
  | |- context [loc_set ?m ?n ?f W1] =>
      pose proof (alike_loc_set m n f W1 P1 Hal2 Hamount) as Hset;
      destruct (loc_set m n f W1) as [W2|], (loc_set m n f P1) as [P2|];
      cbn [or_raise]; [|destruct Hset..|exact I]
  end.
  pose proof (alike_reset_index _ _ Hset) as Hal3.
  rewrite !(alike_dtype_is _ _ _ _ Hal3), !(alike_all_notna _ _ _ Hal3).
  by destruct (_ && _).
Qed.

(** X22. Where the reader gives columns of one kind (of dtype string or
    categorical, of strings and nulls, or without a string), and the
    conversions of whole columns give every clearing document, date and
    posting key of a chunk, once the first loop of the parser has stripped
    the strings, what they give it in the whole frame, a dataset that the
    older conversion returns when it parses in chunks is the dataset it
    returns when it parses in one piece: the same records with the same
    labels and values and the same names of dtypes, the dtypes themselves
    being the same but for the categories of [Condition] and [Category]. *)
Theorem chunked_agrees (content : string) (file_type : FileTypes) (d2 : DataFrame) :
  (forall data,
     read_csv_as file_type _FBL3N_HEADER
       match file_type with
       | TXT => _clean_text content "^\|\s+\d{4}\|.*$"
       | DAT => content
       end = Some data ->
     uniform data = true
     /\ forall stripped chunks,
          for_each (columns data) strip_column data = Some stripped ->
          mapM (fun C => for_each (columns C) strip_column C) (array_split data 5)
          = Some chunks ->
          Forall (converts_alike stripped) chunks) ->
  convert_fbl3n_data content file_type true = Dataset d2 ->
  exists d1, convert_fbl3n_data content file_type false = Dataset d1 /\ same_dataset d1 d2.
Proof.
  intros Hreader. unfold convert_fbl3n_data, _parse_fbl3n_data. cbv zeta.
  destruct (read_csv_as _ _ _) as [data|]; cbn [or_raise]; [|done].
  destruct (Hreader data eq_refl) as [Hread Halike].
  destruct (length (body data) <=? MAX_ROWS_SNG)%nat; cbn [orb negb].
  { intros Hd2. exists d2. split; [done|]. apply alike_same_dataset, alike_refl. }
  destruct (mapM _parse_data _) as [parsed|] eqn:Hrun; [|done].
  cbn [mbind option_bind].
  destruct (concat parsed) as [P|] eqn:Hcat; cbn [or_raise]; [|done].
  destruct (parse_data_chunks data 5 parsed P Hread ltac:(lia) Halike Hrun Hcat)
    as (W & -> & Hal).
  intros Hd2.
  pose proof (check_older_alike0 W P Hal) as Hchk. rewrite Hd2 in Hchk.
  destruct (check_fbl3n_data W) as [| |d1]; try done.
  exists d1. split; [done|]. by apply alike_same_dataset.
Qed.

(** X24. When the parser raises, the older conversion ends differently in one
    piece and in chunks. In one piece [_parse_fbl3n_data] catches the
    exception and returns [None], on which the conversion raises
    ([None] has no attribute [empty]); in chunks the exception leaves
    [_parse_fbl3n_data], the conversion catches it and returns [None]. *)
Theorem parser_failure_outcomes (content : string) (file_type : FileTypes) (multiproc : bool)
    (data : DataFrame) :
  read_csv_as file_type _FBL3N_HEADER
    match file_type with
    | TXT => _clean_text content "^\|\s+\d{4}\|.*$"
    | DAT => content
    end = Some data ->
  ((length (body data) <= MAX_ROWS_SNG)%nat \/ multiproc = false ->
     _parse_data data = None ->
     convert_fbl3n_data content file_type multiproc = Raised)
  /\ ((MAX_ROWS_SNG < length (body data))%nat -> multiproc = true ->
      mapM _parse_data (array_split data 5) = None ->
      convert_fbl3n_data content file_type multiproc = Nothing).
Proof.
  intros Hread. unfold convert_fbl3n_data, _parse_fbl3n_data. cbv zeta.
  rewrite Hread. cbn [or_raise]. split.
  - intros Hsingle Hfail. rewrite Hfail.
    destruct Hsingle as [Hrows| ->]; [|by rewrite orb_true_r].
    apply Nat.leb_le in Hrows. by rewrite Hrows.
  - intros Hrows -> Hfail. apply Nat.leb_gt in Hrows. rewrite Hrows, Hfail. done.
Qed.

End Runs.

(** ** Closed runs *)

#[local] Existing Instance decimal_pandas.

Lemma is_dataset_Dataset (c : converted) : is_dataset c = true -> c = Dataset (dataset_of c).
Proof. by destruct c. Qed.

Definition frame_of (o : option DataFrame) : DataFrame :=
  default {| body := []; dtypes := ∅ |} o.

Lemma frame_of_Some (o : option DataFrame) : is_Some o -> o = Some (frame_of o).
Proof. by intros [d ->]. Qed.

(** Two items: one with the five fields in its text, one with a text of
    three tokens. *)
Definition two_items : string :=
  export_text [export_line "ABCD;B1;1;2;note"; export_line "ABCDE;B;x"].

(** An item whose amount is not a number. *)
Definition bad_amount : string :=
  "| 2023|12|66010010|A1|1900000001|BA|SA|01.12.2023|01.12.2023|40|abc|V0|2000000001|A;B;1;2|".

Lemma converted_opt_records_witness :
  Forall text_derived (body (dataset_of (convert_fbl3n_data_opt two_items false 5))).*2.
Proof.
  apply (converted_opt_records two_items false 5).
  apply is_dataset_Dataset. vm_compute. reflexivity.
Defined.

Lemma converted_records_witness :
  Forall text_derived (body (dataset_of (convert_fbl3n_data two_items TXT false))).*2.
Proof.
  apply (converted_records two_items TXT false).
  apply is_dataset_Dataset. vm_compute. reflexivity.
Defined.

(** The instance converts a value without regard to its column. *)
Lemma decimal_converts_alike_opt (W C : DataFrame) : converts_alike_opt W C.
Proof. repeat split; intros c _; reflexivity. Qed.

Lemma decimal_converts_alike (W C : DataFrame) : converts_alike W C.
Proof. repeat split; intros c _; reflexivity. Qed.

Lemma chunked_opt_agrees_witness :
  exists d1,
    convert_fbl3n_data_opt uniform_text false 2 = Dataset d1
    /\ same_dataset d1 (dataset_of (convert_fbl3n_data_opt uniform_text true 2)).
Proof.
  apply (chunked_opt_agrees uniform_text 2).
  - intros data _. apply Forall_forall. intros C _. apply decimal_converts_alike_opt.
  - apply is_dataset_Dataset. vm_compute. reflexivity.
Defined.

Lemma chunked_agrees_witness :
  exists d1,
    convert_fbl3n_data uniform_text TXT false = Dataset d1
    /\ same_dataset d1 (dataset_of (convert_fbl3n_data uniform_text TXT true)).
Proof.
  apply (chunked_agrees uniform_text TXT).
  - intros data Hread. split.
    + assert (from_option uniform true
                (read_csv_as TXT _FBL3N_HEADER
                   (_clean_text uniform_text "^\|\s+\d{4}\|.*$"))
              = true) as Huniform by (vm_compute; reflexivity).
      by rewrite Hread in Huniform.
    + intros stripped chunks _ _. apply Forall_forall. intros C _.
      apply decimal_converts_alike.
  - apply is_dataset_Dataset. vm_compute. reflexivity.
Defined.

Lemma parser_failure_outcomes_witness :
  convert_fbl3n_data bad_amount TXT false = Raised.
Proof.
  apply (parser_failure_outcomes bad_amount TXT false
           (frame_of (read_csv_as TXT _FBL3N_HEADER
                        (_clean_text bad_amount "^\|\s+\d{4}\|.*$")))).
  - apply frame_of_Some. vm_compute. by eexists.
  - by right.
  - vm_compute. reflexivity.
Defined.

(** The two items as they are read, and as they are parsed. *)
Definition two_items_read : DataFrame := frame_of (read_stripped two_items).

Definition two_items_parsed : DataFrame := frame_of (_parse_data_opt two_items_read).

Definition first_record : Z * row :=
  default (0, fun _ => NA) (body two_items_parsed !! 0%nat).

Lemma text_fields_of_records_witness : text_derived first_record.2.
Proof.
  apply (text_fields_of_records two_items_read two_items_parsed first_record).
  - left. apply frame_of_Some. vm_compute. by eexists.
  - apply (list_elem_of_lookup_2 _ 0%nat). unfold first_record.
    by destruct (body two_items_parsed !! 0%nat) as [x|] eqn:Hx; [|vm_compute in Hx].
Defined.

(** C7. The conversion in chunks is not the conversion in one piece for
    every text. The export of 501 items followed by 500 items whose
    condition ends in a tabulator is converted to a dataset in one piece,
    and the conversion in two chunks raises on it: the second chunk makes
    [Condition] categorical with the one category that ends in the
    tabulator, and the stripped condition it then assigns is none of its
    categories. The export of 501 items with a condition of five characters
    followed by 500 well-formed items is converted both ways, to datasets
    whose [Condition] columns are not of the same type: the categories of
    the one are ['ABCD'] and ['ABCDE'], those of the other ['ABCD'] only. *)
Theorem chunked_conversion_not_identical :
  (is_dataset (convert_fbl3n_data_opt tabbed_text false 2) = true
   /\ convert_fbl3n_data_opt tabbed_text true 2 = Raised)
  /\ (is_dataset (convert_fbl3n_data_opt malformed_text false 2) = true
      /\ is_dataset (convert_fbl3n_data_opt malformed_text true 2) = true
      /\ dtypes (dataset_of (convert_fbl3n_data_opt malformed_text false 2)) !! "Condition"
         = Some (Category {[ LStr "ABCD"; LStr "ABCDE" ]})
      /\ dtypes (dataset_of (convert_fbl3n_data_opt malformed_text true 2)) !! "Condition"
         = Some (Category {[ LStr "ABCD" ]})
      /\ dtypes (dataset_of (convert_fbl3n_data_opt malformed_text false 2)) !! "Condition"
         <> dtypes (dataset_of (convert_fbl3n_data_opt malformed_text true 2)) !! "Condition").
Proof.
  split; [exact tabbed_text_runs|].
  destruct malformed_text_categories as [Hone Htwo].
  split; [vm_compute; reflexivity|]. split; [vm_compute; reflexivity|].
  split; [done|]. split; [done|].
  rewrite Hone, Htwo. intros [= Heq].
Qed.

(** X25. The conversion in chunks is not always the conversion in one piece.
    There is an export (501 items, then 500 items whose condition ends in a
    tabulator) that is converted in one piece and on which the conversion in
    two chunks raises; and there is one (501 items with a condition of five
    characters, then 500 well-formed items) that is converted both ways, to
    datasets whose [Condition] columns have different categories. *)
Theorem chunked_conversion_can_differ :
  (exists (P : Pandas) (text : string),
     is_dataset (convert_fbl3n_data_opt text false 2) = true
     /\ convert_fbl3n_data_opt text true 2 = Raised)
  /\ (exists (P : Pandas) (text : string) (d1 d2 : DataFrame),
        convert_fbl3n_data_opt text false 2 = Dataset d1
        /\ convert_fbl3n_data_opt text true 2 = Dataset d2
        /\ dtypes d1 !! "Condition" <> dtypes d2 !! "Condition").
Proof.
  split.
  - exists decimal_pandas, tabbed_text. apply tabbed_text_runs.
  - exists decimal_pandas, malformed_text,
      (dataset_of (convert_fbl3n_data_opt malformed_text false 2)),
      (dataset_of (convert_fbl3n_data_opt malformed_text true 2)).
    split; [apply is_dataset_Dataset; vm_compute; reflexivity|].
    split; [apply is_dataset_Dataset; vm_compute; reflexivity|].
    destruct malformed_text_categories as [-> ->]. intros [= Heq].
Qed.

End ConversionRuns.
(* ===================================================================== *)
(** * Properties of the dates of a reconciliation *)
(* ===================================================================== *)

Module DatesFacts.
Import Dates.

(** ** Business days *)

(** The days a loop passes from [day] on, in steps of [step]. *)
Definition passed (step : Z) (day : date) (k : nat) : date := day + step * Z.of_nat k.

(** A list cannot hold more distinct days than it is long. *)
Lemma some_day_is_free (off_days : list date) (f : nat -> date) :
  (forall i j, f i = f j -> i = j) ->
  exists j, (j <= length off_days)%nat /\ f j ∉ off_days.
Proof.
  intros Hinj.
  destruct (decide (Forall (fun d => d ∈ off_days) (f <$> seq 0 (S (length off_days)))))
    as [Hall|Hnot].
  - exfalso.
    assert (NoDup (f <$> seq 0 (S (length off_days)))) as Hnodup.
    { apply NoDup_fmap_2_strong; [|apply NoDup_seq]. intros i j _ _. apply Hinj. }
    rewrite Forall_forall in Hall.
    pose proof (submseteq_length _ _ (NoDup_submseteq _ _ Hnodup Hall)) as Hlen.
    rewrite length_fmap, length_seq in Hlen. lia.
  - apply not_Forall_Exists in Hnot; [|apply _].
    apply Exists_exists in Hnot as (d & Hd & Hfree).
    apply list_elem_of_fmap in Hd as (j & -> & Hj).
    apply elem_of_seq in Hj. exists j. split; [lia|done].
Qed.

Lemma monday_is_busday (day : date) (off_days : list date) :
  (day + 3) mod 7 = 0 -> day ∉ off_days -> is_busday day off_days = true.
Proof.
  intros Hmon Hfree. unfold is_busday, weekday. rewrite Hmon.
  by rewrite bool_decide_eq_false_2.
Qed.

(** Going forward or backward from any day, a business day comes within
    the rounds the loops are given. *)
Lemma busday_within (step : Z) (day : date) (off_days : list date) :
  step = 1 \/ step = -1 ->
  exists k, (k < rounds off_days)%nat /\ is_busday (passed step day k) off_days = true.
Proof.
  intros Hstep.
  set (first := Z.to_nat ((step * (4 - day)) mod 7)).
  destruct (some_day_is_free off_days (fun j => passed step day (first + 7 * j)))
    as (j & Hj & Hfree).
  { intros i j. unfold passed. destruct Hstep as [-> | ->]; lia. }
  exists (first + 7 * j)%nat. split.
  - unfold rounds.
    pose proof (Z.mod_pos_bound (step * (4 - day)) 7 ltac:(lia)). lia.
  - apply monday_is_busday; [|done]. unfold passed.
    pose proof (Z.mod_pos_bound (step * (4 - day)) 7 ltac:(lia)) as Hbound.
    replace (Z.of_nat (first + 7 * j)) with ((step * (4 - day)) mod 7 + 7 * Z.of_nat j)
      by (unfold first; lia).
    destruct Hstep as [-> | ->]; Z.div_mod_to_equations; lia.
Qed.

(** What a loop returns: the first business day on its way. *)
Definition first_busday (step : Z) (day : date) (off_days : list date) (found : date) : Prop :=
  exists k : nat,
    found = passed step day k
    /\ is_busday found off_days = true
    /\ forall j : nat, (j < k)%nat -> is_busday (passed step day j) off_days = false.

Lemma passed_first (step : Z) (day : date) : passed step day 0 = day.
Proof. unfold passed. lia. Qed.

Lemma passed_next (step : Z) (day : date) (j : nat) :
  passed step (day + step) j = passed step day (S j).
Proof. unfold passed. lia. Qed.

(** A loop that has a business day [k] steps ahead and more than [k]
    rounds ends: with the first business day on its way, every day up to it
    being a date, or with [OverflowError] at the first step that leaves the
    dates. *)
Lemma seek_run (fuel : nat) (step : Z) (day : date) (off_days : list date) (k : nat) :
  (k < fuel)%nat ->
  is_busday (passed step day k) off_days = true ->
  (exists n, (n <= k)%nat
      /\ seek fuel step day off_days = Some (Returns (passed step day n))
      /\ is_busday (passed step day n) off_days = true
      /\ (forall j, (j < n)%nat -> is_busday (passed step day j) off_days = false)
      /\ (forall j, (1 <= j <= n)%nat -> is_date (passed step day j) = true))
  \/ (exists n, (n < k)%nat
      /\ seek fuel step day off_days = Some OverflowError
      /\ (forall j, (j <= n)%nat -> is_busday (passed step day j) off_days = false)
      /\ (forall j, (1 <= j <= n)%nat -> is_date (passed step day j) = true)
      /\ is_date (passed step day (S n)) = false).
Proof.
  revert day k. induction fuel as [|fuel IH]; intros day k Hk Hbus; [lia|].
  cbn [seek]. destruct (is_busday day off_days) eqn:Hday.
  - left. exists 0%nat. rewrite passed_first.
    split; [lia|]. split; [done|]. split; [done|]. split; intros j Hj; lia.
  - destruct k as [|k]; [rewrite passed_first in Hbus; congruence|].
    unfold plus_days. destruct (is_date (day + step)) eqn:Hnext; cbn [and_then].
    + destruct (IH (day + step) k ltac:(lia)) as
        [(n & Hn & -> & Hfound & Hnone & Hdates)|(n & Hn & -> & Hnone & Hdates & Hout)].
      { by rewrite passed_next. }
      * left. exists (S n). rewrite passed_next in *.
        split; [lia|]. split; [done|]. split; [done|]. split.
        -- intros [|j] Hj; [by rewrite passed_first|].
           rewrite <- passed_next. apply Hnone. lia.
        -- intros [|[|j]] Hj; [lia| |].
           ++ by rewrite <- passed_next, passed_first.
           ++ rewrite <- passed_next. apply Hdates. lia.
      * right. exists (S n). rewrite passed_next in Hout.
        split; [lia|]. split; [done|]. split; [|split; [|done]].
        -- intros [|j] Hj; [by rewrite passed_first|].
           rewrite <- passed_next. apply Hnone. lia.
        -- intros [|[|j]] Hj; [lia| |].
           ++ by rewrite <- passed_next, passed_first.
           ++ rewrite <- passed_next. apply Hdates. lia.
    + right. exists 0%nat. split; [lia|]. split; [done|]. split; [|split].
      * intros j Hj. replace j with 0%nat by lia. by rewrite passed_first.
      * intros j Hj. lia.
      * by rewrite <- passed_next, passed_first.
Qed.

(** The last business day before a day, and the first on or after it. *)
Definition last_busday_before (day : date) (off_days : list date) (found : date) : Prop :=
  found < day /\ is_busday found off_days = true
  /\ forall d, found < d < day -> is_busday d off_days = false.

Definition first_busday_from (day : date) (off_days : list date) (found : date) : Prop :=
  day <= found /\ is_busday found off_days = true
  /\ forall d, day <= d < found -> is_busday d off_days = false.

Lemma first_busday_forward (day : date) (off_days : list date) (found : date) :
  first_busday 1 day off_days found -> first_busday_from day off_days found.
Proof.
  intros (k & -> & Hbus & Hnone). unfold passed in *. split; [lia|]. split; [done|].
  intros d Hd. replace d with (day + 1 * Z.of_nat (Z.to_nat (d - day))) by lia.
  apply Hnone. lia.
Qed.

Lemma first_busday_backward (day : date) (off_days : list date) (found : date) :
  first_busday (-1) (day - 1) off_days found -> last_busday_before day off_days found.
Proof.
  intros (k & -> & Hbus & Hnone). unfold passed in *. split; [lia|]. split; [done|].
  intros d Hd. replace d with (day - 1 + -1 * Z.of_nat (Z.to_nat (day - 1 - d))) by lia.
  apply Hnone. lia.
Qed.

Lemma last_busday_before_unique (day : date) (off_days : list date) (a b : date) :
  last_busday_before day off_days a -> last_busday_before day off_days b -> a = b.
Proof.
  intros (Ha & Hba & Hna) (Hb & Hbb & Hnb).
  destruct (Z.lt_trichotomy a b) as [Hlt|[Heq|Hgt]]; [|done|].
  - specialize (Hna b ltac:(lia)). congruence.
  - specialize (Hnb a ltac:(lia)). congruence.
Qed.


Lemma date_min_day : date_min = -719162.
Proof. reflexivity. Qed.

Lemma date_max_day : date_max = 2932896.
Proof. reflexivity. Qed.

Lemma is_date_range (z : Z) : is_date z = true <-> date_min <= z <= date_max.
Proof. unfold is_date. rewrite andb_true_iff, !Z.leb_le. done. Qed.

Lemma is_date_out (z : Z) : is_date z = false <-> z < date_min \/ date_max < z.
Proof. unfold is_date. rewrite andb_false_iff, !Z.leb_gt. done. Qed.

(** The loop forward from a date, with the rounds it is given: it returns
    the first business day from the date on, or no day up to the last date
    is a business day and it raises [OverflowError]. *)
Lemma seek_forth (day : date) (off_days : list date) :
  is_date day = true ->
  (exists found,
      seek (rounds off_days) 1 day off_days = Some (Returns found)
      /\ is_date found = true
      /\ first_busday_from day off_days found)
  \/ (seek (rounds off_days) 1 day off_days = Some OverflowError
      /\ forall d, day <= d <= date_max -> is_busday d off_days = false).
Proof.
  intros Hday. apply is_date_range in Hday.
  destruct (busday_within 1 day off_days ltac:(by left)) as (k & Hk & Hbus).
  destruct (seek_run _ 1 day off_days k Hk Hbus)
    as [(n & Hn & Hrun & Hfound & Hnone & Hdates)|(n & Hn & Hrun & Hnone & Hdates & Hout)].
  - left. exists (passed 1 day n). split; [done|]. split.
    + destruct n as [|n]; [|apply Hdates; lia].
      rewrite passed_first. by apply is_date_range.
    + apply first_busday_forward. by exists n.
  - right. split; [done|]. intros d Hd.
    apply is_date_out in Hout. unfold passed in Hout.
    replace d with (passed 1 day (Z.to_nat (d - day))) by (unfold passed; lia).
    apply Hnone. lia.
Qed.

(** The loop backward from the day before a date: it returns the last
    business day before the date, or no date before it is a business day
    and the step back, or a later one, raises [OverflowError]. *)
Lemma seek_back (day : date) (off_days : list date) :
  is_date day = true ->
  let run := let! before := plus_days day (-1) in
             seek (rounds off_days) (-1) before off_days in
  (exists found,
      run = Some (Returns found)
      /\ is_date found = true
      /\ last_busday_before day off_days found)
  \/ (run = Some OverflowError
      /\ forall d, date_min <= d < day -> is_busday d off_days = false).
Proof.
  intros Hday run. subst run. apply is_date_range in Hday.
  unfold plus_days. destruct (is_date (day + -1)) eqn:Hbefore; cbn [and_then].
  - apply is_date_range in Hbefore.
    destruct (busday_within (-1) (day + -1) off_days ltac:(by right)) as (k & Hk & Hbus).
    destruct (seek_run _ (-1) (day + -1) off_days k Hk Hbus)
      as [(n & Hn & Hrun & Hfound & Hnone & Hdates)|(n & Hn & Hrun & Hnone & Hdates & Hout)].
    + left. exists (passed (-1) (day + -1) n). split; [done|]. split.
      * destruct n as [|n]; [|apply Hdates; lia].
        rewrite passed_first. by apply is_date_range.
      * apply first_busday_backward.
        replace (day - 1) with (day + -1) by lia. by exists n.
    + right. split; [done|]. intros d Hd.
      apply is_date_out in Hout. unfold passed in Hout.
      replace d with (passed (-1) (day + -1) (Z.to_nat (day - 1 - d)))
        by (unfold passed; lia).
      apply Hnone. lia.
  - right. split; [done|]. intros d Hd. apply is_date_out in Hbefore. lia.
Qed.

(** ** The months of the calendar *)

(** The month before a month of a year. *)
Definition month_before (ym : Z * Z) : Z * Z :=
  if ym.2 =? 1 then (ym.1 - 1, 12) else (ym.1, ym.2 - 1).

(** The calendar counts in eras of 400 years, which are 146097 days, from a
    first of March; a day is the day [doe] of its era. *)
Definition year_of_era (doe : Z) : Z :=
  (doe - doe / 1460 + doe / 36524 - doe / 146096) / 365.

Definition year_start (yoe : Z) : Z := 365 * yoe + yoe / 4 - yoe / 100.

Definition of_era (era doe : Z) : Z * Z * Z :=
  let yoe := year_of_era doe in
  let doy := doe - year_start yoe in
  let mp := (5 * doy + 2) / 153 in
  let d := doy - (153 * mp + 2) / 5 + 1 in
  let m := if mp <? 10 then mp + 3 else mp - 9 in
  let y := yoe + era * 400 in
  (if m <=? 2 then y + 1 else y, m, d).

Lemma civil_of_era (z era doe : Z) :
  0 <= doe <= 146096 -> z + 719468 = era * 146097 + doe -> civil z = of_era era doe.
Proof.
  intros Hdoe Hz. unfold civil. cbv zeta.
  assert ((z + 719468) / 146097 = era) as -> by (Z.div_mod_to_equations; lia).
  replace (z + 719468 - era * 146097) with doe by lia. reflexivity.
Qed.

Lemma day_in_era (z : Z) :
  exists era doe, 0 <= doe <= 146096 /\ z + 719468 = era * 146097 + doe.
Proof.
  exists ((z + 719468) / 146097), ((z + 719468) mod 146097).
  Z.div_mod_to_equations. lia.
Qed.

Lemma year_bounds (doe : Z) :
  0 <= doe <= 146096 ->
  0 <= year_of_era doe <= 399 /\ 0 <= doe - year_start (year_of_era doe) <= 365.
Proof.
  intros Hdoe. unfold year_of_era, year_start. Z.div_mod_to_equations. lia.
Qed.

Lemma year_same (doe x : Z) :
  0 <= doe <= 146096 ->
  year_start (year_of_era doe) <= x <= doe ->
  year_of_era x = year_of_era doe.
Proof.
  intros Hdoe. unfold year_of_era, year_start. Z.div_mod_to_equations. lia.
Qed.

Lemma year_before (doe : Z) :
  1 <= doe <= 146096 ->
  doe = year_start (year_of_era doe) ->
  year_of_era (doe - 1) = year_of_era doe - 1
  /\ 364 <= doe - 1 - year_start (year_of_era doe - 1) <= 365.
Proof.
  intros Hdoe. unfold year_of_era, year_start. Z.div_mod_to_equations. lia.
Qed.

Lemma month_facts (doy : Z) :
  0 <= doy <= 365 ->
  0 <= (5 * doy + 2) / 153 <= 11
  /\ 0 <= (153 * ((5 * doy + 2) / 153) + 2) / 5 <= doy
  /\ (5 * ((153 * ((5 * doy + 2) / 153) + 2) / 5) + 2) / 153 = (5 * doy + 2) / 153.
Proof. intros Hdoy. Z.div_mod_to_equations. lia. Qed.

Lemma month_start (mp : Z) :
  0 <= mp <= 11 ->
  (5 * ((153 * mp + 2) / 5) + 2) / 153 = mp
  /\ (1 <= mp -> 1 <= (153 * mp + 2) / 5
                 /\ (5 * ((153 * mp + 2) / 5 - 1) + 2) / 153 = mp - 1)
  /\ (mp = 0 -> (153 * mp + 2) / 5 = 0).
Proof. intros Hmp. Z.div_mod_to_equations. lia. Qed.


Lemma of_era_last (era : Z) : of_era era 146096 = (399 + era * 400 + 1, 2, 29).
Proof.
  unfold of_era. cbv zeta.
  assert (year_of_era 146096 = 399) as -> by reflexivity.
  assert (146096 - year_start 399 = 365) as -> by reflexivity.
  assert ((5 * 365 + 2) / 153 = 11) as -> by reflexivity.
  reflexivity.
Qed.

(** The comparisons of a goal, one case after the other. *)
Ltac cases :=
  repeat (match goal with
          | |- context [Z.ltb ?a ?b] => destruct (Z.ltb_spec a b)
          | |- context [Z.leb ?a ?b] => destruct (Z.leb_spec a b)
          | |- context [Z.eqb ?a ?b] => destruct (Z.eqb_spec a b)
          end; try lia).

(** A date is made of its year, its month and its day. *)
Lemma ymd_of_era (era doe : Z) :
  0 <= doe <= 146096 ->
  ymd (of_era era doe).1.1 (of_era era doe).1.2 (of_era era doe).2
  = era * 146097 + doe - 719468.
Proof.
  intros Hdoe. unfold of_era, ymd. cbv zeta. cbn [fst snd].
  pose proof (year_bounds doe Hdoe) as [Hy Hdoy].
  remember (year_of_era doe) as yoe eqn:Hyoe.
  remember (doe - year_start yoe) as doy eqn:Hdoy'.
  pose proof (month_facts doy Hdoy) as (Hmp & Ha & Hback).
  remember ((5 * doy + 2) / 153) as mp eqn:Hmp'.
  unfold year_start in Hdoy'.
  cases.
  - replace (mp + 3 - 3) with mp by lia.
    assert ((yoe + era * 400) / 400 = era) as -> by (Z.div_mod_to_equations; lia).
    replace (yoe + era * 400 - era * 400) with yoe by lia. lia.
  - replace (mp - 9 + 9) with mp by lia.
    replace (yoe + era * 400 + 1 - 1) with (yoe + era * 400) by lia.
    assert ((yoe + era * 400) / 400 = era) as -> by (Z.div_mod_to_equations; lia).
    replace (yoe + era * 400 - era * 400) with yoe by lia. lia.
Qed.

(** [date(z.year, z.month, z.day) == z]. *)
Lemma ymd_civil (z : date) : ymd (year z) (month z) (day_of_month z) = z.
Proof.
  destruct (day_in_era z) as (era & doe & Hdoe & Hz).
  unfold year, month, day_of_month.
  rewrite (civil_of_era z era doe Hdoe Hz), ymd_of_era by done. lia.
Qed.

(** The first day of the month of a day of an era lies in the same era and
    is the day 1 of the same month and year. *)
Lemma of_era_start (era doe : Z) :
  0 <= doe <= 146096 ->
  1 <= (of_era era doe).2 <= doe + 1
  /\ 1 <= (of_era era doe).1.2 <= 12
  /\ of_era era (doe - ((of_era era doe).2 - 1))
     = ((of_era era doe).1.1, (of_era era doe).1.2, 1).
Proof.
  intros Hdoe. unfold of_era. cbv zeta. cbn [fst snd].
  pose proof (year_bounds doe Hdoe) as [Hy Hdoy].
  remember (year_of_era doe) as yoe eqn:Hyoe.
  remember (doe - year_start yoe) as doy eqn:Hdoy'.
  pose proof (month_facts doy Hdoy) as (Hmp & Ha & Hback).
  remember ((5 * doy + 2) / 153) as mp eqn:Hmp'.
  remember ((153 * mp + 2) / 5) as a eqn:Ha'.
  assert (year_of_era (doe - (doy - a + 1 - 1)) = yoe) as ->.
  { rewrite Hyoe. apply year_same; [done|]. rewrite <- Hyoe. lia. }
  replace (doe - (doy - a + 1 - 1) - year_start yoe) with a by lia.
  rewrite Hback, <- Ha'.
  assert (0 <= year_start yoe) by (unfold year_start; Z.div_mod_to_equations; lia).
  split; [lia|]. split; [destruct (mp <? 10) eqn:?; lia|].
  f_equal. lia.
Qed.

(** The day before the first day of a month lies in the month before. *)
Lemma of_era_before (era doe : Z) :
  0 <= doe <= 146096 ->
  (of_era era doe).2 = 1 ->
  let before := if doe =? 0 then of_era (era - 1) 146096 else of_era era (doe - 1) in
  (before.1.1, before.1.2) = month_before ((of_era era doe).1.1, (of_era era doe).1.2).
Proof.
  intros Hdoe Hfirst before. unfold of_era in Hfirst |- *.
  cbv zeta in Hfirst |- *. cbn [fst snd] in Hfirst |- *.
  pose proof (year_bounds doe Hdoe) as [Hy Hdoy].
  remember (year_of_era doe) as yoe eqn:Hyoe.
  remember (doe - year_start yoe) as doy eqn:Hdoy'.
  pose proof (month_facts doy Hdoy) as (Hmp & _ & _).
  remember ((5 * doy + 2) / 153) as mp eqn:Hmp'.
  pose proof (month_start mp Hmp) as (_ & Hlater & Hmarch).
  assert (doy = (153 * mp + 2) / 5) as Hstart by lia. clear Hfirst.
  subst before.
  destruct (decide (mp = 0)) as [Hmp0|Hmp0].
  - (* the first of March *)
    specialize (Hmarch Hmp0). rewrite Hmp0.
    assert (doe = year_start yoe) as Hdoe' by lia.
    destruct (Z.eqb_spec doe 0) as [Hzero|Hzero].
    + assert (yoe = 0) as -> by (rewrite Hyoe, Hzero; reflexivity).
      rewrite of_era_last. unfold month_before. cbn [fst snd]. cases.
      f_equal. lia.
    + destruct (year_before doe ltac:(lia) ltac:(by rewrite <- Hyoe)) as [Hyear Hlast].
      rewrite <- Hyoe in Hyear, Hlast.
      unfold of_era. cbv zeta. cbn [fst snd]. rewrite Hyear.
      remember (doe - 1 - year_start (yoe - 1)) as doy' eqn:Hdoy''.
      assert ((5 * doy' + 2) / 153 = 11) as -> by (Z.div_mod_to_equations; lia).
      unfold month_before. cbn [fst snd]. cases. f_equal. lia.
  - (* the first of a later month *)
    destruct (Hlater ltac:(lia)) as [Hpos Hprev].
    assert (0 <= year_start yoe) by (unfold year_start; Z.div_mod_to_equations; lia).
    destruct (Z.eqb_spec doe 0) as [Hzero|Hzero]; [lia|].
    unfold of_era. cbv zeta. cbn [fst snd].
    assert (year_of_era (doe - 1) = yoe) as ->.
    { rewrite Hyoe. apply year_same; [done|]. rewrite <- Hyoe. lia. }
    replace (doe - 1 - year_start yoe) with ((153 * mp + 2) / 5 - 1) by lia.
    rewrite Hprev. unfold month_before. cbn [fst snd]. cases; f_equal; lia.
Qed.

(** The dates are the days of the years 1 to 9999: a day is not before
    0001-01-01 exactly when its year is 1 or later. *)
Lemma year_of_date (z : date) : date_min <= z <-> 1 <= year z.
Proof.
  rewrite date_min_day.
  destruct (day_in_era z) as (era & doe & Hdoe & Hz).
  unfold year. rewrite (civil_of_era z era doe Hdoe Hz).
  unfold of_era. cbv zeta. cbn [fst snd].
  pose proof (year_bounds doe Hdoe) as [Hy Hdoy].
  assert (year_of_era doe = 0 -> doe - year_start (year_of_era doe) = doe) as Hfirst.
  { intros ->. change (year_start 0) with 0. lia. }
  assert (1 <= year_of_era doe -> 365 <= doe) as Hlater.
  { unfold year_of_era. Z.div_mod_to_equations. lia. }
  assert (doe - year_start (year_of_era doe) <= doe) as Hle.
  { unfold year_start. Z.div_mod_to_equations. lia. }
  remember (year_of_era doe) as yoe eqn:Hyoe. clear Hyoe.
  remember (doe - year_start yoe) as doy eqn:Hdoy'. clear Hdoy'.
  assert (0 <= (5 * doy + 2) / 153 <= 11
          /\ (doy < 306 <-> (5 * doy + 2) / 153 < 10)) as Hmp.
  { Z.div_mod_to_equations. lia. }
  remember ((5 * doy + 2) / 153) as mp eqn:Hmp'. clear Hmp'.
  cases.
Qed.

(** ** The first day of the month *)

Lemma day_of_month_positive (day : date) : 1 <= day_of_month day.
Proof.
  unfold day_of_month, civil. cbn [snd]. Z.div_mod_to_equations. lia.
Qed.

(** The first day of the month of a day is as many days before the day as
    the day of the month is after 1. *)
Lemma start_of_month_days (day : date) :
  get_start_of_month day = day - (day_of_month day - 1).
Proof.
  unfold get_start_of_month. rewrite <- (ymd_civil day) at 3. unfold ymd. lia.
Qed.

Lemma start_of_month_le (day : date) : get_start_of_month day <= day.
Proof. rewrite start_of_month_days. pose proof (day_of_month_positive day). lia. Qed.

(** ** The months of a day *)

Lemma calendar_month (z : date) :
  civil (get_start_of_month z) = (year z, month z, 1)
  /\ 1 <= month z <= 12
  /\ (year (get_start_of_month z - 1), month (get_start_of_month z - 1))
     = month_before (year z, month z).
Proof.
  destruct (day_in_era z) as (era & doe & Hdoe & Hz).
  rewrite start_of_month_days. unfold day_of_month, year, month.
  rewrite (civil_of_era z era doe Hdoe Hz).
  destruct (of_era_start era doe Hdoe) as (Hday & Hmonth & Hstart).
  remember (of_era era doe) as c eqn:Hc.
  assert (civil (z - (c.2 - 1)) = of_era era (doe - (c.2 - 1))) as Hfirst.
  { apply civil_of_era; lia. }
  rewrite Hfirst, Hstart. split; [done|]. split; [done|].
  pose proof (of_era_before era (doe - (c.2 - 1)) ltac:(lia)) as Hbefore.
  rewrite Hstart in Hbefore. cbn [fst snd] in Hbefore.
  specialize (Hbefore eq_refl). cbv zeta in Hbefore.
  rewrite <- Hbefore.
  destruct (doe - (c.2 - 1) =? 0) eqn:Hzero;
    [apply Z.eqb_eq in Hzero|apply Z.eqb_neq in Hzero].
  - by rewrite (civil_of_era (z - (c.2 - 1) - 1) (era - 1) 146096) by lia.
  - by rewrite (civil_of_era (z - (c.2 - 1) - 1) era (doe - (c.2 - 1) - 1)) by lia.
Qed.

(** The first day of the month of a date is a date. *)
Lemma start_of_month_is_date (day : date) :
  is_date day = true -> is_date (get_start_of_month day) = true.
Proof.
  intros Hday. apply is_date_range in Hday. apply is_date_range.
  pose proof (start_of_month_le day). split; [|lia].
  apply year_of_date. destruct (calendar_month day) as (Hstart & _ & _).
  unfold year at 1. rewrite Hstart. cbn [fst]. apply year_of_date. lia.
Qed.

(** The first date is the first day of January of the year 1. *)
Lemma first_date_month (day : date) :
  get_start_of_month day = date_min <-> year day = 1 /\ month day = 1.
Proof.
  split.
  - intros Hmin. destruct (calendar_month day) as (Hstart & _ & _).
    rewrite Hmin in Hstart. change (civil date_min) with (1, 1, 1) in Hstart.
    by injection Hstart as <- <-.
  - intros [Hy Hm]. unfold get_start_of_month. by rewrite Hy, Hm.
Qed.

Lemma plus_days_date (day : date) (n : Z) :
  is_date (day + n) = true -> plus_days day n = Some (Returns (day + n)).
Proof. unfold plus_days. by intros ->. Qed.

Lemma and_then_returns {A : Type} (m : option (outcome A)) :
  (let! a := m in Some (Returns a)) = m.
Proof. by destruct m as [[a|]|]. Qed.

Lemma and_then_assoc {A B C : Type} (m : option (outcome A))
    (f : A -> option (outcome B)) (g : B -> option (outcome C)) :
  (let! b := (let! a := m in f a) in g b) = (let! a := m in let! b := f a in g b).
Proof. by destruct m as [[a|]|]. Qed.

(** ** The day after period end *)

(** X26. [get_ultimo_plus_one] of a date returns, for every list of holidays,
    the first business day of the month of the date: the first day from
    Monday to Friday that is no holiday, counted from the first day of the
    month. It raises [OverflowError] when there is no such day up to
    9999-12-31, and only then. *)
Theorem ultimo_plus_one_is_first_workday (day : date) (off_days : list date) :
  is_date day = true ->
  (exists uplusone,
      get_ultimo_plus_one day off_days = Some (Returns uplusone)
      /\ is_date uplusone = true
      /\ first_busday_from (get_start_of_month day) off_days uplusone)
  \/ (get_ultimo_plus_one day off_days = Some OverflowError
      /\ forall d, get_start_of_month day <= d <= date_max -> is_busday d off_days = false).
Proof.
  intros Hday. unfold get_ultimo_plus_one. cbv zeta.
  apply seek_forth. by apply start_of_month_is_date.
Qed.

(** X27. [get_ultimo] of a date returns, for every list of holidays, the last
    business day before the date. It raises [OverflowError] when there is
    no business day from 0001-01-01 to the day before the date, as for
    0001-01-01 itself, and only then. *)
Theorem ultimo_is_last_workday_before (uplusone : date) (off_days : list date) :
  is_date uplusone = true ->
  (exists ultimo,
      get_ultimo uplusone off_days = Some (Returns ultimo)
      /\ is_date ultimo = true
      /\ last_busday_before uplusone off_days ultimo)
  \/ (get_ultimo uplusone off_days = Some OverflowError
      /\ forall d, date_min <= d < uplusone -> is_busday d off_days = false).
Proof.
  intros Hday. unfold get_ultimo. by apply seek_back.
Qed.

(** X28. The times of a reconciliation, for every date and every list of
    holidays. When the first business day of the month cannot be found the
    function raises [OverflowError]. After the first business day of the
    month the reconciliation date is the day itself, in the period of its
    month and the fiscal year after its calendar year. Up to and on the
    first business day of the month it is the last business day before the
    month, in the period of the month before (12 for January) and the fiscal
    year after the calendar year of that month; when no date before the
    month is a business day, as in January of the year 1, the function
    raises [OverflowError]. The conversion date is always the
    reconciliation date. *)
Theorem reconciliation_times (day : date) (off_days : list date) :
  is_date day = true ->
  exists first,
    get_ultimo_plus_one day off_days = Some first
    /\ match first with
       | OverflowError =>
           calculate_reconciliation_times day off_days = Some OverflowError
       | Returns uplusone =>
           (uplusone < day ->
              exists times,
                calculate_reconciliation_times day off_days = Some (Returns times)
                /\ reconciliation_date times = day
                /\ conversion_date times = day
                /\ fiscal_period times = month day
                /\ fiscal_year times = year day + 1)
           /\ (day <= uplusone ->
                 (exists times,
                     calculate_reconciliation_times day off_days = Some (Returns times)
                     /\ last_busday_before (get_start_of_month day) off_days
                          (reconciliation_date times)
                     /\ is_date (reconciliation_date times) = true
                     /\ conversion_date times = reconciliation_date times
                     /\ fiscal_period times = (if month day =? 1 then 12 else month day - 1)
                     /\ fiscal_year times
                        = (if month day =? 1 then year day else year day + 1))
                 \/ (calculate_reconciliation_times day off_days = Some OverflowError
                     /\ forall d, date_min <= d < get_start_of_month day ->
                          is_busday d off_days = false))
       end.
Proof.
  intros Hday. pose proof (start_of_month_is_date day Hday) as Hstart.
  pose proof (start_of_month_le day) as Hle.
  unfold calculate_reconciliation_times, get_ultimo_plus_one. cbv zeta.
  destruct (seek_forth (get_start_of_month day) off_days Hstart)
    as [(u & -> & Hud & Hfirst)|(-> & Hnone)]; [|by exists OverflowError].
  exists (Returns u). split; [done|]. cbn [and_then]. split.
  - intros Hlt. apply Z.ltb_lt in Hlt. rewrite Hlt. cbn [and_then fst snd].
    rewrite Z.eqb_refl. cbn [and_then]. eexists. split; [done|]. by repeat split.
  - intros Hge. apply Z.ltb_ge in Hge. rewrite Hge.
    pose proof (seek_back (get_start_of_month day) off_days Hstart) as Hback.
    cbv zeta in Hback.
    destruct (plus_days (get_start_of_month day) (-1)) as [[before|]|];
      cbn [and_then] in Hback |- *;
      [|right; by destruct Hback as [(? & [=] & _)|(_ & ?)]
       |by destruct Hback as [(? & [=] & _)|([=] & _)]].
    destruct (seek (rounds off_days) (-1) before off_days) as [[recon|]|];
      cbn [and_then] in Hback |- *;
      [|right; by destruct Hback as [(? & [=] & _)|(_ & ?)]
       |by destruct Hback as [(? & [=] & _)|([=] & _)]].
    destruct Hback as [(found & [= <-] & Hrd & Hrecon)|([=] & _)].
    left. cbn [fst snd].
    assert ((recon =? day) = false) as -> by (destruct Hrecon; lia).
    destruct (seek_back day off_days Hday) as [(ultimo & Hult & _ & Hlast)|(_ & Hnone)].
    + unfold get_ultimo. cbv zeta in Hult. rewrite Hult. cbn [and_then].
      eexists. split; [done|].
      cbn [conversion_date reconciliation_date fiscal_period fiscal_year].
      split; [done|]. split; [done|]. split; [|split].
      * apply (last_busday_before_unique day off_days); [done|].
        destruct Hrecon as (Hr1 & Hr2 & Hr3), Hfirst as (Hf1 & Hf2 & Hf3).
        split; [lia|]. split; [done|]. intros d Hd.
        destruct (Z.lt_ge_cases d (get_start_of_month day)); [apply Hr3|apply Hf3]; lia.
      * destruct (month day =? 1) eqn:Hjan.
        -- apply Z.eqb_eq in Hjan. by rewrite Hjan.
        -- apply Z.eqb_neq in Hjan. by assert ((month day - 1 =? 0) = false) as -> by lia.
      * destruct (month day =? 1) eqn:Hjan.
        -- apply Z.eqb_eq in Hjan. by rewrite Hjan.
        -- apply Z.eqb_neq in Hjan.
           assert ((month day - 1 =? 0) = false) as -> by lia.
           destruct (calendar_month day) as (_ & Hmonth & _).
           by assert ((month day - 1 =? 12) = false) as -> by lia.
    + exfalso. apply is_date_range in Hrd. destruct Hrecon as (Hr1 & Hr2 & _).
      rewrite (Hnone recon) in Hr2; [done|lia].
Qed.

(** X29. The posting days of the FBL3N export, for every date and every list
    of holidays. In January of the year 1, and when the first business day
    of the month cannot be found, the function raises [OverflowError].
    After the first business day of the month the days go from the first
    day of the month before to the day itself. Up to and on the first
    business day they are the days of the two months before, from the first
    day of the month before the last to the last day of the last month; in
    February of the year 1 the function raises [OverflowError] instead. The
    first posting day is the first day of a month. *)
Theorem export_dates (day : date) (off_days : list date) :
  is_date day = true ->
  exists first,
    get_ultimo_plus_one day off_days = Some first
    /\ if (year day =? 1) && (month day =? 1)
       then calculate_export_dates day off_days = Some OverflowError
       else
         match first with
         | OverflowError => calculate_export_dates day off_days = Some OverflowError
         | Returns uplusone =>
             (uplusone < day ->
                exists lower,
                  calculate_export_dates day off_days = Some (Returns (lower, day))
                  /\ is_date lower = true
                  /\ day_of_month lower = 1
                  /\ lower < day
                  /\ (year lower, month lower) = month_before (year day, month day))
             /\ (day <= uplusone ->
                   if (year day =? 1) && (month day =? 2)
                   then calculate_export_dates day off_days = Some OverflowError
                   else
                     exists lower upper,
                       calculate_export_dates day off_days = Some (Returns (lower, upper))
                       /\ is_date lower = true
                       /\ day_of_month lower = 1
                       /\ lower < upper
                       /\ civil (upper + 1) = (year day, month day, 1)
                       /\ (year upper, month upper) = month_before (year day, month day)
                       /\ (year lower, month lower)
                          = month_before (month_before (year day, month day)))
         end.
Proof.
  intros Hday. pose proof (start_of_month_is_date day Hday) as Hstart.
  pose proof (start_of_month_le day) as Hle.
  destruct (calendar_month day) as (Hcivil & Hmonth & Hlast).
  pose proof (first_date_month day) as Hmin.
  assert (exists first, get_ultimo_plus_one day off_days = Some first) as [first Hfirst].
  { unfold get_ultimo_plus_one. cbv zeta.
    destruct (seek_forth (get_start_of_month day) off_days Hstart)
      as [(u & -> & _)|(-> & _)]; by eexists. }
  exists first. split; [done|].
  unfold calculate_export_dates. cbv zeta. rewrite Hfirst.
  remember (get_start_of_month day) as start eqn:Hs. clear Hs.
  apply is_date_range in Hstart.
  destruct ((year day =? 1) && (month day =? 1)) eqn:Hjan.
  - apply andb_true_iff in Hjan as [Hy Hm]. apply Z.eqb_eq in Hy, Hm.
    rewrite (proj2 Hmin (conj Hy Hm)). reflexivity.
  - assert (start <> date_min) as Hne.
    { intros Heq. destruct (proj1 Hmin Heq) as [Hy Hm]. rewrite Hy, Hm in Hjan. done. }
    rewrite (plus_days_date start (-1)) by (apply is_date_range; lia).
    cbn [and_then]. destruct first as [u|]; [|done]. cbn [and_then].
    replace (start + -1) with (start - 1) by lia.
    assert (is_date (start - 1) = true) as Hprev by (apply is_date_range; lia).
    pose proof (start_of_month_is_date (start - 1) Hprev) as Hbefore.
    pose proof (start_of_month_le (start - 1)) as Hle1.
    destruct (calendar_month (start - 1)) as (Hcivil1 & Hmonth1 & Hlast1).
    pose proof (first_date_month (start - 1)) as Hmin1.
    assert ((year (start - 1), month (start - 1)) = month_before (year day, month day))
      as Hym by exact Hlast.
    remember (get_start_of_month (start - 1)) as before eqn:Hb. clear Hb.
    assert ((year before, month before) = month_before (year day, month day)) as Hymb.
    { unfold year at 1, month at 1. rewrite Hcivil1. cbn [fst snd]. exact Hlast. }
    split.
    + intros Hlt. apply Z.ltb_lt in Hlt. rewrite Hlt. exists before.
      split; [done|]. split; [done|].
      split; [unfold day_of_month; by rewrite Hcivil1|]. split; [lia|done].
    + intros Hge. apply Z.ltb_ge in Hge. rewrite Hge.
      apply is_date_range in Hbefore.
      destruct ((year day =? 1) && (month day =? 2)) eqn:Hfeb.
      * apply andb_true_iff in Hfeb as [Hy Hm]. apply Z.eqb_eq in Hy, Hm.
        assert (before = date_min) as ->.
        { apply Hmin1. rewrite Hy, Hm in Hym. unfold month_before in Hym.
          cbn [fst snd] in Hym. change (2 =? 1) with false in Hym.
          by injection Hym as -> ->. }
        reflexivity.
      * assert (before <> date_min) as Hne1.
        { intros Heq. destruct (proj1 Hmin1 Heq) as [Hy Hm].
          rewrite Hy, Hm in Hym. unfold month_before in Hym. cbn [fst snd] in Hym.
          destruct (month day =? 1) eqn:Hm1.
          - injection Hym as Hy1 Hm12. lia.
          - injection Hym as Hy1 Hm2.
            assert (year day = 1) as Hyd by lia. assert (month day = 2) as Hmd by lia.
            rewrite Hyd, Hmd in Hfeb. done. }
        rewrite (plus_days_date before (-1)) by (apply is_date_range; lia).
        cbn [and_then]. replace (before + -1) with (before - 1) by lia.
        assert (is_date (before - 1) = true) as Hprev1 by (apply is_date_range; lia).
        pose proof (start_of_month_is_date (before - 1) Hprev1) as Hlower.
        pose proof (start_of_month_le (before - 1)) as Hle2.
        destruct (calendar_month (before - 1)) as (Hcivil2 & _ & _).
        eexists _, _. split; [done|]. split; [done|].
        split; [unfold day_of_month; by rewrite Hcivil2|]. split; [lia|].
        split; [by replace (start - 1 + 1) with start by lia|]. split; [done|].
        unfold year at 1, month at 1. rewrite Hcivil2. cbn [fst snd].
        rewrite Hlast1. f_equal. exact Hym.
Qed.

(** ** The first of November 2023, a Wednesday, without holidays *)

Definition a_wednesday : date := ymd 2023 11 1.

Lemma ultimo_plus_one_is_first_workday_witness :
  is_date a_wednesday = true
  /\ ((exists uplusone,
          get_ultimo_plus_one a_wednesday [] = Some (Returns uplusone)
          /\ is_date uplusone = true
          /\ first_busday_from (get_start_of_month a_wednesday) [] uplusone)
      \/ (get_ultimo_plus_one a_wednesday [] = Some OverflowError
          /\ forall d, get_start_of_month a_wednesday <= d <= date_max ->
               is_busday d [] = false)).
Proof.
  split; [reflexivity|].
  apply (ultimo_plus_one_is_first_workday a_wednesday []). reflexivity.
Defined.

Lemma ultimo_is_last_workday_before_witness :
  is_date a_wednesday = true
  /\ ((exists ultimo,
          get_ultimo a_wednesday [] = Some (Returns ultimo)
          /\ is_date ultimo = true
          /\ last_busday_before a_wednesday [] ultimo)
      \/ (get_ultimo a_wednesday [] = Some OverflowError
          /\ forall d, date_min <= d < a_wednesday -> is_busday d [] = false)).
Proof.
  split; [reflexivity|].
  apply (ultimo_is_last_workday_before a_wednesday []). reflexivity.
Defined.

Lemma reconciliation_times_witness :
  is_date a_wednesday = true
  /\ (exists first,
      get_ultimo_plus_one a_wednesday [] = Some first
      /\ match first with
         | OverflowError =>
             calculate_reconciliation_times a_wednesday [] = Some OverflowError
         | Returns uplusone =>
             (uplusone < a_wednesday ->
                exists times,
                  calculate_reconciliation_times a_wednesday [] = Some (Returns times)
                  /\ reconciliation_date times = a_wednesday
                  /\ conversion_date times = a_wednesday
                  /\ fiscal_period times = month a_wednesday
                  /\ fiscal_year times = year a_wednesday + 1)
             /\ (a_wednesday <= uplusone ->
                   (exists times,
                       calculate_reconciliation_times a_wednesday [] = Some (Returns times)
                       /\ last_busday_before (get_start_of_month a_wednesday) []
                            (reconciliation_date times)
                       /\ is_date (reconciliation_date times) = true
                       /\ conversion_date times = reconciliation_date times
                       /\ fiscal_period times
                          = (if month a_wednesday =? 1 then 12 else month a_wednesday - 1)
                       /\ fiscal_year times
                          = (if month a_wednesday =? 1 then year a_wednesday
                             else year a_wednesday + 1))
                   \/ (calculate_reconciliation_times a_wednesday [] = Some OverflowError
                       /\ forall d, date_min <= d < get_start_of_month a_wednesday ->
                            is_busday d [] = false))
         end).
Proof.
  split; [reflexivity|].
  apply (reconciliation_times a_wednesday []). reflexivity.
Defined.

Lemma export_dates_witness :
  is_date a_wednesday = true
  /\ (exists first,
      get_ultimo_plus_one a_wednesday [] = Some first
      /\ if (year a_wednesday =? 1) && (month a_wednesday =? 1)
         then calculate_export_dates a_wednesday [] = Some OverflowError
         else
           match first with
           | OverflowError => calculate_export_dates a_wednesday [] = Some OverflowError
           | Returns uplusone =>
               (uplusone < a_wednesday ->
                  exists lower,
                    calculate_export_dates a_wednesday [] = Some (Returns (lower, a_wednesday))
                    /\ is_date lower = true
                    /\ day_of_month lower = 1
                    /\ lower < a_wednesday
                    /\ (year lower, month lower)
                       = month_before (year a_wednesday, month a_wednesday))
               /\ (a_wednesday <= uplusone ->
                     if (year a_wednesday =? 1) && (month a_wednesday =? 2)
                     then calculate_export_dates a_wednesday [] = Some OverflowError
                     else
                       exists lower upper,
                         calculate_export_dates a_wednesday [] = Some (Returns (lower, upper))
                         /\ is_date lower = true
                         /\ day_of_month lower = 1
                         /\ lower < upper
                         /\ civil (upper + 1) = (year a_wednesday, month a_wednesday, 1)
                         /\ (year upper, month upper)
                            = month_before (year a_wednesday, month a_wednesday)
                         /\ (year lower, month lower)
                            = month_before
                                (month_before (year a_wednesday, month a_wednesday)))
           end).
Proof.
  split; [reflexivity|].
  apply (export_dates a_wednesday []). reflexivity.
Defined.

(** ** The ends of the calendar *)

(** The weekdays of December 9999. *)
Definition last_december : list date :=
  filter (fun d => weekday d <? 5) ((fun k => ymd 9999 12 1 + Z.of_nat k) <$> seq 0 31).

Example first_date_has_no_ultimo : get_ultimo date_min [] = Some OverflowError.
Proof. reflexivity. Qed.

Example last_december_has_no_workday :
  get_ultimo_plus_one (ymd 9999 12 15) last_december = Some OverflowError.
Proof. vm_compute. reflexivity. Qed.

Example first_date_has_no_reconciliation :
  calculate_reconciliation_times date_min [] = Some OverflowError.
Proof. vm_compute. reflexivity. Qed.

Example first_january_has_no_export_dates :
  calculate_export_dates (ymd 1 1 15) [] = Some OverflowError.
Proof. vm_compute. reflexivity. Qed.

Example first_february_has_no_export_dates :
  calculate_export_dates (ymd 1 2 1) [] = Some OverflowError.
Proof. vm_compute. reflexivity. Qed.

Example a_wednesday_times :
  calculate_reconciliation_times a_wednesday []
  = Some (Returns {| fiscal_year := 2024; fiscal_period := 10;
                     reconciliation_date := ymd 2023 10 31;
                     conversion_date := ymd 2023 10 31 |})
  /\ calculate_export_dates a_wednesday [] = Some (Returns (ymd 2023 9 1, ymd 2023 10 31)).
Proof. split; vm_compute; reflexivity. Qed.

End DatesFacts.
